(** * The VirtualBox driver of docker-machine: lifecycle and host-only network

    A shallow embedding of [drivers/virtualbox/virtualbox.go] and of the
    parts of Go's [net] package it calls, followed by the properties of the
    driver that the specification states.

    Conventions.
    - A Go [int] is a [Z]; the code only compares and formats the integers
      it handles, except for the conversion [byte(n)], written [byte_of_int].
    - A Go [[]byte] ([net.IP], [net.IPMask]) is a [list Z] of values in
      [0, 255]; the [nil] slice is the empty list (the code never builds an
      empty slice that is not [nil]).
    - The hypervisor, the operating system and the injected collaborators
      are an environment [Env] of oracles; each oracle sees the whole history
      of calls made so far, so that any deterministic outside world is an
      [Env].  A driver operation is a function from a [world] (the [Driver]
      struct and the history) to an [outcome] and the new [world].
    - A collaborator that is handed the driver itself ([d.ipWaiter.Wait(d)],
      [drivers.RunSSHCommandFromDriver(d, ...)]) returns, with its result,
      what it leaves in the fields of the driver that it fills in: the IP
      address, the SSH user and the SSH port.
    - Logging ([log.Infof], [log.Debugf], ...) is not modelled. *)

From Stdlib Require Import ZArith String Ascii List Lia DecimalString.
From stdpp Require Import base list strings gmap.

Open Scope string_scope.
Open Scope list_scope.
Open Scope Z_scope.

(** ** Go's [net] package *)

Module GoNet.

Definition IP := list Z.
Definition IPMask := list Z.

Record IPNet := mkIPNet { IPNet_IP : IP; IPNet_Mask : IPMask }.

Definition IPv4len : nat := 4.
Definition IPv6len : nat := 16.

(** [byte(n)] for an [int] [n]. *)
Definition byte_of_int (n : Z) : Z := n mod 256.

Definition v4InV6Prefix : list Z := [0; 0; 0; 0; 0; 0; 0; 0; 0; 0; 255; 255].

(** [net.IPv4(a, b, c, d)]: the 16-byte form of the address. *)
Definition IPv4 (a b c d : Z) : IP := v4InV6Prefix ++ [a; b; c; d].

Definition bytesEqual (x y : list Z) : bool := bool_decide (x = y).

Definition isZeros (p : list Z) : bool := forallb (Z.eqb 0) p.

Definition allFF (b : list Z) : bool := forallb (Z.eqb 255) b.

(** [ip.To4()]; [[]] stands for [nil]. *)
Definition To4 (ip : IP) : IP :=
  if (length ip =? IPv4len)%nat then ip
  else if (length ip =? IPv6len)%nat
          && isZeros (take 10 ip)
          && bool_decide (ip !! 10%nat = Some 255)
          && bool_decide (ip !! 11%nat = Some 255)
       then drop 12 ip
       else [].

(** [ip.Equal(x)]. *)
Definition Equal (ip x : IP) : bool :=
  if (length ip =? length x)%nat then bytesEqual ip x
  else if (length ip =? IPv4len)%nat && (length x =? IPv6len)%nat
       then bytesEqual (take 12 x) v4InV6Prefix && bytesEqual ip (drop 12 x)
  else if (length ip =? IPv6len)%nat && (length x =? IPv4len)%nat
       then bytesEqual (take 12 ip) v4InV6Prefix && bytesEqual (drop 12 ip) x
  else false.

(** The loop of [CIDRMask]: [l] bytes, [n] leading one bits left to write. *)
Fixpoint CIDRMask_bytes (l : nat) (n : Z) : list Z :=
  match l with
  | O => []
  | S l' =>
      if 8 <=? n then 255 :: CIDRMask_bytes l' (n - 8)
      else (255 - Z.shiftr 255 n) :: CIDRMask_bytes l' 0
  end.

(** [net.CIDRMask(ones, bits)]. *)
Definition CIDRMask (ones bits : Z) : IPMask :=
  if negb (bits =? 8 * Z.of_nat IPv4len) && negb (bits =? 8 * Z.of_nat IPv6len) then []
  else if (ones <? 0) || (bits <? ones) then []
  else CIDRMask_bytes (Z.to_nat (bits / 8)) ones.

Fixpoint and_bytes (ip mask : list Z) : list Z :=
  match ip, mask with
  | b :: ip', m :: mask' => Z.land b m :: and_bytes ip' mask'
  | _, _ => []
  end.

(** [ip.Mask(mask)]. *)
Definition Mask (ip : IP) (mask : IPMask) : IP :=
  let mask :=
    if (length mask =? IPv6len)%nat && (length ip =? IPv4len)%nat && allFF (take 12 mask)
    then drop 12 mask else mask in
  let ip :=
    if (length mask =? IPv4len)%nat && (length ip =? IPv6len)%nat
       && bytesEqual (take 12 ip) v4InV6Prefix
    then drop 12 ip else ip in
  if negb (length ip =? length mask)%nat then []
  else and_bytes ip mask.

(** *** Parsing ([net/parse.go], [net/ip.go]) *)

Definition big : Z := 0xFFFFFF.

Definition code (c : ascii) : Z := Z.of_N (N_of_ascii c).

Definition is_digit (c : ascii) : bool := (48 <=? code c) && (code c <=? 57).

(** The value of a hexadecimal digit, as the three branches of [xtoi]. *)
Definition hex_value (c : ascii) : option Z :=
  let k := code c in
  if (48 <=? k) && (k <=? 57) then Some (k - 48)
  else if (97 <=? k) && (k <=? 102) then Some (k - 97 + 10)
  else if (65 <=? k) && (k <=? 70) then Some (k - 65 + 10)
  else None.

(** The loop of [dtoi] from the current position: the number read and the
    rest of the string, or [None] when the number reaches [big]. *)
Fixpoint dtoi_loop (s : string) (n : Z) : option (Z * string) :=
  match s with
  | String c s' =>
      if is_digit c then
        let n' := n * 10 + (code c - 48) in
        if big <=? n' then None else dtoi_loop s' n'
      else Some (n, s)
  | EmptyString => Some (n, s)
  end.

(** [dtoi(s, i0)] on the suffix of [s] at [i0]; [None] is [ok = false]
    (too big, or no digit at all). *)
Definition dtoi (s : string) : option (Z * string) :=
  match s with
  | String c _ => if is_digit c then dtoi_loop s 0 else None
  | EmptyString => None
  end.

Fixpoint xtoi_loop (s : string) (n : Z) : option (Z * string) :=
  match s with
  | String c s' =>
      match hex_value c with
      | Some v =>
          let n' := n * 16 + v in
          if big <=? n' then None else xtoi_loop s' n'
      | None => Some (n, s)
      end
  | EmptyString => Some (n, s)
  end.

(** [xtoi(s, i0)], as [dtoi]. *)
Definition xtoi (s : string) : option (Z * string) :=
  match s with
  | String c _ =>
      match hex_value c with
      | Some _ => xtoi_loop s 0
      | None => None
      end
  | EmptyString => None
  end.

(** The loop of [parseIPv4]: [k] octets still to read, [j > 0] once the
    first has been read; the octets read and the rest of the string. *)
Fixpoint parseIPv4_loop (k : nat) (first : bool) (s : string) : option (list Z * string) :=
  match k with
  | O => Some ([], s)
  | S k' =>
      match s with
      | EmptyString => None (* missing octets *)
      | String c s' =>
          let after_dot :=
            if first then Some s
            else if Ascii.eqb c "." then Some s' else None in
          match after_dot with
          | None => None
          | Some s1 =>
              match dtoi s1 with
              | None => None
              | Some (n, s2) =>
                  if 255 <? n then None
                  else
                    match parseIPv4_loop k' false s2 with
                    | None => None
                    | Some (p, rest) => Some (byte_of_int n :: p, rest)
                    end
              end
          end
      end
  end.

(** [parseIPv4(s)]; [None] is [nil]. *)
Definition parseIPv4 (s : string) : option IP :=
  match parseIPv4_loop IPv4len true s with
  | Some ([a; b; c; d], EmptyString) => Some (IPv4 a b c d)
  | _ => None
  end.

(** The state of the main loop of [parseIPv6]. *)
Record v6state := mkV6 { v6_ip : list Z; v6_ellipsis : Z; v6_j : nat; v6_rest : string }.

(** The loop [for j < IPv6len] of [parseIPv6].  Every iteration that goes
    round again adds 2 to [j], so that [j = 16 - 2 * n] with [n] the
    number of iterations left; the result is the state at the exit of the
    loop, or [None] where the code returns [nil]. *)
Fixpoint parseIPv6_loop (n : nat) (ip : list Z) (ellipsis : Z) (s : string) : option v6state :=
  match n with
  | O => Some (mkV6 ip ellipsis IPv6len s)
  | S n' =>
      let j := (IPv6len - 2 * n)%nat in
      match xtoi s with
      | None => None
      | Some (v, s1) =>
          if 0xFFFF <? v then None
          else
            match s1 with
            | String "." _ =>
                (* trailing IPv4 *)
                if (ellipsis <? 0) && negb (j =? IPv6len - IPv4len)%nat then None
                else if (IPv6len <? j + IPv4len)%nat then None
                else
                  match parseIPv4 s with
                  | None => None
                  | Some ip4 =>
                      let ip1 := <[j := default 0 (ip4 !! 12%nat)]> ip in
                      let ip2 := <[S j := default 0 (ip4 !! 13%nat)]> ip1 in
                      let ip3 := <[S (S j) := default 0 (ip4 !! 14%nat)]> ip2 in
                      let ip4' := <[S (S (S j)) := default 0 (ip4 !! 15%nat)]> ip3 in
                      Some (mkV6 ip4' ellipsis (j + IPv4len) EmptyString)
                  end
            | _ =>
                let ip1 := <[j := byte_of_int (Z.shiftr v 8)]> ip in
                let ip2 := <[S j := byte_of_int v]> ip1 in
                let j' := (j + 2)%nat in
                match s1 with
                | EmptyString => Some (mkV6 ip2 ellipsis j' s1)
                | String c s2 =>
                    if negb (Ascii.eqb c ":") then None
                    else
                      match s2 with
                      | EmptyString => None
                      | String ":" s3 =>
                          if 0 <=? ellipsis then None
                          else
                            match s3 with
                            | EmptyString => Some (mkV6 ip2 (Z.of_nat j') j' s3)
                            | _ => parseIPv6_loop n' ip2 (Z.of_nat j') s3
                            end
                      | _ => parseIPv6_loop n' ip2 ellipsis s2
                      end
                end
            end
      end
  end.

(** [for k := j - 1; k >= ellipsis; k-- { ip[k+n] = ip[k] }], with [cnt]
    the number of iterations left and [k] the current index plus one. *)
Fixpoint shift_up (cnt k n : nat) (ip : list Z) : list Z :=
  match cnt with
  | O => ip
  | S cnt' =>
      let k' := pred k in
      shift_up cnt' k' n (<[(k' + n)%nat := default 0 (ip !! k')]> ip)
  end.

(** [for k := ellipsis + n - 1; k >= ellipsis; k-- { ip[k] = 0 }]. *)
Fixpoint zero_fill (cnt k : nat) (ip : list Z) : list Z :=
  match cnt with
  | O => ip
  | S cnt' => zero_fill cnt' (pred k) (<[pred k := 0]> ip)
  end.

(** [parseIPv6(s, false)]; [None] is [nil]. *)
Definition parseIPv6 (s : string) : option IP :=
  let ip0 := repeat 0 IPv6len in
  let loop (ellipsis : Z) (s : string) : option IP :=
    match parseIPv6_loop 8 ip0 ellipsis s with
    | None => None
    | Some st =>
        match v6_rest st with
        | String _ _ => None (* must have used the entire string *)
        | EmptyString =>
            let j := v6_j st in
            let e := v6_ellipsis st in
            if (j <? IPv6len)%nat then
              if e <? 0 then None
              else
                let n := (IPv6len - j)%nat in
                let ip1 := shift_up (j - Z.to_nat e) j n (v6_ip st) in
                Some (zero_fill n (Z.to_nat e + n) ip1)
            else if 0 <=? e then None
            else Some (v6_ip st)
        end
    end in
  match s with
  | String ":" (String ":" s') =>
      match s' with
      | EmptyString => Some ip0 (* only the ellipsis *)
      | _ => loop 0 s'
      end
  | _ => loop (-1) s
  end.

(** [s[:i]] and [s[i+1:]] for [i = byteIndex(s, '/')]. *)
Fixpoint split_slash (s : string) : option (string * string) :=
  match s with
  | EmptyString => None
  | String c s' =>
      if Ascii.eqb c "/" then Some (EmptyString, s')
      else match split_slash s' with
           | None => None
           | Some (a, m) => Some (String c a, m)
           end
  end.

(** [net.ParseCIDR(s)]; [None] is the [*ParseError]. *)
Definition ParseCIDR (s : string) : option (IP * IPNet) :=
  match split_slash s with
  | None => None
  | Some (addr, mask) =>
      let '(iplen, ip) :=
        match parseIPv4 addr with
        | Some ip => (IPv4len, Some ip)
        | None => (IPv6len, parseIPv6 addr)
        end in
      match ip, dtoi mask with
      | Some ip, Some (n, EmptyString) =>
          if (n <? 0) || (8 * Z.of_nat iplen <? n) then None
          else
            let m := CIDRMask n (8 * Z.of_nat iplen) in
            Some (ip, mkIPNet (Mask ip m) m)
      | _, _ => None
      end
  end.

End GoNet.

Import GoNet.

(** ** Strings and formatting *)

Definition dquote : ascii := "034"%char.
Definition newline : ascii := "010"%char.

(** [fmt.Sprintf("%d", n)]. *)
Definition itoa (n : Z) : string := NilZero.string_of_int (Z.to_int n).

(** [strings.Contains(s, substr)]. *)
Fixpoint strings_Contains (s substr : string) : bool :=
  if String.prefix substr s then true
  else match s with
       | EmptyString => false
       | String _ s' => strings_Contains s' substr
       end.

(** [strings.SplitN(s, ":", 2)]: one part when [s] has no colon, else the
    text before the first colon and the text after it. *)
Fixpoint SplitN_colon_2 (s : string) : list string :=
  match s with
  | EmptyString => [EmptyString]
  | String c s' =>
      if Ascii.eqb c ":" then [EmptyString; s']
      else match SplitN_colon_2 s' with
           | [a] => [String c a]
           | a :: rest => String c a :: rest
           | [] => []
           end
  end.

Fixpoint all_digits (s : string) : bool :=
  match s with
  | EmptyString => true
  | String c s' => is_digit c && all_digits s'
  end.

Fixpoint digits_value (s : string) (n : Z) : Z :=
  match s with
  | EmptyString => n
  | String c s' => digits_value s' (n * 10 + (code c - 48))
  end.

(** [strconv.Atoi(s)] for a 64-bit [int]: an optional sign and at least one
    digit; [None] is the [*NumError] (syntax or range). *)
Definition Atoi (s : string) : option Z :=
  let '(neg, ds) :=
    match s with
    | String "-" s' => (true, s')
    | String "+" s' => (false, s')
    | _ => (false, s)
    end in
  match ds with
  | EmptyString => None
  | _ =>
      if all_digits ds then
        let n := digits_value ds 0 in
        let v := if neg then - n else n in
        if (v <? - 2 ^ 63) || (2 ^ 63 - 1 <? v) then None else Some v
      else None
  end.

(** [strings.TrimLeft(s, "/")]. *)
Fixpoint TrimLeft_slash (s : string) : string :=
  match s with
  | String "/" s' => TrimLeft_slash s'
  | _ => s
  end.

(** ** Errors and machine states *)

(** Go [error] values.  The package-level errors are compared by identity
    in the code, so each is a constructor; [ErrorString] is an error made by
    [errors.New] or [fmt.Errorf] at run time, or returned by the outside
    world (an [*exec.ExitError], a [*net.OpError], ...).
    [ErrMachineNotExist] and [ErrHostIsNotRunning] are declared in [vbm.go]
    and in [libmachine/drivers]. *)
Inductive error :=
| ErrUnableToGenerateRandomIP
| ErrMustEnableVTX
| ErrNotCompatibleWithHyperV
| ErrNetworkAddrCidr
| ErrMachineNotExist
| ErrHostIsNotRunning
| ParseError (typ text : string)
| NumError (func num : string)
| ErrorString (msg : string).

#[global] Instance error_eq_dec : EqDecision error.
Proof. solve_decision. Defined.

(** [err.Error()]. *)
Definition Error (e : error) : string :=
  match e with
  | ErrUnableToGenerateRandomIP => "unable to generate random IP"
  | ErrMustEnableVTX =>
      "This computer doesn't have VT-X/AMD-v enabled. Enabling it in the BIOS is mandatory"
  | ErrNotCompatibleWithHyperV =>
      "This computer has Hyper-V installed. VirtualBox refuses to boot a 64bits VM when Hyper-V is installed. See https://www.virtualbox.org/ticket/12350"
  | ErrNetworkAddrCidr =>
      "host-only cidr must be specified with a host address, not a network address"
  | ErrMachineNotExist => "machine does not exist"
  | ErrHostIsNotRunning => "Host is not running"
  | ParseError typ text => "invalid " +:+ typ +:+ ": " +:+ text
  | NumError func num => "strconv." +:+ func +:+ ": parsing " +:+ num +:+ ": invalid syntax"
  | ErrorString msg => msg
  end.

(** [fmt.Errorf(prefix + "%s", err)]. *)
Definition Errorf (prefix : string) (e : error) : error :=
  ErrorString (prefix +:+ Error e).

(** [libmachine/state]. *)
Module state.
Inductive State :=
| None | Running | Paused | Saved | Stopped | Stopping | Starting | Error | Timeout.

#[global] Instance State_eq_dec : EqDecision State.
Proof. solve_decision. Defined.
End state.

(** ** The data of the driver *)

(** The fields of [Driver] and of the embedded [*drivers.BaseDriver] that
    the code reads or writes, itself or through the methods of [BaseDriver]
    that it calls. *)
Record Driver := mkDriver {
  MachineName : string;
  StorePath : string;
  SSHUser : string;
  SSHPort : Z;
  IPAddress : string;
  CPU : Z;
  Memory : Z;
  DiskSize : Z;
  Boot2DockerURL : string;
  Boot2DockerImportVM : string;
  HostDNSResolver : bool;
  HostOnlyCIDR : string;
  HostOnlyNicType : string;
  HostOnlyPromiscMode : string;
  NoShare : bool;
  DNSProxy : bool;
  NoVTXCheck : bool;
  SwarmMaster : bool;
  SwarmHost : string;
  SwarmDiscovery : string
}.

Definition set_SSHPort (p : Z) (d : Driver) : Driver :=
  mkDriver (MachineName d) (StorePath d) (SSHUser d) p (IPAddress d) (CPU d) (Memory d)
    (DiskSize d) (Boot2DockerURL d) (Boot2DockerImportVM d) (HostDNSResolver d)
    (HostOnlyCIDR d) (HostOnlyNicType d) (HostOnlyPromiscMode d) (NoShare d) (DNSProxy d)
    (NoVTXCheck d) (SwarmMaster d) (SwarmHost d) (SwarmDiscovery d).

Definition set_SSHUser (u : string) (d : Driver) : Driver :=
  mkDriver (MachineName d) (StorePath d) u (SSHPort d) (IPAddress d) (CPU d) (Memory d)
    (DiskSize d) (Boot2DockerURL d) (Boot2DockerImportVM d) (HostDNSResolver d)
    (HostOnlyCIDR d) (HostOnlyNicType d) (HostOnlyPromiscMode d) (NoShare d) (DNSProxy d)
    (NoVTXCheck d) (SwarmMaster d) (SwarmHost d) (SwarmDiscovery d).

Definition set_IPAddress (a : string) (d : Driver) : Driver :=
  mkDriver (MachineName d) (StorePath d) (SSHUser d) (SSHPort d) a (CPU d) (Memory d)
    (DiskSize d) (Boot2DockerURL d) (Boot2DockerImportVM d) (HostDNSResolver d)
    (HostOnlyCIDR d) (HostOnlyNicType d) (HostOnlyPromiscMode d) (NoShare d) (DNSProxy d)
    (NoVTXCheck d) (SwarmMaster d) (SwarmHost d) (SwarmDiscovery d).

Definition set_HostOnlyCIDR (cidr : string) (d : Driver) : Driver :=
  mkDriver (MachineName d) (StorePath d) (SSHUser d) (SSHPort d) (IPAddress d) (CPU d)
    (Memory d) (DiskSize d) (Boot2DockerURL d) (Boot2DockerImportVM d) (HostDNSResolver d)
    cidr (HostOnlyNicType d) (HostOnlyPromiscMode d) (NoShare d) (DNSProxy d)
    (NoVTXCheck d) (SwarmMaster d) (SwarmHost d) (SwarmDiscovery d).

Definition set_CPU_Memory (cpus mem : Z) (d : Driver) : Driver :=
  mkDriver (MachineName d) (StorePath d) (SSHUser d) (SSHPort d) (IPAddress d) cpus mem
    (DiskSize d) (Boot2DockerURL d) (Boot2DockerImportVM d) (HostDNSResolver d)
    (HostOnlyCIDR d) (HostOnlyNicType d) (HostOnlyPromiscMode d) (NoShare d) (DNSProxy d)
    (NoVTXCheck d) (SwarmMaster d) (SwarmHost d) (SwarmDiscovery d).

Definition set_Swarm (master : bool) (host discovery : string) (d : Driver) : Driver :=
  mkDriver (MachineName d) (StorePath d) (SSHUser d) (SSHPort d) (IPAddress d) (CPU d)
    (Memory d) (DiskSize d) (Boot2DockerURL d) (Boot2DockerImportVM d) (HostDNSResolver d)
    (HostOnlyCIDR d) (HostOnlyNicType d) (HostOnlyPromiscMode d) (NoShare d) (DNSProxy d)
    (NoVTXCheck d) master host discovery.

(** What a collaborator that is handed the driver itself leaves in it.
    [d.ipWaiter.Wait(d)] and [drivers.RunSSHCommandFromDriver(d, ...)] get
    the pointer [d], so that they can store in the driver; their code
    ([ip.go], [libmachine/drivers]) is not among the sources at hand.  They
    are parameters that return, with their result, the values of the fields
    that they leave in the driver: the address of the machine, which the
    waiter records (no function of this file gives [IPAddress] a value, it
    only clears it), and the SSH user and port, which the getters of the
    driver ([GetSSHUsername], [GetSSHPort]) fill in when an SSH client is
    set up. *)
Record handed := mkHanded {
  handed_IPAddress : string;
  handed_SSHUser : string;
  handed_SSHPort : Z
}.

Definition hand_back (h : handed) (d : Driver) : Driver :=
  set_IPAddress (handed_IPAddress h)
    (set_SSHPort (handed_SSHPort h) (set_SSHUser (handed_SSHUser h) d)).

Definition defaultCPU : Z := 1.
Definition defaultMemory : Z := 1024.
Definition defaultHostOnlyCIDR : string := "192.168.99.1/24".
Definition defaultHostOnlyNictype : string := "82540EM".
Definition defaultHostOnlyPromiscMode : string := "deny".
Definition defaultDiskSize : Z := 20000.

(** [NewDriver(hostName, storePath)], without the collaborators, which are
    part of the environment here. *)
Definition NewDriver (hostName storePath : string) : Driver :=
  {| MachineName := hostName; StorePath := storePath; SSHUser := EmptyString; SSHPort := 0;
     IPAddress := EmptyString; CPU := defaultCPU; Memory := defaultMemory;
     DiskSize := defaultDiskSize; Boot2DockerURL := EmptyString; Boot2DockerImportVM := EmptyString;
     HostDNSResolver := false; HostOnlyCIDR := defaultHostOnlyCIDR;
     HostOnlyNicType := defaultHostOnlyNictype;
     HostOnlyPromiscMode := defaultHostOnlyPromiscMode;
     NoShare := false; DNSProxy := false; NoVTXCheck := false;
     SwarmMaster := false; SwarmHost := EmptyString; SwarmDiscovery := EmptyString |}.

(** The structures declared in [network.go], [disk.go] and [vm.go], with
    the fields that this file reads or writes: the name of a host-only
    adapter, and its IPv4 address and mask (the attributes that identify it);
    the address, mask, lease bounds and enabled flag of a DHCP server; the
    path of a virtual disk; the CPU count and memory of a VM. *)
Record hostOnlyNetwork := mkHostOnlyNetwork {
  hon_Name : string;
  hon_IPv4 : IPNet
}.

Record dhcpServer := mkDhcpServer {
  dhcp_IPv4 : IPNet;
  dhcp_LowerIP : IP;
  dhcp_UpperIP : IP;
  dhcp_Enabled : bool
}.

Record VirtualDisk := mkVirtualDisk { vd_Path : string }.
Record VM := mkVM { vm_CPUs : Z; vm_Memory : Z }.

(** ** The outside world *)

(** A call that leaves the process: the hypervisor CLI ([Vbm], behind
    [vbm], [vbmOut] and [vbmOutErr]), the helpers of [network.go], [vm.go]
    and [disk.go] that drive the CLI themselves, the collaborators injected
    in the [Driver], and the operating system. *)
Inductive call :=
| Vbm (args : list string)
| ListHostOnlyAdapters
| GetOrCreateHostOnlyNetwork (hostIP : IP) (netmask : IPMask)
| RemoveOrphanDHCPServers
| AddHostOnlyDHCPServer (ifname : string) (dhcp : dhcpServer)
| SaveIPv4 (n : hostOnlyNetwork)
| GetVMDiskInfo (name : string)
| GetVMInfo (name : string)
| LogsRead (path : string)
| IPWait
| Sleep (ns : Z)
| TimeSleep (ns : Z)
| RandomInt (n : Z)
| NetListen (network address : string)
| ListenerClose (addr : string)
| CopyIsoToMachineDir (storePath machineName url : string)
| UpdateISOCache (storePath url : string)
| SSHKeyGenerate (path : string)
| DiskCreate (size : Z) (publicSSHKeyPath diskPath : string)
| OsStat (path : string)
| CopyFile (src dst : string)
| RunSSHCommand (command : string)
| IsHyperVInstalled
| IsVTXDisabled.

(** What came back. *)
Inductive reply :=
| RDone
| RFail (e : error)
| ROut (stdout stderr : string) (err : option error)
| RNets (nets : gmap string hostOnlyNetwork)
| RNet (n : hostOnlyNetwork)
| RDisk (disk : VirtualDisk)
| RVM (vm : VM)
| RLines (lines : list string)
| RInt (n : Z)
| RStr (s : string)
| RBool (b : bool).

Record event := Ev { ev_call : call; ev_reply : reply }.

Definition reply_of_err (r : option error) : reply :=
  match r with
  | Some e => RFail e
  | None => RDone
  end.

Definition reply_of_res {A : Type} (f : A -> reply) (r : error + A) : reply :=
  match r with
  | inl e => RFail e
  | inr a => f a
  end.

(** The environment: one oracle for each kind of call, given the history of
    the calls made before it, and the pure functions and constants of the
    repository and of the host that this file does not define. *)
Record Env := mkEnv {
  env_vbmOutErr : list event -> list string -> string * string * option error;
  env_listHostOnlyAdapters : list event -> error + gmap string hostOnlyNetwork;
  env_getOrCreateHostOnlyNetwork : list event -> IP -> IPMask -> error + hostOnlyNetwork;
  env_removeOrphanDHCPServers : list event -> option error;
  env_addHostOnlyDHCPServer : list event -> string -> dhcpServer -> option error;
  env_SaveIPv4 : list event -> hostOnlyNetwork -> option error;
  env_getVMDiskInfo : list event -> string -> error + VirtualDisk;
  env_getVMInfo : list event -> string -> error + VM;
  env_logsReader_Read : list event -> string -> error + list string;
  env_ipWaiter_Wait : list event -> Driver -> option error * handed;
  env_randomInter_RandomInt : list event -> Z -> Z;
  env_net_Listen : list event -> string -> string -> error + string;
  env_CopyIsoToMachineDir : list event -> string -> string -> string -> option error;
  env_UpdateISOCache : list event -> string -> string -> option error;
  env_sshKeyGenerator_Generate : list event -> string -> option error;
  env_diskCreator_Create : list event -> Z -> string -> string -> option error;
  env_os_Stat : list event -> string -> option error;
  env_CopyFile : list event -> string -> string -> option error;
  env_RunSSHCommandFromDriver : list event -> Driver -> string -> (error + string) * handed;
  env_isHyperVInstalled : list event -> bool;
  env_IsVTXDisabled : list event -> bool;
  (* pure *)
  env_getHostOnlyAdapter : gmap string hostOnlyNetwork -> IP -> IPMask -> option hostOnlyNetwork;
  env_reMachineNotFound_FindString : string -> string;
  env_checkVBoxManageVersion : string -> option error;
  env_os_IsNotExist : error -> bool;
  env_runtime_NumCPU : Z;
  env_ResolveStorePath : Driver -> string -> string;
  env_GetSSHKeyPath : Driver -> string;
  env_filepath_Join : list string -> string;
  env_GetHomeDir : string;
  env_getShareDriveAndName : string * string;
  env_strings_TrimSpace : string -> string
}.

(** ** The monad of driver operations *)

Record world := mkWorld { drv : Driver; hist : list event }.

(** How an operation ends: a result, a Go [error], a run-time panic, or the
    exhaustion of the fuel given to an unbounded loop. *)
Inductive outcome (A : Type) :=
| Ok (a : A)
| Err (e : error)
| Panic (msg : string)
| OutOfFuel.
Arguments Ok {A} a.
Arguments Err {A} e.
Arguments Panic {A} msg.
Arguments OutOfFuel {A}.

Definition M (A : Type) : Type := world -> outcome A * world.

Definition M_ret_def {A : Type} (a : A) : M A := fun w => (Ok a, w).

Definition M_bind_def {A B : Type} (f : A -> M B) (m : M A) : M B :=
  fun w =>
    match m w with
    | (Ok a, w') => f a w'
    | (Err e, w') => (Err e, w')
    | (Panic msg, w') => (Panic msg, w')
    | (OutOfFuel, w') => (OutOfFuel, w')
    end.

#[global] Instance M_ret : MRet M := @M_ret_def.
#[global] Instance M_bind : MBind M := @M_bind_def.

Definition raise {A : Type} (e : error) : M A := fun w => (Err e, w).
Definition panic {A : Type} (msg : string) : M A := fun w => (Panic msg, w).
Definition out_of_fuel {A : Type} : M A := fun w => (OutOfFuel, w).

(** [v, err := f()] where the caller looks at [err] itself. *)
Definition catch {A : Type} (m : M A) : M (error + A) :=
  fun w =>
    match m w with
    | (Ok a, w') => (Ok (inr a), w')
    | (Err e, w') => (Ok (inl e), w')
    | (Panic msg, w') => (Panic msg, w')
    | (OutOfFuel, w') => (OutOfFuel, w')
    end.

(** [if err != nil { return err }]. *)
Definition must (m : M (option error)) : M unit :=
  r ← m; match r with Some e => raise e | None => mret tt end.

Definition must_val {A : Type} (m : M (error + A)) : M A :=
  r ← m; match r with inl e => raise e | inr a => mret a end.

(** [if err != nil { return fmt.Errorf(prefix + "%s", err) }]. *)
Definition must_wrap (prefix : string) (m : M (option error)) : M unit :=
  r ← m; match r with Some e => raise (Errorf prefix e) | None => mret tt end.

Definition get_drv : M Driver := fun w => (Ok (drv w), w).
Definition modify_drv (f : Driver -> Driver) : M unit :=
  fun w => (Ok tt, mkWorld (f (drv w)) (hist w)).

Definition record (c : call) (r : reply) (w : world) : world :=
  mkWorld (drv w) (hist w ++ [Ev c r]).

(** An oracle call: ask the environment with the history so far, and append
    the call and its reply to the history. *)
Definition ask {A : Type} (c : call) (oracle : list event -> A) (rep : A -> reply) : M A :=
  fun w => let a := oracle (hist w) in (Ok a, record c (rep a) w).

(** The call of a collaborator that is handed the driver: as [ask], and the
    driver holds afterwards what the collaborator left in it. *)
Definition ask_handing {A : Type} (c : call) (oracle : list event -> Driver -> A * handed)
           (rep : A -> reply) : M A :=
  fun w =>
    let r := oracle (hist w) (drv w) in
    (Ok (fst r), mkWorld (hand_back (snd r) (drv w)) (hist w ++ [Ev c (rep (fst r))])).

Definition second : Z := 1000000000.

(** ** Pure functions of the driver *)

(** [\w] of Go's [regexp]: [[0-9A-Za-z_]]. *)
Definition is_word (c : ascii) : bool :=
  let k := code c in
  ((48 <=? k) && (k <=? 57)) || ((65 <=? k) && (k <=? 90))
  || ((97 <=? k) && (k <=? 122)) || (k =? 95).

(** The longest run of word characters at the head of [s], and the rest. *)
Fixpoint span_word (s : string) : string * string :=
  match s with
  | String c s' =>
      if is_word c then let '(w, rest) := span_word s' in (String c w, rest)
      else (EmptyString, s)
  | EmptyString => (EmptyString, EmptyString)
  end.

Fixpoint strip_prefix (p s : string) : option string :=
  match p with
  | EmptyString => Some s
  | String a p' =>
      match s with
      | String b s' => if Ascii.eqb a b then strip_prefix p' s' else None
      | EmptyString => None
      end
  end.

Definition VMState_key : string := "VMState=" +:+ String dquote EmptyString.

(** A match of [VMState="(\w+)"] that starts at the head of [s]: the
    submatch.  The run of word characters is taken whole: it is followed by
    a quote, which is not a word character, so no shorter run can match. *)
Definition match_VMState_here (s : string) : option string :=
  match strip_prefix VMState_key s with
  | None => None
  | Some s1 =>
      match span_word s1 with
      | (EmptyString, _) => None
      | (tok, String c _) => if Ascii.eqb c dquote then Some tok else None
      | (_, EmptyString) => None
      end
  end.

(** [regexp.MustCompile(`(?m)^VMState="(\w+)"`).FindStringSubmatch(s)],
    reduced to its group 1: the leftmost match, where [^] holds at the start
    of the text and after every newline ([bol] tells whether it holds at
    the head of [s]); [None] is the [nil] slice. *)
Fixpoint FindStringSubmatch_VMState (bol : bool) (s : string) : option string :=
  match (if bol then match_VMState_here s else None) with
  | Some tok => Some tok
  | None =>
      match s with
      | EmptyString => None
      | String c s' => FindStringSubmatch_VMState (Ascii.eqb c newline) s'
      end
  end.

(** The part of [GetState] that follows a successful [showvminfo]. *)
Definition parse_VMState (stdout : string) : state.State :=
  match FindStringSubmatch_VMState true stdout with
  | None => state.None
  | Some tok =>
      if String.eqb tok "running" then state.Running
      else if String.eqb tok "paused" then state.Paused
      else if String.eqb tok "saved" then state.Saved
      else if String.eqb tok "poweroff" || String.eqb tok "aborted" then state.Stopped
      else state.None
  end.

Definition parseAndValidateCIDR (hostOnlyCIDR : string) : error + (IP * IPNet) :=
  match ParseCIDR hostOnlyCIDR with
  | None => inl (ParseError "CIDR address" hostOnlyCIDR)
  | Some (ip, network) =>
      let networkAddress := To4 (IPNet_IP network) in
      if Equal ip networkAddress then inl ErrNetworkAddrCidr
      else inr (ip, network)
  end.

(** The clamp of the CPU count in [CreateVM]. *)
Definition clamp_cpus (numCPU cpu : Z) : Z :=
  let cpus := cpu in
  let cpus := if cpus <? 1 then numCPU else cpus in
  let cpus := if 32 <? cpus then 32 else cpus in
  cpus.

Definition on_off (b : bool) : string := if b then "on" else "off".

(** ** The operations of the driver *)

Section Operations.

Variable env : Env.

(** *** Calls to the outside world *)

(** Modelled from the spec: [vbm], [vbmOut] and [vbmOutErr] belong to the
    command executor of [vbm.go], which is not part of the sources at hand;
    it issues a command to the hypervisor CLI, captures stdout and stderr,
    and maps a non-zero exit to an error.  [vbmOut] drops the stderr of
    [vbmOutErr], [vbm] drops both outputs. *)
Definition vbmOutErr (args : list string) : M (string * string * option error) :=
  ask (Vbm args) (fun h => env_vbmOutErr env h args)
      (fun '(out, err, e) => ROut out err e).

Definition vbmOut (args : list string) : M (string * option error) :=
  '(out, _, e) ← vbmOutErr args; mret (out, e).

Definition vbm (args : list string) : M (option error) :=
  '(_, _, e) ← vbmOutErr args; mret e.

Definition listHostOnlyAdapters : M (error + gmap string hostOnlyNetwork) :=
  ask ListHostOnlyAdapters (env_listHostOnlyAdapters env) (reply_of_res RNets).

Definition getOrCreateHostOnlyNetwork (hostIP : IP) (netmask : IPMask)
  : M (error + hostOnlyNetwork) :=
  ask (GetOrCreateHostOnlyNetwork hostIP netmask)
      (fun h => env_getOrCreateHostOnlyNetwork env h hostIP netmask) (reply_of_res RNet).

Definition removeOrphanDHCPServers : M (option error) :=
  ask RemoveOrphanDHCPServers (env_removeOrphanDHCPServers env) reply_of_err.

Definition addHostOnlyDHCPServer (ifname : string) (dhcp : dhcpServer) : M (option error) :=
  ask (AddHostOnlyDHCPServer ifname dhcp)
      (fun h => env_addHostOnlyDHCPServer env h ifname dhcp) reply_of_err.

Definition hostOnlyNetwork_SaveIPv4 (n : hostOnlyNetwork) : M (option error) :=
  ask (SaveIPv4 n) (fun h => env_SaveIPv4 env h n) reply_of_err.

Definition getVMDiskInfo (name : string) : M (error + VirtualDisk) :=
  ask (GetVMDiskInfo name) (fun h => env_getVMDiskInfo env h name) (reply_of_res RDisk).

Definition getVMInfo (name : string) : M (error + VM) :=
  ask (GetVMInfo name) (fun h => env_getVMInfo env h name) (reply_of_res RVM).

Definition logsReader_Read (path : string) : M (error + list string) :=
  ask (LogsRead path) (fun h => env_logsReader_Read env h path) (reply_of_res RLines).

Definition ipWaiter_Wait : M (option error) :=
  ask_handing IPWait (env_ipWaiter_Wait env) reply_of_err.

Definition sleeper_Sleep (ns : Z) : M unit :=
  ask (Sleep ns) (fun _ => tt) (fun _ => RDone).

Definition time_Sleep (ns : Z) : M unit :=
  ask (TimeSleep ns) (fun _ => tt) (fun _ => RDone).

Definition randomInter_RandomInt (n : Z) : M Z :=
  ask (RandomInt n) (fun h => env_randomInter_RandomInt env h n) RInt.

Definition net_Listen (network address : string) : M (error + string) :=
  ask (NetListen network address) (fun h => env_net_Listen env h network address)
      (reply_of_res RStr).

Definition listener_Close (addr : string) : M unit :=
  ask (ListenerClose addr) (fun _ => tt) (fun _ => RDone).

Definition b2dUpdater_CopyIsoToMachineDir (storePath machineName url : string)
  : M (option error) :=
  ask (CopyIsoToMachineDir storePath machineName url)
      (fun h => env_CopyIsoToMachineDir env h storePath machineName url) reply_of_err.

Definition b2dUpdater_UpdateISOCache (storePath url : string) : M (option error) :=
  ask (UpdateISOCache storePath url)
      (fun h => env_UpdateISOCache env h storePath url) reply_of_err.

Definition sshKeyGenerator_Generate (path : string) : M (option error) :=
  ask (SSHKeyGenerate path) (fun h => env_sshKeyGenerator_Generate env h path) reply_of_err.

Definition diskCreator_Create (size : Z) (pub path : string) : M (option error) :=
  ask (DiskCreate size pub path)
      (fun h => env_diskCreator_Create env h size pub path) reply_of_err.

Definition os_Stat (path : string) : M (option error) :=
  ask (OsStat path) (fun h => env_os_Stat env h path) reply_of_err.

Definition mcnutils_CopyFile (src dst : string) : M (option error) :=
  ask (CopyFile src dst) (fun h => env_CopyFile env h src dst) reply_of_err.

Definition RunSSHCommandFromDriver (command : string) : M (error + string) :=
  ask_handing (RunSSHCommand command)
              (fun h d => env_RunSSHCommandFromDriver env h d command) (reply_of_res RStr).

Definition isHyperVInstalled : M bool :=
  ask IsHyperVInstalled (env_isHyperVInstalled env) RBool.

Definition Driver_IsVTXDisabled : M bool :=
  ask IsVTXDisabled (env_IsVTXDisabled env) RBool.

Definition publicSSHKeyPath (d : Driver) : string := env_GetSSHKeyPath env d +:+ ".pub".

Definition diskPath (d : Driver) : string := env_ResolveStorePath env d "disk.vmdk".

(** *** State *)

Definition GetState : M state.State :=
  d ← get_drv;
  '(stdout, stderr, err) ← vbmOutErr ["showvminfo"; MachineName d; "--machinereadable"];
  match err with
  | Some e =>
      if negb (String.eqb (env_reMachineNotFound_FindString env stderr) EmptyString)
      then raise ErrMachineNotExist
      else raise e
  | None => mret (parse_VMState stdout)
  end.

(** *** Port forwarding *)

(** Runs the deferred [ln.Close()] calls, last opened first. *)
Fixpoint close_all (deferred : list string) : M unit :=
  match deferred with
  | [] => mret tt
  | addr :: rest => _ ← listener_Close addr; close_all rest
  end.

(** The loop of [getAvailableTCPPort], [n] iterations left; [deferred]
    holds the listeners opened so far, last first.  The deferred calls run
    when the function returns, whatever it returns. *)
Fixpoint getAvailableTCPPort_loop (n : nat) (port : Z) (deferred : list string) : M Z :=
  match n with
  | O => _ ← close_all deferred; raise (ErrorString "unable to allocate tcp port")
  | S n' =>
      r ← net_Listen "tcp4" ("127.0.0.1:" +:+ itoa port);
      match r with
      | inl e => _ ← close_all deferred; raise e
      | inr addr =>
          let deferred := addr :: deferred in
          match SplitN_colon_2 addr !! 1%nat with
          | None => _ ← close_all deferred; panic "index out of range"
          | Some part =>
              match Atoi part with
              | None => _ ← close_all deferred; raise (NumError "Atoi" part)
              | Some p =>
                  if negb (p =? 0) then _ ← close_all deferred; mret p
                  else
                    (* throw away the port hint before trying again *)
                    _ ← time_Sleep 1;
                    getAvailableTCPPort_loop n' 0 deferred
              end
          end
      end
  end.

Definition getAvailableTCPPort (port : Z) : M Z :=
  getAvailableTCPPort_loop 11 port [].

Definition setPortForwarding (interfaceNum : Z) (mapName protocol : string)
           (guestPort desiredHostPort : Z) : M Z :=
  d ← get_drv;
  actualHostPort ← getAvailableTCPPort desiredHostPort;
  let cmd := "--natpf" +:+ itoa interfaceNum in
  _ ← vbm ["modifyvm"; MachineName d; cmd; "delete"; mapName];
  _ ← must (vbm ["modifyvm"; MachineName d; cmd;
                 mapName +:+ "," +:+ protocol +:+ ",127.0.0.1," +:+ itoa actualHostPort
                 +:+ ",," +:+ itoa guestPort]);
  mret actualHostPort.

(** *** Host-only network *)

(** The loop of [getRandomIPinSubnet], [n] draws left: the address chosen,
    or [[]] ([nil]) when every draw clashed with the host. *)
Fixpoint getRandomIPinSubnet_loop (n : nat) (nAddr : IP) : M IP :=
  match n with
  | O => mret []
  | S n' =>
      r ← randomInter_RandomInt 25;
      match nAddr !! 3%nat with
      | None => panic "index out of range"
      | Some h =>
          if negb (byte_of_int r =? h) then
            mret (IPv4 (default 0 (nAddr !! 0%nat)) (default 0 (nAddr !! 1%nat))
                       (default 0 (nAddr !! 2%nat)) (byte_of_int r))
          else getRandomIPinSubnet_loop n' nAddr
      end
  end.

Definition getRandomIPinSubnet (baseIP : IP) : M IP :=
  let nAddr := To4 baseIP in
  dhcpAddr ← getRandomIPinSubnet_loop 5 nAddr;
  match dhcpAddr with
  | [] => raise ErrUnableToGenerateRandomIP
  | _ => mret dhcpAddr
  end.

Definition setupHostOnlyNetwork (machineName : string) : M hostOnlyNetwork :=
  d ← get_drv;
  let hostOnlyCIDR :=
    if String.eqb (HostOnlyCIDR d) EmptyString then defaultHostOnlyCIDR else HostOnlyCIDR d in
  match parseAndValidateCIDR hostOnlyCIDR with
  | inl e => raise e
  | inr (ip, network) =>
      hostOnlyAdapter ← must_val (getOrCreateHostOnlyNetwork ip (IPNet_Mask network));
      _ ← must removeOrphanDHCPServers;
      dhcpAddr ← getRandomIPinSubnet ip;
      let nAddr := To4 (IPNet_IP network) in
      match nAddr !! 0%nat, nAddr !! 1%nat, nAddr !! 2%nat with
      | Some n0, Some n1, Some n2 =>
          let dhcp :=
            {| dhcp_IPv4 := mkIPNet dhcpAddr (IPNet_Mask network);
               dhcp_LowerIP := IPv4 n0 n1 n2 (byte_of_int 100);
               dhcp_UpperIP := IPv4 n0 n1 n2 (byte_of_int 254);
               dhcp_Enabled := true |} in
          _ ← must (addHostOnlyDHCPServer (hon_Name hostOnlyAdapter) dhcp);
          _ ← must (vbm ["modifyvm"; machineName;
                         "--nic2"; "hostonly";
                         "--nictype2"; HostOnlyNicType d;
                         "--nicpromisc2"; HostOnlyPromiscMode d;
                         "--hostonlyadapter2"; hon_Name hostOnlyAdapter;
                         "--cableconnected2"; "on"]);
          mret hostOnlyAdapter
      | _, _, _ => panic "index out of range"
      end
  end.

(** *** Lifecycle *)

Definition IsVTXDisabledInTheVM : M bool :=
  d ← get_drv;
  let logPath :=
    env_filepath_Join env [env_ResolveStorePath env d (MachineName d); "Logs"; "VBox.log"] in
  lines ← must_val (logsReader_Read logPath);
  mret (existsb (fun line =>
                   strings_Contains line "VT-x is disabled"
                   || strings_Contains line "the host CPU does NOT support HW virtualization"
                   || strings_Contains line "VERR_VMX_UNABLE_TO_START_VM") lines).

(** The polling loop of [Stop]; the loop of the code has no bound, [fuel]
    bounds the number of polls here. *)
Fixpoint Stop_poll (fuel : nat) : M unit :=
  match fuel with
  | O => out_of_fuel
  | S fuel' =>
      s ← GetState;
      if bool_decide (s = state.Running) then
        _ ← sleeper_Sleep (1 * second); Stop_poll fuel'
      else mret tt
  end.

Definition Stop (fuel : nat) : M unit :=
  d ← get_drv;
  currentState ← GetState;
  _ ← (if bool_decide (currentState = state.Paused)
       then must (vbm ["controlvm"; MachineName d; "resume"])
       else mret tt);
  _ ← must (vbm ["controlvm"; MachineName d; "acpipowerbutton"]);
  _ ← Stop_poll fuel;
  modify_drv (set_IPAddress EmptyString).

Definition Restart : M unit :=
  d ← get_drv;
  _ ← must (vbm ["controlvm"; MachineName d; "reset"]);
  _ ← modify_drv (set_IPAddress EmptyString);
  must ipWaiter_Wait.

Definition Kill : M unit :=
  d ← get_drv;
  must (vbm ["controlvm"; MachineName d; "poweroff"]).

Definition Remove (fuel : nat) : M unit :=
  d ← get_drv;
  r ← catch GetState;
  match r with
  | inl err =>
      if bool_decide (err = ErrMachineNotExist) then mret tt else raise err
  | inr s =>
      _ ← (if bool_decide (s = state.Running) then Stop fuel
           else if negb (bool_decide (s = state.Stopped)) then Kill
           else mret tt);
      (* vbox will not release its lock immediately after the stop *)
      _ ← sleeper_Sleep (1 * second);
      must (vbm ["unregistervm"; "--delete"; MachineName d])
  end.

Definition Start (fuel : nat) : M unit :=
  d ← get_drv;
  s ← GetState;
  hostOnlyAdapter ←
    (if bool_decide (s = state.Stopped) then
       (* check network to re-create if needed *)
       r ← catch (setupHostOnlyNetwork (MachineName d));
       match r with
       | inl err =>
           raise (Errorf "Error setting up host only network on machine start: " err)
       | inr a => mret (Some a)
       end
     else mret None);
  _ ← match s with
      | state.Stopped | state.Saved =>
          r ← catch (setPortForwarding 1 "ssh" "tcp" 22 (SSHPort d));
          match r with
          | inl err => _ ← modify_drv (set_SSHPort (-1)); raise err
          | inr port =>
              _ ← modify_drv (set_SSHPort port);
              must_wrap "Unable to start the VM: "
                        (vbm ["startvm"; MachineName d; "--type"; "headless"])
          end
      | state.Paused =>
          must (vbm ["controlvm"; MachineName d; "resume"; "--type"; "headless"])
      | _ => mret tt
      end;
  (* verify that VT-X is not disabled in the started VM *)
  r ← catch IsVTXDisabledInTheVM;
  match (r : error + bool) with
  | inl err => raise (Errorf "Checking if hardware virtualization is enabled failed: " err)
  | inr vtxIsDisabled =>
      if vtxIsDisabled then raise ErrMustEnableVTX
      else
        _ ← must ipWaiter_Wait;
        match hostOnlyAdapter with
        | None => mret tt
        | Some hostOnlyAdapter =>
            (* check that the host-only adapter we just created can still be found *)
            nets ← must_val listHostOnlyAdapters;
            match parseAndValidateCIDR (HostOnlyCIDR d) with
            | inl err => raise err
            | inr (ip, network) =>
                match env_getHostOnlyAdapter env nets ip (IPNet_Mask network) with
                | Some _ => mret tt
                | None =>
                    _ ← Stop fuel;
                    _ ← sleeper_Sleep (5 * second);
                    _ ← must (hostOnlyNetwork_SaveIPv4 hostOnlyAdapter);
                    _ ← sleeper_Sleep (5 * second);
                    _ ← must_wrap "Unable to start the VM: "
                                  (vbm ["startvm"; MachineName d; "--type"; "headless"]);
                    must ipWaiter_Wait
                end
            end
        end
  end.

(** *** Creation *)

Definition CreateVM : M unit :=
  d ← get_drv;
  _ ← must (b2dUpdater_CopyIsoToMachineDir (StorePath d) (MachineName d) (Boot2DockerURL d));
  _ ← (if negb (String.eqb (Boot2DockerImportVM d) EmptyString) then
         (* import b2d VM if requested *)
         let name := Boot2DockerImportVM d in
         (* make sure vm is stopped *)
         _ ← vbm ["controlvm"; name; "poweroff"];
         diskInfo ← must_val (getVMDiskInfo name);
         _ ← must (os_Stat (vd_Path diskInfo));
         _ ← must (vbm ["clonehd"; vd_Path diskInfo; diskPath d]);
         vmInfo ← must_val (getVMInfo name);
         _ ← modify_drv (set_CPU_Memory (vm_CPUs vmInfo) (vm_Memory vmInfo));
         d ← get_drv;
         let keyPath := env_filepath_Join env [env_GetHomeDir env; ".ssh"; "id_boot2docker"] in
         must (mcnutils_CopyFile keyPath (env_GetSSHKeyPath env d))
       else
         _ ← must (sshKeyGenerator_Generate (env_GetSSHKeyPath env d));
         must (diskCreator_Create (DiskSize d) (publicSSHKeyPath d) (diskPath d)));
  d ← get_drv;
  _ ← must (vbm ["createvm";
                 "--basefolder"; env_ResolveStorePath env d ".";
                 "--name"; MachineName d;
                 "--register"]);
  let cpus := clamp_cpus (env_runtime_NumCPU env) (CPU d) in
  let hostDNSResolver := on_off (HostDNSResolver d) in
  let dnsProxy := on_off (DNSProxy d) in
  _ ← must (vbm ["modifyvm"; MachineName d;
                 "--firmware"; "bios";
                 "--bioslogofadein"; "off";
                 "--bioslogofadeout"; "off";
                 "--bioslogodisplaytime"; "0";
                 "--biosbootmenu"; "disabled";
                 "--ostype"; "Linux26_64";
                 "--cpus"; itoa cpus;
                 "--memory"; itoa (Memory d);
                 "--acpi"; "on";
                 "--ioapic"; "on";
                 "--rtcuseutc"; "on";
                 "--natdnshostresolver1"; hostDNSResolver;
                 "--natdnsproxy1"; dnsProxy;
                 "--cpuhotplug"; "off";
                 "--pae"; "on";
                 "--hpet"; "on";
                 "--hwvirtex"; "on";
                 "--nestedpaging"; "on";
                 "--largepages"; "on";
                 "--vtxvpid"; "on";
                 "--accelerate3d"; "off";
                 "--boot1"; "dvd"]);
  _ ← must (vbm ["modifyvm"; MachineName d;
                 "--nic1"; "nat";
                 "--nictype1"; "82540EM";
                 "--cableconnected1"; "on"]);
  _ ← must (vbm ["storagectl"; MachineName d;
                 "--name"; "SATA";
                 "--add"; "sata";
                 "--hostiocache"; "on"]);
  _ ← must (vbm ["storageattach"; MachineName d;
                 "--storagectl"; "SATA";
                 "--port"; "0";
                 "--device"; "0";
                 "--type"; "dvddrive";
                 "--medium"; env_ResolveStorePath env d "boot2docker.iso"]);
  _ ← must (vbm ["storageattach"; MachineName d;
                 "--storagectl"; "SATA";
                 "--port"; "1";
                 "--device"; "0";
                 "--type"; "hdd";
                 "--medium"; diskPath d]);
  (* let VBoxService do nice magic automounting (when it's used) *)
  _ ← must (vbm ["guestproperty"; "set"; MachineName d;
                 "/VirtualBox/GuestAdd/SharedFolders/MountPrefix"; "/"]);
  _ ← must (vbm ["guestproperty"; "set"; MachineName d;
                 "/VirtualBox/GuestAdd/SharedFolders/MountDir"; "/"]);
  let '(shareName, shareDir) := env_getShareDriveAndName env in
  if negb (String.eqb shareDir EmptyString) && negb (NoShare d) then
    st ← os_Stat shareDir;
    match st with
    | Some err => if negb (env_os_IsNotExist env err) then raise err else mret tt
    | None =>
        let shareName :=
          if String.eqb shareName EmptyString then TrimLeft_slash shareDir else shareName in
        _ ← must (vbm ["sharedfolder"; "add"; MachineName d;
                       "--name"; shareName; "--hostpath"; shareDir; "--automount"]);
        (* enable symlinks *)
        must (vbm ["setextradata"; MachineName d;
                   "VBoxInternal2/SharedFoldersEnableSymlinksCreate/" +:+ shareName; "1"])
    end
  else mret tt.

Definition Create (fuel : nat) : M unit :=
  _ ← CreateVM;
  Start fuel.

(** [PreCreateCheck] checks that VBoxManage exists and works. *)
Definition PreCreateCheck : M unit :=
  d ← get_drv;
  '(version, err) ← vbmOut ["--version"];
  match err with
  | Some e => raise e
  | None =>
      match env_checkVBoxManageVersion env (env_strings_TrimSpace env version) with
      | Some e => raise e
      | None =>
          _ ← (if negb (NoVTXCheck d) then
                 hv ← isHyperVInstalled;
                 if (hv : bool) then raise ErrNotCompatibleWithHyperV
                 else
                   vtx ← Driver_IsVTXDisabled;
                   if (vtx : bool) then raise ErrMustEnableVTX else mret tt
               else mret tt);
          _ ← must (b2dUpdater_UpdateISOCache (StorePath d) (Boot2DockerURL d));
          (* check that Host-only interfaces are ok *)
          _ ← must_val listHostOnlyAdapters;
          mret tt
      end
  end.

(** *** The address of the guest *)

(** [strings.Split(s, sep)] for a separator of one byte. *)
Fixpoint Split_byte (sep : ascii) (s : string) : list string :=
  match s with
  | EmptyString => [EmptyString]
  | String c s' =>
      if Ascii.eqb c sep then EmptyString :: Split_byte sep s'
      else match Split_byte sep s' with
           | a :: rest => String c a :: rest
           | [] => [String c EmptyString]
           end
  end.

(** [s[:strings.Index(s, "/")]]; [None] when there is no slash, where the
    slice expression panics. *)
Fixpoint before_slash (s : string) : option string :=
  match s with
  | EmptyString => None
  | String c s' =>
      if Ascii.eqb c "/" then Some EmptyString
      else match before_slash s' with
           | Some a => Some (String c a)
           | None => None
           end
  end.

(** The loop of [GetIP] over the lines of the output: [None] when no line
    starts with [inet]. *)
Fixpoint GetIP_scan (lines : list string) : option (option string) :=
  match lines with
  | [] => None
  | line :: rest =>
      match Split_byte " " (env_strings_TrimSpace env line) with
      | v0 :: v1 :: _ =>
          if String.eqb v0 "inet" then Some (before_slash v1) else GetIP_scan rest
      | _ => GetIP_scan rest
      end
  end.

Definition GetIP : M string :=
  s ← GetState;
  if negb (bool_decide (s = state.Running)) then raise ErrHostIsNotRunning
  else
    output ← must_val (RunSSHCommandFromDriver "ip addr show dev eth1");
    match GetIP_scan (Split_byte newline output) with
    | Some (Some ip) => mret ip
    | Some None => panic "slice bounds out of range"
    | None => raise (ErrorString ("No IP address found " +:+ output))
    end.

Definition GetURL : M string :=
  ip ← GetIP;
  if String.eqb ip EmptyString then mret EmptyString
  else mret ("tcp://" +:+ ip +:+ ":2376").

Definition hostOnlyIPAvailable : M bool :=
  r ← catch GetIP;
  match r with
  | inl _ => mret false
  | inr ip => if String.eqb ip EmptyString then mret false else mret true
  end.

End Operations.

(** ** A simulated host

    A small scripted environment, for the examples: the replies of the
    hypervisor to [showvminfo] are read from a list, every other command
    succeeds unless the script says it fails, and the loopback ports listed
    as bound refuse a listener. *)

Module Sim.

(** Number of calls in the history that satisfy [p]. *)
Definition count_calls (p : call -> bool) (h : list event) : nat :=
  length (filter (fun ev => p (ev_call ev) = true) h).

Definition is_showvminfo (c : call) : bool :=
  match c with
  | Vbm ("showvminfo" :: _) => true
  | _ => false
  end.

Definition is_random (c : call) : bool :=
  match c with
  | RandomInt _ => true
  | _ => false
  end.

Definition is_list_adapters (c : call) : bool :=
  match c with
  | ListHostOnlyAdapters => true
  | _ => false
  end.

(** The [n]-th element of [l], the last one when [l] is shorter. *)
Fixpoint nth_or_last {A : Type} (n : nat) (l : list A) (dflt : A) : A :=
  match l, n with
  | [], _ => dflt
  | [x], _ => x
  | x :: _, O => x
  | _ :: l', S n' => nth_or_last n' l' dflt
  end.

Record script := mkScript {
  sc_vminfo : list (string * string * option error);
  sc_fail : list string -> option (string * error);
  sc_bound : list Z;
  sc_ephemeral : Z;
  sc_adapter : hostOnlyNetwork;
  sc_nets : list (gmap string hostOnlyNetwork);
  sc_random : list Z;
  sc_logs : list string;
  sc_numCPU : Z;
  sc_share : string * string
}.

(** Modelled from the spec: [getHostOnlyAdapter] of [network.go] is not
    part of the sources at hand; the specification says that an adapter
    matches when its IP and mask equal the target exactly. *)
Definition getHostOnlyAdapter (nets : gmap string hostOnlyNetwork) (hostIP : IP)
           (netmask : IPMask) : option hostOnlyNetwork :=
  snd <$> List.find (fun '(_, n) =>
                       Equal hostIP (IPNet_IP (hon_IPv4 n))
                       && bool_decide (netmask = IPNet_Mask (hon_IPv4 n)))
                    (map_to_list nets).

Definition is_space (c : ascii) : bool :=
  let k := code c in ((9 <=? k) && (k <=? 13)) || (k =? 32).

Fixpoint trim_left (s : string) : string :=
  match s with
  | String c s' => if is_space c then trim_left s' else s
  | EmptyString => s
  end.

(** The string without its trailing spaces. *)
Fixpoint trim_right (s : string) : string :=
  match s with
  | String c s' =>
      match trim_right s' with
      | EmptyString => if is_space c then EmptyString else String c EmptyString
      | t => String c t
      end
  | EmptyString => s
  end.

(** [strings.TrimSpace] on ASCII text. *)
Definition trim_space (s : string) : string := trim_right (trim_left s).

Definition machine_not_found : string := "Could not find a registered machine named".

Definition listen (sc : script) (address : string) : error + string :=
  match SplitN_colon_2 address with
  | [host; port] =>
      match Atoi port with
      | Some p =>
          if bool_decide (p ∈ sc_bound sc) then
            inl (ErrorString ("listen tcp4 " +:+ address +:+ ": bind: address already in use"))
          else if p =? 0 then inr (host +:+ ":" +:+ itoa (sc_ephemeral sc))
          else inr address
      | None => inl (ErrorString ("listen tcp4: invalid port " +:+ port))
      end
  | _ => inl (ErrorString "listen tcp4: missing port in address")
  end.

(** The address that the guest gets in the simulation. *)
Definition guest_ip : string := "192.168.99.100".

(** What the set-up of an SSH client leaves in the driver: the getters fill
    in the user [docker] and the port 22 where there is none. *)
Definition ssh_client (d : Driver) : handed :=
  {| handed_IPAddress := IPAddress d;
     handed_SSHUser := if String.eqb (SSHUser d) EmptyString then "docker" else SSHUser d;
     handed_SSHPort := if SSHPort d =? 0 then 22 else SSHPort d |}.

(** What the waiter leaves: it waits for SSH, then records the address. *)
Definition waited (d : Driver) : handed :=
  {| handed_IPAddress := guest_ip;
     handed_SSHUser := handed_SSHUser (ssh_client d);
     handed_SSHPort := handed_SSHPort (ssh_client d) |}.

Definition env_of (sc : script) : Env :=
  {| env_vbmOutErr := fun h args =>
       if is_showvminfo (Vbm args)
       then nth_or_last (count_calls is_showvminfo h) (sc_vminfo sc)
                        (EmptyString, EmptyString, None)
       else match sc_fail sc args with
            | Some (stderr, e) => (EmptyString, stderr, Some e)
            | None => (EmptyString, EmptyString, None)
            end;
     env_listHostOnlyAdapters := fun h =>
       inr (nth_or_last (count_calls is_list_adapters h) (sc_nets sc) ∅);
     env_getOrCreateHostOnlyNetwork := fun _ _ _ => inr (sc_adapter sc);
     env_removeOrphanDHCPServers := fun _ => None;
     env_addHostOnlyDHCPServer := fun _ _ _ => None;
     env_SaveIPv4 := fun _ _ => None;
     env_getVMDiskInfo := fun _ _ => inr (mkVirtualDisk "/vm/disk.vmdk");
     env_getVMInfo := fun _ _ => inr (mkVM 2 2048);
     env_logsReader_Read := fun _ _ => inr (sc_logs sc);
     env_ipWaiter_Wait := fun _ d => (None, waited d);
     env_randomInter_RandomInt := fun h n =>
       nth_or_last (count_calls is_random h) (sc_random sc) 0 mod n;
     env_net_Listen := fun _ _ address => listen sc address;
     env_CopyIsoToMachineDir := fun _ _ _ _ => None;
     env_UpdateISOCache := fun _ _ _ => None;
     env_sshKeyGenerator_Generate := fun _ _ => None;
     env_diskCreator_Create := fun _ _ _ _ => None;
     env_os_Stat := fun _ _ => None;
     env_CopyFile := fun _ _ _ => None;
     env_RunSSHCommandFromDriver := fun _ d _ =>
       (inr ("    inet " +:+ guest_ip +:+ "/24 brd 192.168.99.255 scope global eth1"),
        ssh_client d);
     env_isHyperVInstalled := fun _ => false;
     env_IsVTXDisabled := fun _ => false;
     env_getHostOnlyAdapter := getHostOnlyAdapter;
     env_reMachineNotFound_FindString := fun stderr =>
       if strings_Contains stderr machine_not_found then machine_not_found else EmptyString;
     env_checkVBoxManageVersion := fun _ => None;
     env_os_IsNotExist := fun _ => false;
     env_runtime_NumCPU := sc_numCPU sc;
     env_ResolveStorePath := fun d file =>
       StorePath d +:+ "/machines/" +:+ MachineName d +:+ "/" +:+ file;
     env_GetSSHKeyPath := fun d =>
       StorePath d +:+ "/machines/" +:+ MachineName d +:+ "/id_rsa";
     env_filepath_Join := fun parts => String.concat "/" parts;
     env_GetHomeDir := "/home/user";
     env_getShareDriveAndName := sc_share sc;
     env_strings_TrimSpace := trim_space |}.

Definition vminfo (st : string) : string * string * option error :=
  ("name=" +:+ String dquote "default" +:+ String dquote (String newline
   ("VMState=" +:+ String dquote st +:+ String dquote (String newline EmptyString))),
   EmptyString, None).

Definition vboxnet0 : hostOnlyNetwork :=
  mkHostOnlyNetwork "vboxnet0" (mkIPNet [192; 168; 99; 1] [255; 255; 255; 0]).

(** A host where everything works: the machine is stopped, then runs. *)
Definition plain (st : string) : script :=
  {| sc_vminfo := [vminfo st];
     sc_fail := fun _ => None;
     sc_bound := [];
     sc_ephemeral := 49152;
     sc_adapter := vboxnet0;
     sc_nets := [{[ "vboxnet0" := vboxnet0 ]}];
     sc_random := [7];
     sc_logs := ["VirtualBox VM 5.0.10"];
     sc_numCPU := 4;
     sc_share := ("Users", "/Users") |}.

Definition default : Driver := NewDriver "default" "/store".

Definition world0 : world := mkWorld default [].

End Sim.


(** ** Vocabulary of the statements *)

(** *** Lines of machine-readable output *)

Fixpoint all_word (s : string) : bool :=
  match s with
  | EmptyString => true
  | String c s' => is_word c && all_word s'
  end.

Fixpoint no_newline (s : string) : bool :=
  match s with
  | EmptyString => true
  | String c s' => negb (Ascii.eqb c newline) && no_newline s'
  end.

(** [line] reads [VMState="tok"] followed by anything, with [tok] a
    non-empty run of word characters. *)
Definition VMState_line (tok line : string) : Prop :=
  exists rest,
    line = VMState_key +:+ tok +:+ String dquote rest
    /\ tok <> EmptyString /\ all_word tok = true.

Definition no_VMState_line (line : string) : Prop :=
  forall tok, ~ VMState_line tok line.

(** The first line that matches, as a function on the lines. *)
Fixpoint first_VMState (lines : list string) : option string :=
  match lines with
  | [] => None
  | l :: ls =>
      match match_VMState_here l with
      | Some tok => Some tok
      | None => first_VMState ls
      end
  end.

(** *** A machine that the hypervisor does not know *)

Definition Sim_absent : Sim.script :=
  {| Sim.sc_vminfo :=
       [(EmptyString,
         "VBoxManage: error: Could not find a registered machine named 'default'",
         Some (ErrorString "exit status 1"))];
     Sim.sc_fail := fun _ => None;
     Sim.sc_bound := [];
     Sim.sc_ephemeral := 49152;
     Sim.sc_adapter := Sim.vboxnet0;
     Sim.sc_nets := [∅];
     Sim.sc_random := [7];
     Sim.sc_logs := [];
     Sim.sc_numCPU := 4;
     Sim.sc_share := (EmptyString, EmptyString) |}.

(** *** A host with 64 CPUs and a machine configured with [-1] CPU *)

Definition Sim_manycpus : Sim.script :=
  {| Sim.sc_vminfo := [Sim.vminfo "poweroff"];
     Sim.sc_fail := fun _ => None;
     Sim.sc_bound := [];
     Sim.sc_ephemeral := 49152;
     Sim.sc_adapter := Sim.vboxnet0;
     Sim.sc_nets := [{[ "vboxnet0" := Sim.vboxnet0 ]}];
     Sim.sc_random := [7];
     Sim.sc_logs := [];
     Sim.sc_numCPU := 64;
     Sim.sc_share := (EmptyString, EmptyString) |}.

Definition world_allcpus : world :=
  mkWorld (set_CPU_Memory (-1) 1024 Sim.default) [].

(** The [modifyvm] command of [CreateVM] that carries the hardware
    settings, recognised by its first option. *)
Definition is_hardware_modifyvm (args : list string) : Prop :=
  args !! 0%nat = Some "modifyvm" /\ args !! 2%nat = Some "--firmware".

(** *** Port allocation, random draws, DHCP *)

(** A host where the loopback port 2222 is already bound. *)
Definition Sim_bound : Sim.script :=
  {| Sim.sc_vminfo := [Sim.vminfo "poweroff"];
     Sim.sc_fail := fun _ => None;
     Sim.sc_bound := [2222];
     Sim.sc_ephemeral := 49152;
     Sim.sc_adapter := Sim.vboxnet0;
     Sim.sc_nets := [{[ "vboxnet0" := Sim.vboxnet0 ]}];
     Sim.sc_random := [7];
     Sim.sc_logs := [];
     Sim.sc_numCPU := 4;
     Sim.sc_share := (EmptyString, EmptyString) |}.

(** A host whose random source draws the given numbers, then repeats the
    last one. *)
Definition Sim_draws (draws : list Z) : Sim.script :=
  {| Sim.sc_vminfo := [Sim.vminfo "poweroff"];
     Sim.sc_fail := fun _ => None;
     Sim.sc_bound := [];
     Sim.sc_ephemeral := 49152;
     Sim.sc_adapter := Sim.vboxnet0;
     Sim.sc_nets := [{[ "vboxnet0" := Sim.vboxnet0 ]}];
     Sim.sc_random := draws;
     Sim.sc_logs := [];
     Sim.sc_numCPU := 4;
     Sim.sc_share := (EmptyString, EmptyString) |}.

(** A machine on the host-only network [10.0.5.0/24]. *)
Definition world_1005 : world :=
  mkWorld (set_HostOnlyCIDR "10.0.5.1/24" Sim.default) [].

Definition draw_event (r : Z) : event := Ev (RandomInt 25) (RInt r).

(** The host-only CIDR that [setupHostOnlyNetwork] uses. *)
Definition effective_CIDR (d : Driver) : string :=
  if String.eqb (HostOnlyCIDR d) EmptyString then defaultHostOnlyCIDR else HostOnlyCIDR d.

(** *** Failures of the hypervisor and their propagation *)

(** The error and the stderr of an invocation of the hypervisor that
    failed: a CLI command run by the driver itself, or a helper of
    [network.go], [vm.go] or [disk.go] that runs the CLI and returned an
    error. *)
Definition hypervisor_failure (ev : event) : option (error * string) :=
  match ev with
  | Ev (Vbm _) (ROut _ stderr (Some e)) => Some (e, stderr)
  | Ev ListHostOnlyAdapters (RFail e)
  | Ev (GetOrCreateHostOnlyNetwork _ _) (RFail e)
  | Ev RemoveOrphanDHCPServers (RFail e)
  | Ev (AddHostOnlyDHCPServer _ _) (RFail e)
  | Ev (SaveIPv4 _) (RFail e)
  | Ev (GetVMDiskInfo _) (RFail e)
  | Ev (GetVMInfo _) (RFail e) => Some (e, EmptyString)
  | _ => None
  end.

(** [reports env e stderr e']: the error [e'] returned by an operation
    carries the failure [e] of an invocation: it is [e] itself, or [e]
    wrapped by [fmt.Errorf], or [ErrMachineNotExist] when the stderr of the
    invocation says that the machine is not registered. *)
Inductive reports (env : Env) (e : error) (stderr : string) : error -> Prop :=
| reports_same : reports env e stderr e
| reports_not_exist :
    env_reMachineNotFound_FindString env stderr <> EmptyString ->
    reports env e stderr ErrMachineNotExist
| reports_wrapped (prefix : string) (e' : error) :
    reports env e stderr e' -> reports env e stderr (Errorf prefix e').

(** The operations of the driver that return an error. *)
Inductive operation :=
| OpPreCreateCheck
| OpCreateVM
| OpCreate
| OpStart
| OpStop
| OpRestart
| OpKill
| OpRemove
| OpGetState
| OpGetIP
| OpGetURL
| OpSetupHostOnlyNetwork (machineName : string)
| OpSetPortForwarding (interfaceNum : Z) (mapName protocol : string)
                      (guestPort desiredHostPort : Z).

(** An operation run for its outcome only. *)
Definition forget {A : Type} (m : M A) : M unit := _ ← m; mret tt.

Definition run_operation (env : Env) (fuel : nat) (op : operation) : M unit :=
  match op with
  | OpPreCreateCheck => PreCreateCheck env
  | OpCreateVM => CreateVM env
  | OpCreate => Create env fuel
  | OpStart => Start env fuel
  | OpStop => Stop env fuel
  | OpRestart => Restart env
  | OpKill => Kill env
  | OpRemove => Remove env fuel
  | OpGetState => forget (GetState env)
  | OpGetIP => forget (GetIP env)
  | OpGetURL => forget (GetURL env)
  | OpSetupHostOnlyNetwork machineName => forget (setupHostOnlyNetwork env machineName)
  | OpSetPortForwarding interfaceNum mapName protocol guestPort desiredHostPort =>
      forget (setPortForwarding env interfaceNum mapName protocol guestPort desiredHostPort)
  end.

(** The deletion of a port-forwarding rule: [modifyvm <vm> --natpf<N>
    delete <rule>]. *)
Definition is_natpf_delete (c : call) : bool :=
  match c with
  | Vbm ["modifyvm"; _; cmd; "delete"; _] => String.prefix "--natpf" cmd
  | _ => false
  end.

(** The power-off of the VM to import: [controlvm <import VM> poweroff]. *)
Definition is_import_poweroff (d : Driver) (c : call) : bool :=
  match c with
  | Vbm ["controlvm"; name; "poweroff"] => String.eqb name (Boot2DockerImportVM d)
  | _ => false
  end.

(** The state lookup that finds no machine: a [showvminfo] whose failure
    [GetState] reports as [ErrMachineNotExist]. *)
Definition is_machine_not_exist (env : Env) (ev : event) : bool :=
  match ev with
  | Ev (Vbm ("showvminfo" :: _)) (ROut _ stderr (Some e)) =>
      negb (String.eqb (env_reMachineNotFound_FindString env stderr) EmptyString)
      || bool_decide (e = ErrMachineNotExist)
  | _ => false
  end.

(** The invocations whose failure an operation does not return. *)
Definition unchecked (env : Env) (op : operation) (d : Driver) (ev : event) : bool :=
  match op with
  | OpStart | OpSetPortForwarding _ _ _ _ _ => is_natpf_delete (ev_call ev)
  | OpCreateVM => is_import_poweroff d (ev_call ev)
  | OpCreate => is_import_poweroff d (ev_call ev) || is_natpf_delete (ev_call ev)
  | OpRemove => is_machine_not_exist env ev
  | _ => false
  end.

(** Every failure in [seg] that is not excused by [ex] is carried by the
    error that the outcome [r] returns. *)
Definition propagates (env : Env) (ex : event -> bool) {A : Type}
           (seg : list event) (r : outcome A) : Prop :=
  forall ev e stderr,
    In ev seg -> hypervisor_failure ev = Some (e, stderr) -> ex ev = false ->
    exists e', r = Err e' /\ reports env e stderr e'.

(** [sound env ex m]: wherever [m] runs, the history grows by a segment
    whose failures are propagated. *)
Definition sound (env : Env) (ex : event -> bool) {A : Type} (m : M A) : Prop :=
  forall w, exists seg,
    hist (snd (m w)) = hist w ++ seg /\ propagates env ex seg (fst (m w)).

(** A host where the machine has no forwarding rule yet: the deletion of
    the rule fails. *)
Definition Sim_no_rule : Sim.script :=
  {| Sim.sc_vminfo := [Sim.vminfo "saved"];
     Sim.sc_fail := fun args =>
       if is_natpf_delete (Vbm args)
       then Some ("VBoxManage: error: No such rule", ErrorString "exit status 1")
       else None;
     Sim.sc_bound := [];
     Sim.sc_ephemeral := 49152;
     Sim.sc_adapter := Sim.vboxnet0;
     Sim.sc_nets := [{[ "vboxnet0" := Sim.vboxnet0 ]}];
     Sim.sc_random := [7];
     Sim.sc_logs := [];
     Sim.sc_numCPU := 4;
     Sim.sc_share := (EmptyString, EmptyString) |}.

(** *** Calls of the lifecycle *)

(** The verb of a CLI command. *)
Definition vbm_verb (c : call) : string :=
  match c with
  | Vbm (verb :: _) => verb
  | _ => EmptyString
  end.

Definition is_SaveIPv4 (c : call) : bool :=
  match c with
  | SaveIPv4 _ => true
  | _ => false
  end.

Definition is_ListHostOnlyAdapters (c : call) : bool :=
  match c with
  | ListHostOnlyAdapters => true
  | _ => false
  end.

Definition is_IPWait (c : call) : bool :=
  match c with
  | IPWait => true
  | _ => false
  end.

Definition is_startvm (c : call) : bool := String.eqb (vbm_verb c) "startvm".

(** [controlvm <vm> acpipowerbutton], the power-button signal of [Stop]. *)
Definition is_acpipowerbutton (c : call) : bool :=
  match c with
  | Vbm [verb; _; signal] =>
      String.eqb verb "controlvm" && String.eqb signal "acpipowerbutton"
  | _ => false
  end.

(** The actions of the repair sequence: the stop of the VM and the
    rewriting of the adapter. *)
Definition is_repair_action (c : call) : bool :=
  is_acpipowerbutton c || is_SaveIPv4 c.

(** The steps of the validation and of the repair sequence of [Start]. *)
Definition repair_step (c : call) : bool :=
  is_SaveIPv4 c || is_acpipowerbutton c || is_ListHostOnlyAdapters c
  || is_startvm c || is_IPWait c.

(** The calls that change the hypervisor: every CLI command but the state
    lookup, and the helpers that create or configure host-only networks and
    DHCP servers. *)
Definition is_mutating (c : call) : bool :=
  match c with
  | Vbm _ => negb (String.eqb (vbm_verb c) "showvminfo")
  | GetOrCreateHostOnlyNetwork _ _
  | RemoveOrphanDHCPServers
  | AddHostOnlyDHCPServer _ _
  | SaveIPv4 _ => true
  | _ => false
  end.

Definition mutating_calls (seg : list event) : list call :=
  List.filter is_mutating (map ev_call seg).

(** Number of events of [seg] whose call satisfies [p]. *)
Definition count (p : call -> bool) (seg : list event) : nat :=
  length (List.filter p (map ev_call seg)).

(** The calls of the provisioning of [Start]: the probes of the port
    allocation, the random draws, the host-only helpers and [modifyvm]. *)
Definition provision_call (c : call) : bool :=
  match c with
  | NetListen _ _ | ListenerClose _ | TimeSleep _ | RandomInt _
  | GetOrCreateHostOnlyNetwork _ _ | RemoveOrphanDHCPServers
  | AddHostOnlyDHCPServer _ _ => true
  | Vbm _ => String.eqb (vbm_verb c) "modifyvm"
  | _ => false
  end.

(** The calls of [Stop]: state lookups, [controlvm], sleeps. *)
Definition stop_call (c : call) : bool :=
  match c with
  | Sleep _ => true
  | Vbm _ => String.eqb (vbm_verb c) "showvminfo" || String.eqb (vbm_verb c) "controlvm"
  | _ => false
  end.

(** The CLI commands of [Start], for a machine [d]. *)
Definition cmd_nic2 (d : Driver) (machineName adapter : string) : call :=
  Vbm ["modifyvm"; machineName;
       "--nic2"; "hostonly";
       "--nictype2"; HostOnlyNicType d;
       "--nicpromisc2"; HostOnlyPromiscMode d;
       "--hostonlyadapter2"; adapter;
       "--cableconnected2"; "on"].

Definition cmd_natpf_delete (d : Driver) : call :=
  Vbm ["modifyvm"; MachineName d; "--natpf1"; "delete"; "ssh"].

Definition cmd_natpf_add (d : Driver) (port : Z) : call :=
  Vbm ["modifyvm"; MachineName d; "--natpf1";
       "ssh,tcp,127.0.0.1," +:+ itoa port +:+ ",,22"].

Definition cmd_startvm (d : Driver) : call :=
  Vbm ["startvm"; MachineName d; "--type"; "headless"].

Definition cmd_resume_headless (d : Driver) : call :=
  Vbm ["controlvm"; MachineName d; "resume"; "--type"; "headless"].

Definition cmd_showvminfo (d : Driver) : call :=
  Vbm ["showvminfo"; MachineName d; "--machinereadable"].

(** The provisioning of the host-only network, in the order of
    [setupHostOnlyNetwork]. *)
Definition hostonly_calls (d : Driver) (machineName : string) (ip : IP) (mask : IPMask)
           (adapter : string) (dhcp : dhcpServer) : list call :=
  [GetOrCreateHostOnlyNetwork ip mask; RemoveOrphanDHCPServers;
   AddHostOnlyDHCPServer adapter dhcp; cmd_nic2 d machineName adapter].

(** The port forwarding and the headless boot. *)
Definition boot_calls (d : Driver) (port : Z) : list call :=
  [cmd_natpf_delete d; cmd_natpf_add d port; cmd_startvm d].

(** The probes of the port allocation. *)
Definition is_probe (c : call) : bool :=
  match c with
  | NetListen _ _ | ListenerClose _ | TimeSleep _ => true
  | _ => false
  end.

(** A host where the adapter is found corrupted after the boot: the list of
    adapters is empty.  The VM is stopped, then found running twice when
    [Stop] polls it, then stopped. *)
Definition Sim_corrupted : Sim.script :=
  {| Sim.sc_vminfo :=
       [Sim.vminfo "poweroff"; Sim.vminfo "running"; Sim.vminfo "running";
        Sim.vminfo "poweroff"];
     Sim.sc_fail := fun _ => None;
     Sim.sc_bound := [];
     Sim.sc_ephemeral := 49152;
     Sim.sc_adapter := Sim.vboxnet0;
     Sim.sc_nets := [∅];
     Sim.sc_random := [7];
     Sim.sc_logs := [];
     Sim.sc_numCPU := 4;
     Sim.sc_share := (EmptyString, EmptyString) |}.

(** A host where the headless boot fails: the machine is saved and
    [startvm] exits with status 1. *)
Definition Sim_boot_fails : Sim.script :=
  {| Sim.sc_vminfo := [Sim.vminfo "saved"];
     Sim.sc_fail := fun args =>
       if is_startvm (Vbm args)
       then Some ("VBoxManage: error: The virtual machine has terminated unexpectedly",
                  ErrorString "exit status 1")
       else None;
     Sim.sc_bound := [];
     Sim.sc_ephemeral := 49152;
     Sim.sc_adapter := Sim.vboxnet0;
     Sim.sc_nets := [{[ "vboxnet0" := Sim.vboxnet0 ]}];
     Sim.sc_random := [7];
     Sim.sc_logs := [];
     Sim.sc_numCPU := 4;
     Sim.sc_share := (EmptyString, EmptyString) |}.

(** *** Listeners *)

(** The addresses of the listeners that a segment of the history opened,
    in the order of opening. *)
Definition opened (seg : list event) : list string :=
  omap (fun ev => match ev with
                  | Ev (NetListen _ _) (RStr addr) => Some addr
                  | _ => None
                  end) seg.

Definition close_event (addr : string) : event := Ev (ListenerClose addr) RDone.

Definition is_NetListen (c : call) : bool :=
  match c with
  | NetListen _ _ => true
  | _ => false
  end.

Definition is_ListenerClose (c : call) : bool :=
  match c with
  | ListenerClose _ => true
  | _ => false
  end.

Definition is_TimeSleep (c : call) : bool :=
  match c with
  | TimeSleep _ => true
  | _ => false
  end.

(** The port that a listener reports: the text after the first colon of its
    address, read as a number. *)
Definition port_of_addr (addr : string) : option Z :=
  match SplitN_colon_2 addr !! 1%nat with
  | Some part => Atoi part
  | None => None
  end.

(** The requests for a listener that [getAvailableTCPPort] can make: the
    hinted port first, then port 0. *)
Definition listen_requests (port : Z) (n : nat) : list call :=
  match n with
  | O => []
  | S n' => NetListen "tcp4" ("127.0.0.1:" +:+ itoa port)
            :: replicate n' (NetListen "tcp4" ("127.0.0.1:" +:+ itoa 0))
  end.

(** A host whose loopback listeners always report port 0. *)
Definition Sim_port0 : Sim.script :=
  {| Sim.sc_vminfo := [Sim.vminfo "poweroff"];
     Sim.sc_fail := fun _ => None;
     Sim.sc_bound := [];
     Sim.sc_ephemeral := 0;
     Sim.sc_adapter := Sim.vboxnet0;
     Sim.sc_nets := [{[ "vboxnet0" := Sim.vboxnet0 ]}];
     Sim.sc_random := [7];
     Sim.sc_logs := [];
     Sim.sc_numCPU := 4;
     Sim.sc_share := (EmptyString, EmptyString) |}.

(** *** Stopping and removing *)

(** A poll of [Stop] that found the VM running, and the sleep that follows
    it. *)
Definition running_poll (d : Driver) (stdout stderr : string) : list event :=
  [Ev (cmd_showvminfo d) (ROut stdout stderr None); Ev (Sleep (1 * second)) RDone].

(** [n] polls in a row that found the VM running. *)
Inductive running_polls (d : Driver) : nat -> list event -> Prop :=
| running_polls_O : running_polls d O []
| running_polls_S (n : nat) (stdout stderr : string) (rest : list event) :
    parse_VMState stdout = state.Running ->
    running_polls d n rest ->
    running_polls d (S n) (running_poll d stdout stderr ++ rest).

(** The error that [GetState] returns when [showvminfo] fails with [e]. *)
Definition GetState_error (env : Env) (stderr : string) (e : error) : error :=
  if negb (String.eqb (env_reMachineNotFound_FindString env stderr) EmptyString)
  then ErrMachineNotExist else e.

Definition cmd_resume (d : Driver) : call := Vbm ["controlvm"; MachineName d; "resume"].

Definition cmd_acpipowerbutton (d : Driver) : call :=
  Vbm ["controlvm"; MachineName d; "acpipowerbutton"].

Definition cmd_poweroff (d : Driver) : call := Vbm ["controlvm"; MachineName d; "poweroff"].

Definition cmd_reset (d : Driver) : call := Vbm ["controlvm"; MachineName d; "reset"].

Definition cmd_unregistervm (d : Driver) : call :=
  Vbm ["unregistervm"; "--delete"; MachineName d].

Definition is_unregistervm (c : call) : bool := String.eqb (vbm_verb c) "unregistervm".

Definition is_showvminfo (c : call) : bool := String.eqb (vbm_verb c) "showvminfo".

(** A command of the hypervisor that failed. *)
Definition failed_command (ev : event) : bool :=
  match ev with
  | Ev (Vbm _) (ROut _ _ (Some _)) => true
  | _ => false
  end.

(** The state that a successful state lookup reported. *)
Definition reported_state (ev : event) : option state.State :=
  match ev with
  | Ev (Vbm ("showvminfo" :: _)) (ROut stdout _ None) => Some (parse_VMState stdout)
  | _ => None
  end.

(** The last state that the lookups of a segment reported. *)
Definition last_reported_state (seg : list event) : option state.State :=
  last (omap reported_state seg).

(** A host where the VM runs, keeps running for two polls after the power
    button is pressed, and is then powered off. *)
Definition Sim_stopping : Sim.script :=
  {| Sim.sc_vminfo :=
       [Sim.vminfo "running"; Sim.vminfo "running"; Sim.vminfo "running";
        Sim.vminfo "poweroff"];
     Sim.sc_fail := fun _ => None;
     Sim.sc_bound := [];
     Sim.sc_ephemeral := 49152;
     Sim.sc_adapter := Sim.vboxnet0;
     Sim.sc_nets := [{[ "vboxnet0" := Sim.vboxnet0 ]}];
     Sim.sc_random := [7];
     Sim.sc_logs := [];
     Sim.sc_numCPU := 4;
     Sim.sc_share := (EmptyString, EmptyString) |}.

(** A host where the VM is paused and the power button has no effect: the
    command fails. *)
Definition Sim_deaf : Sim.script :=
  {| Sim.sc_vminfo := [Sim.vminfo "paused"];
     Sim.sc_fail := fun args =>
       if is_acpipowerbutton (Vbm args)
       then Some ("VBoxManage: error: The machine is not running", ErrorString "exit status 1")
       else None;
     Sim.sc_bound := [];
     Sim.sc_ephemeral := 49152;
     Sim.sc_adapter := Sim.vboxnet0;
     Sim.sc_nets := [{[ "vboxnet0" := Sim.vboxnet0 ]}];
     Sim.sc_random := [7];
     Sim.sc_logs := [];
     Sim.sc_numCPU := 4;
     Sim.sc_share := (EmptyString, EmptyString) |}.

(** *** The output of [ip addr show] *)

Fixpoint no_slash (s : string) : bool :=
  match s with
  | EmptyString => true
  | String c s' => negb (Ascii.eqb c "/") && no_slash s'
  end.

(** The fields of a line, as the loop of [GetIP] splits it. *)
Definition fields (env : Env) (line : string) : list string :=
  Split_byte " " (env_strings_TrimSpace env line).

(** A line in which the loop of [GetIP] stops: at least two fields, the
    first of which is [inet]. *)
Definition is_inet_line (env : Env) (line : string) : bool :=
  match fields env line with
  | v0 :: _ :: _ => String.eqb v0 "inet"
  | _ => false
  end.

Definition cmd_ip_addr : call := RunSSHCommand "ip addr show dev eth1".

Definition is_RunSSHCommand (c : call) : bool :=
  match c with
  | RunSSHCommand _ => true
  | _ => false
  end.

(** *** The checks before a creation *)

(** The calls of [PreCreateCheck], in order; the two probes of the host are
    left out when the driver is told not to check for VT-x. *)
Definition precreate_checks (d : Driver) : list call :=
  [Vbm ["--version"]]
    ++ (if NoVTXCheck d then [] else [IsHyperVInstalled; IsVTXDisabled])
    ++ [UpdateISOCache (StorePath d) (Boot2DockerURL d); ListHostOnlyAdapters].

(** A host with Hyper-V installed. *)
Definition env_hyperv : Env :=
  let e := Sim.env_of (Sim.plain "poweroff") in
  {| env_vbmOutErr := env_vbmOutErr e;
     env_listHostOnlyAdapters := env_listHostOnlyAdapters e;
     env_getOrCreateHostOnlyNetwork := env_getOrCreateHostOnlyNetwork e;
     env_removeOrphanDHCPServers := env_removeOrphanDHCPServers e;
     env_addHostOnlyDHCPServer := env_addHostOnlyDHCPServer e;
     env_SaveIPv4 := env_SaveIPv4 e;
     env_getVMDiskInfo := env_getVMDiskInfo e;
     env_getVMInfo := env_getVMInfo e;
     env_logsReader_Read := env_logsReader_Read e;
     env_ipWaiter_Wait := env_ipWaiter_Wait e;
     env_randomInter_RandomInt := env_randomInter_RandomInt e;
     env_net_Listen := env_net_Listen e;
     env_CopyIsoToMachineDir := env_CopyIsoToMachineDir e;
     env_UpdateISOCache := env_UpdateISOCache e;
     env_sshKeyGenerator_Generate := env_sshKeyGenerator_Generate e;
     env_diskCreator_Create := env_diskCreator_Create e;
     env_os_Stat := env_os_Stat e;
     env_CopyFile := env_CopyFile e;
     env_RunSSHCommandFromDriver := env_RunSSHCommandFromDriver e;
     env_isHyperVInstalled := fun _ => true;
     env_IsVTXDisabled := env_IsVTXDisabled e;
     env_getHostOnlyAdapter := env_getHostOnlyAdapter e;
     env_reMachineNotFound_FindString := env_reMachineNotFound_FindString e;
     env_checkVBoxManageVersion := env_checkVBoxManageVersion e;
     env_os_IsNotExist := env_os_IsNotExist e;
     env_runtime_NumCPU := env_runtime_NumCPU e;
     env_ResolveStorePath := env_ResolveStorePath e;
     env_GetSSHKeyPath := env_GetSSHKeyPath e;
     env_filepath_Join := env_filepath_Join e;
     env_GetHomeDir := env_GetHomeDir e;
     env_getShareDriveAndName := env_getShareDriveAndName e;
     env_strings_TrimSpace := env_strings_TrimSpace e |}.

(** *** The start of the machine *)

(** The log of the VM says that hardware virtualization is not available:
    the test of [IsVTXDisabledInTheVM]. *)
Definition log_says_no_VTX (lines : list string) : bool :=
  existsb (fun line =>
             strings_Contains line "VT-x is disabled"
             || strings_Contains line "the host CPU does NOT support HW virtualization"
             || strings_Contains line "VERR_VMX_UNABLE_TO_START_VM") lines.

Definition is_LogsRead (c : call) : bool :=
  match c with
  | LogsRead _ => true
  | _ => false
  end.

(** The path of the log of the VM. *)
Definition VBox_log (env : Env) (d : Driver) : string :=
  env_filepath_Join env [env_ResolveStorePath env d (MachineName d); "Logs"; "VBox.log"].

(** A machine whose settings were saved in the 0.2 format: no host-only
    CIDR. *)
Definition world_no_CIDR : world :=
  mkWorld (set_HostOnlyCIDR EmptyString Sim.default) [].

(** A machine with a host-only CIDR that does not parse. *)
Definition world_bad_CIDR : world :=
  mkWorld (set_HostOnlyCIDR "192.168.99.1" Sim.default) [].

(** A host whose VM log reports that VT-x is disabled. *)
Definition Sim_no_VTX : Sim.script :=
  {| Sim.sc_vminfo := [Sim.vminfo "saved"];
     Sim.sc_fail := fun _ => None;
     Sim.sc_bound := [];
     Sim.sc_ephemeral := 49152;
     Sim.sc_adapter := Sim.vboxnet0;
     Sim.sc_nets := [{[ "vboxnet0" := Sim.vboxnet0 ]}];
     Sim.sc_random := [7];
     Sim.sc_logs := ["00:00:01.2 VMSetError: VT-x is disabled in the BIOS for all CPU modes"];
     Sim.sc_numCPU := 4;
     Sim.sc_share := (EmptyString, EmptyString) |}.

(** *** The DHCP server of the host-only network *)

Definition is_AddHostOnlyDHCPServer (c : call) : bool :=
  match c with
  | AddHostOnlyDHCPServer _ _ => true
  | _ => false
  end.

(** A machine whose host-only CIDR is an IPv6 one. *)
Definition world_ipv6 : world :=
  mkWorld (set_HostOnlyCIDR "fe80::1/64" Sim.default) [].

(** *** The shared folder and the provisioning of the VM *)

Definition is_sharedfolder (c : call) : bool := String.eqb (vbm_verb c) "sharedfolder".

Definition is_setextradata (c : call) : bool := String.eqb (vbm_verb c) "setextradata".

Definition is_createvm (c : call) : bool := String.eqb (vbm_verb c) "createvm".

Definition is_guestproperty (c : call) : bool := String.eqb (vbm_verb c) "guestproperty".

(** The name under which [CreateVM] shares the directory [shareDir], for
    the name [shareName] that [getShareDriveAndName] proposes. *)
Definition share_name (shareName shareDir : string) : string :=
  if String.eqb shareName EmptyString then TrimLeft_slash shareDir else shareName.

Definition cmd_sharedfolder (d : Driver) (name shareDir : string) : call :=
  Vbm ["sharedfolder"; "add"; MachineName d; "--name"; name; "--hostpath"; shareDir;
       "--automount"].

Definition cmd_symlinks (d : Driver) (name : string) : call :=
  Vbm ["setextradata"; MachineName d;
       "VBoxInternal2/SharedFoldersEnableSymlinksCreate/" +:+ name; "1"].

(** [n] slashes. *)
Fixpoint slashes (n : nat) : string :=
  match n with
  | O => EmptyString
  | S n' => String "/" (slashes n')
  end.

(** A host that proposes to share [/Users] and gives it no name. *)
Definition Sim_share : Sim.script :=
  {| Sim.sc_vminfo := [Sim.vminfo "poweroff"];
     Sim.sc_fail := fun _ => None;
     Sim.sc_bound := [];
     Sim.sc_ephemeral := 49152;
     Sim.sc_adapter := Sim.vboxnet0;
     Sim.sc_nets := [{[ "vboxnet0" := Sim.vboxnet0 ]}];
     Sim.sc_random := [7];
     Sim.sc_logs := [];
     Sim.sc_numCPU := 4;
     Sim.sc_share := (EmptyString, "/Users") |}.

(** *** What the operations may do *)

(** The settings of the machine: every field of the driver but the SSH
    user and port, the cached IP address, the CPU count and the memory. *)
Definition same_settings (d d' : Driver) : Prop :=
  MachineName d' = MachineName d /\ StorePath d' = StorePath d
  /\ DiskSize d' = DiskSize d
  /\ Boot2DockerURL d' = Boot2DockerURL d
  /\ Boot2DockerImportVM d' = Boot2DockerImportVM d
  /\ HostDNSResolver d' = HostDNSResolver d /\ HostOnlyCIDR d' = HostOnlyCIDR d
  /\ HostOnlyNicType d' = HostOnlyNicType d
  /\ HostOnlyPromiscMode d' = HostOnlyPromiscMode d
  /\ NoShare d' = NoShare d /\ DNSProxy d' = DNSProxy d /\ NoVTXCheck d' = NoVTXCheck d
  /\ SwarmMaster d' = SwarmMaster d /\ SwarmHost d' = SwarmHost d
  /\ SwarmDiscovery d' = SwarmDiscovery d.

(** How an operation may change the driver: it keeps the settings; it
    changes the CPU count and the memory only if [hw] is set; and unless it
    hands the driver to a collaborator ([hands]), it keeps the SSH user and
    port, and the cached IP address, which it may clear if [ip] is set. *)
Definition frame (hw hands ip : bool) (d d' : Driver) : Prop :=
  same_settings d d'
  /\ (hw = false -> CPU d' = CPU d /\ Memory d' = Memory d)
  /\ (hands = false ->
      SSHUser d' = SSHUser d /\ SSHPort d' = SSHPort d
      /\ (IPAddress d' = IPAddress d \/ (ip = true /\ IPAddress d' = EmptyString))).

Definition changes_hardware (op : operation) : bool :=
  match op with
  | OpCreateVM | OpCreate => true
  | _ => false
  end.

(** The operations that hand the driver to the IP waiter or to the SSH
    helper. *)
Definition hands_driver (op : operation) : bool :=
  match op with
  | OpStart | OpCreate | OpRestart | OpGetIP | OpGetURL => true
  | _ => false
  end.

Definition clears_address (op : operation) : bool :=
  match op with
  | OpStart | OpCreate | OpStop | OpRestart | OpRemove => true
  | _ => false
  end.

(** [controlvm <vm> poweroff]. *)
Definition is_poweroff (c : call) : bool :=
  match c with
  | Vbm [verb; _; signal] => String.eqb verb "controlvm" && String.eqb signal "poweroff"
  | _ => false
  end.

Definition may_unregister (op : operation) : bool :=
  match op with
  | OpRemove => true
  | _ => false
  end.

Definition may_poweroff (op : operation) : bool :=
  match op with
  | OpKill | OpRemove | OpCreateVM | OpCreate => true
  | _ => false
  end.

Definition may_boot (op : operation) : bool :=
  match op with
  | OpStart | OpCreate => true
  | _ => false
  end.

Definition may_register (op : operation) : bool :=
  match op with
  | OpCreateVM | OpCreate => true
  | _ => false
  end.

(** The operations that only ask. *)
Definition is_query (op : operation) : bool :=
  match op with
  | OpGetState | OpGetIP | OpGetURL => true
  | _ => false
  end.

(** The calls that an operation may make: the unregistration belongs to
    [Remove]; [poweroff] to [Kill], [Remove] and the creation (which powers
    off the VM to import); the boot to [Start] and [Create]; the
    registration to [CreateVM] and [Create]; and a query makes no call that
    changes the hypervisor. *)
Definition permitted (op : operation) (c : call) : bool :=
  implb (is_unregistervm c) (may_unregister op)
  && implb (is_poweroff c) (may_poweroff op)
  && implb (is_startvm c) (may_boot op)
  && implb (is_createvm c) (may_register op)
  && implb (is_mutating c) (negb (is_query op)).

(** [keeps allowed hw hands ip m]: wherever [m] runs, it makes only calls
    that satisfy [allowed] and changes the driver within [frame]. *)
Definition keeps (allowed : call -> bool) (hw hands ip : bool) {A : Type} (m : M A) : Prop :=
  forall w, exists seg,
    hist (snd (m w)) = hist w ++ seg
    /\ Forall (fun ev => allowed (ev_call ev) = true) seg
    /\ frame hw hands ip (drv w) (drv (snd (m w))).

(** *** The configuration of the driver *)

(** The flags of [libmachine/mcnflag]. *)
Inductive Flag :=
| IntFlag (Name Usage EnvVar : string) (Value : Z)
| StringFlag (Name Usage EnvVar : string) (Value : string)
| BoolFlag (Name Usage EnvVar : string).

Definition flag_Name (f : Flag) : string :=
  match f with
  | IntFlag n _ _ _ | StringFlag n _ _ _ | BoolFlag n _ _ => n
  end.

Definition defaultBoot2DockerURL : string := EmptyString.
Definition defaultBoot2DockerImportVM : string := EmptyString.

(** [GetCreateFlags] registers the flags this driver adds to "docker hosts
    create". *)
Definition GetCreateFlags : list Flag :=
  [IntFlag "virtualbox-memory" "Size of memory for host in MB"
           "VIRTUALBOX_MEMORY_SIZE" defaultMemory;
   IntFlag "virtualbox-cpu-count"
           "number of CPUs for the machine (-1 to use the number of CPUs available)"
           "VIRTUALBOX_CPU_COUNT" defaultCPU;
   IntFlag "virtualbox-disk-size" "Size of disk for host in MB"
           "VIRTUALBOX_DISK_SIZE" defaultDiskSize;
   StringFlag "virtualbox-boot2docker-url"
              "The URL of the boot2docker image. Defaults to the latest available version"
              "VIRTUALBOX_BOOT2DOCKER_URL" defaultBoot2DockerURL;
   StringFlag "virtualbox-import-boot2docker-vm" "The name of a Boot2Docker VM to import"
              "VIRTUALBOX_BOOT2DOCKER_IMPORT_VM" defaultBoot2DockerImportVM;
   BoolFlag "virtualbox-host-dns-resolver" "Use the host DNS resolver"
            "VIRTUALBOX_HOST_DNS_RESOLVER";
   StringFlag "virtualbox-hostonly-cidr" "Specify the Host Only CIDR"
              "VIRTUALBOX_HOSTONLY_CIDR" defaultHostOnlyCIDR;
   StringFlag "virtualbox-hostonly-nictype" "Specify the Host Only Network Adapter Type"
              "VIRTUALBOX_HOSTONLY_NIC_TYPE" defaultHostOnlyNictype;
   StringFlag "virtualbox-hostonly-nicpromisc"
              "Specify the Host Only Network Adapter Promiscuous Mode"
              "VIRTUALBOX_HOSTONLY_NIC_PROMISC" defaultHostOnlyPromiscMode;
   BoolFlag "virtualbox-no-share" "Disable the mount of your home directory"
            "VIRTUALBOX_NO_SHARE";
   BoolFlag "virtualbox-dns-proxy" "Proxy all DNS requests to the host"
            "VIRTUALBOX_DNS_PROXY";
   BoolFlag "virtualbox-no-vtx-check"
            "Disable checking for the availability of hardware virtualization before the vm is started"
            "VIRTUALBOX_NO_VTX_CHECK"].

(** The methods of [drivers.DriverOptions] that the driver calls. *)
Record DriverOptions := mkDriverOptions {
  opt_String : string -> string;
  opt_Int : string -> Z;
  opt_Bool : string -> bool
}.

(** [d.SetSwarmConfigFromFlags(flags)], a method of [BaseDriver]
    ([libmachine/drivers/base.go], which is not among the sources at hand),
    as libmachine defines it: it stores the options [swarm-master],
    [swarm-host] and [swarm-discovery] in the swarm fields of the base
    driver.  No function of this file reads these fields. *)
Definition SetSwarmConfigFromFlags (flags : DriverOptions) (d : Driver) : Driver :=
  set_Swarm (opt_Bool flags "swarm-master") (opt_String flags "swarm-host")
            (opt_String flags "swarm-discovery") d.

(** [SetConfigFromFlags]; it returns no error. *)
Definition SetConfigFromFlags (flags : DriverOptions) : M unit :=
  modify_drv (fun d =>
    let d := SetSwarmConfigFromFlags flags d in
    {| MachineName := MachineName d;
       StorePath := StorePath d;
       SSHUser := "docker";
       SSHPort := SSHPort d;
       IPAddress := IPAddress d;
       CPU := opt_Int flags "virtualbox-cpu-count";
       Memory := opt_Int flags "virtualbox-memory";
       DiskSize := opt_Int flags "virtualbox-disk-size";
       Boot2DockerURL := opt_String flags "virtualbox-boot2docker-url";
       Boot2DockerImportVM := opt_String flags "virtualbox-import-boot2docker-vm";
       HostDNSResolver := opt_Bool flags "virtualbox-host-dns-resolver";
       HostOnlyCIDR := opt_String flags "virtualbox-hostonly-cidr";
       HostOnlyNicType := opt_String flags "virtualbox-hostonly-nictype";
       HostOnlyPromiscMode := opt_String flags "virtualbox-hostonly-nicpromisc";
       NoShare := opt_Bool flags "virtualbox-no-share";
       DNSProxy := opt_Bool flags "virtualbox-dns-proxy";
       NoVTXCheck := opt_Bool flags "virtualbox-no-vtx-check";
       SwarmMaster := SwarmMaster d;
       SwarmHost := SwarmHost d;
       SwarmDiscovery := SwarmDiscovery d |}).

Definition GetSSHHostname : M string := mret "127.0.0.1".

Definition GetSSHUsername : M string :=
  d ← get_drv;
  _ ← (if String.eqb (SSHUser d) EmptyString then modify_drv (set_SSHUser "docker")
       else mret tt);
  d ← get_drv;
  mret (SSHUser d).

(** [DriverName] returns the name of the driver. *)
Definition DriverName : string := "virtualbox".

(** Two sets of options give the flag [f] the same value. *)
Definition same_value (f : Flag) (o1 o2 : DriverOptions) : Prop :=
  match f with
  | IntFlag n _ _ _ => opt_Int o1 n = opt_Int o2 n
  | StringFlag n _ _ _ => opt_String o1 n = opt_String o2 n
  | BoolFlag n _ _ => opt_Bool o1 n = opt_Bool o2 n
  end.

(** Two sets of options give the swarm options, which
    [SetSwarmConfigFromFlags] reads, the same values. *)
Definition same_swarm (o1 o2 : DriverOptions) : Prop :=
  opt_Bool o1 "swarm-master" = opt_Bool o2 "swarm-master"
  /\ opt_String o1 "swarm-host" = opt_String o2 "swarm-host"
  /\ opt_String o1 "swarm-discovery" = opt_String o2 "swarm-discovery".

(** The options that give every flag of [flags] its declared value, [false]
    for a boolean flag, and the zero value to any other name. *)
Definition default_options (flags : list Flag) : DriverOptions :=
  {| opt_String := fun name =>
       default EmptyString
               (list_find (fun f => String.eqb (flag_Name f) name = true) flags
                  ≫= fun '(_, f) => match f with
                                    | StringFlag _ _ _ v => Some v
                                    | _ => None
                                    end);
     opt_Int := fun name =>
       default 0
               (list_find (fun f => String.eqb (flag_Name f) name = true) flags
                  ≫= fun '(_, f) => match f with
                                    | IntFlag _ _ _ v => Some v
                                    | _ => None
                                    end);
     opt_Bool := fun _ => false |}.

(** The options [o] with another value for the flag [f]. *)
Definition other_value (f : Flag) (o : DriverOptions) : DriverOptions :=
  match f with
  | IntFlag n _ _ _ =>
      mkDriverOptions (opt_String o)
                      (fun k => if String.eqb k n then opt_Int o n + 1 else opt_Int o k)
                      (opt_Bool o)
  | StringFlag n _ _ _ =>
      mkDriverOptions (fun k => if String.eqb k n then String "x" (opt_String o n)
                                else opt_String o k)
                      (opt_Int o) (opt_Bool o)
  | BoolFlag n _ _ =>
      mkDriverOptions (opt_String o) (opt_Int o)
                      (fun k => if String.eqb k n then negb (opt_Bool o n) else opt_Bool o k)
  end.

(** *** Numbers in decimal *)

From Stdlib Require DecimalPos.

(** The number that the digits [d] denote when they follow digits that
    denote [acc]. *)
Fixpoint uval (d : Decimal.uint) (acc : Z) : Z :=
  match d with
  | Decimal.Nil => acc
  | Decimal.D0 l => uval l (acc * 10 + 0)
  | Decimal.D1 l => uval l (acc * 10 + 1)
  | Decimal.D2 l => uval l (acc * 10 + 2)
  | Decimal.D3 l => uval l (acc * 10 + 3)
  | Decimal.D4 l => uval l (acc * 10 + 4)
  | Decimal.D5 l => uval l (acc * 10 + 5)
  | Decimal.D6 l => uval l (acc * 10 + 6)
  | Decimal.D7 l => uval l (acc * 10 + 7)
  | Decimal.D8 l => uval l (acc * 10 + 8)
  | Decimal.D9 l => uval l (acc * 10 + 9)
  end.

(** A text that does not go on with a digit. *)
Definition no_digit_ahead (s : string) : bool :=
  match s with
  | EmptyString => true
  | String c _ => negb (is_digit c)
  end.

(** The address [a.b.c.d] and the CIDR [a.b.c.d/n] in the dotted notation. *)
Definition quad (a b c d : Z) : string :=
  itoa a +:+ "." +:+ itoa b +:+ "." +:+ itoa c +:+ "." +:+ itoa d.

Definition dotted (a b c d n : Z) : string := quad a b c d +:+ "/" +:+ itoa n.

(** * Properties *)

(** ** Go's [net] package and the CIDR resolver *)

Lemma and_bytes_length (ip mask : list Z) :
  length ip = length mask -> length (and_bytes ip mask) = length ip.
Proof.
  revert mask; induction ip as [|b ip IH]; intros [|m mask] Hlen; simpl in *;
    try discriminate; auto.
Qed.

(** [ParseCIDR] builds the network from the address it returns: the network
    address is the host address under the mask. *)
Lemma ParseCIDR_network (s : string) (ip : IP) (network : IPNet) :
  ParseCIDR s = Some (ip, network) ->
  IPNet_IP network = Mask ip (IPNet_Mask network).
Proof.
  unfold ParseCIDR. intros H.
  destruct (split_slash s) as [[addr mask]|]; [|discriminate].
  destruct (parseIPv4 addr) as [ip4|].
  - destruct (dtoi mask) as [[n [|c rest]]|]; try discriminate.
    destruct ((n <? 0) || (8 * Z.of_nat IPv4len <? n)); [discriminate|].
    injection H as <- <-. reflexivity.
  - destruct (parseIPv6 addr) as [ip6|]; [|discriminate].
    destruct (dtoi mask) as [[n [|c rest]]|]; try discriminate.
    destruct ((n <? 0) || (8 * Z.of_nat IPv6len <? n)); [discriminate|].
    injection H as <- <-. reflexivity.
Qed.

Lemma parseAndValidateCIDR_unparsable (s : string) :
  ParseCIDR s = None ->
  parseAndValidateCIDR s = inl (ParseError "CIDR address" s).
Proof. unfold parseAndValidateCIDR. intros ->. reflexivity. Qed.

Lemma parseAndValidateCIDR_mask (s : string) (ip : IP) (network : IPNet) :
  parseAndValidateCIDR s = inr (ip, network) ->
  Mask ip (IPNet_Mask network) = IPNet_IP network.
Proof.
  unfold parseAndValidateCIDR. intros H.
  destruct (ParseCIDR s) as [[ip' network']|] eqn:E; [|discriminate].
  destruct (Equal ip' (To4 (IPNet_IP network'))); [discriminate|].
  injection H as <- <-. symmetry. exact (ParseCIDR_network _ _ _ E).
Qed.

(** On an IPv4 network (a network address of four bytes, as [ParseCIDR]
    returns for a dotted address) the validation rejects the network address
    used as the host address. *)
Lemma parseAndValidateCIDR_ipv4_network_address (s : string) (ip : IP) (network : IPNet) :
  ParseCIDR s = Some (ip, network) ->
  length (IPNet_IP network) = IPv4len ->
  Equal ip (IPNet_IP network) = true ->
  parseAndValidateCIDR s = inl ErrNetworkAddrCidr.
Proof.
  unfold parseAndValidateCIDR. intros -> Hlen Heq.
  unfold To4. rewrite Hlen. simpl. rewrite Heq. reflexivity.
Qed.

(** C5 (the code departs from the claim).  The CIDR [fe80::/64] parses, its
    host address is its network address, and [parseAndValidateCIDR] accepts
    it: [To4] of an IPv6 network address is [nil], which [Equal] finds
    different from every address. *)
Theorem parseAndValidateCIDR_ipv6_network_address_accepted :
  let ip6 := [254; 128; 0; 0; 0; 0; 0; 0; 0; 0; 0; 0; 0; 0; 0; 0] in
  let mask64 := [255; 255; 255; 255; 255; 255; 255; 255; 0; 0; 0; 0; 0; 0; 0; 0] in
  ParseCIDR "fe80::/64" = Some (ip6, mkIPNet ip6 mask64)
  /\ Equal ip6 (IPNet_IP (mkIPNet ip6 mask64)) = true
  /\ To4 (IPNet_IP (mkIPNet ip6 mask64)) = []
  /\ parseAndValidateCIDR "fe80::/64" = inr (ip6, mkIPNet ip6 mask64).
Proof. vm_compute. repeat split; reflexivity. Qed.

(** ** The state parser *)

Lemma is_word_newline : is_word newline = false.
Proof. reflexivity. Qed.

Lemma is_word_dquote : is_word dquote = false.
Proof. reflexivity. Qed.

(** A prefix without newline is found in a line or not at all, whatever
    follows the line. *)
Lemma strip_prefix_line (p l r : string) :
  no_newline p = true ->
  strip_prefix p (l +:+ String newline r)
  = (fun x => x +:+ String newline r) <$> strip_prefix p l.
Proof.
  revert l; induction p as [|a p IH]; intros l Hp; simpl in *; [reflexivity|].
  apply andb_prop in Hp as [Ha Hp].
  destruct l as [|b l]; simpl.
  - destruct (Ascii.eqb a newline); [discriminate|reflexivity].
  - destruct (Ascii.eqb a b); [apply IH; assumption|reflexivity].
Qed.

Lemma span_word_line (l r : string) :
  span_word (l +:+ String newline r)
  = (fst (span_word l), snd (span_word l) +:+ String newline r).
Proof.
  induction l as [|c l IH]; simpl.
  - reflexivity.
  - destruct (is_word c); [|reflexivity].
    rewrite IH. destruct (span_word l) as [w rest]. reflexivity.
Qed.

(** A match at the head of a line does not depend on the lines after it. *)
Lemma match_VMState_here_line (l r : string) :
  match_VMState_here (l +:+ String newline r) = match_VMState_here l.
Proof.
  unfold match_VMState_here.
  rewrite strip_prefix_line by reflexivity.
  destruct (strip_prefix VMState_key l) as [s1|]; simpl; [|reflexivity].
  rewrite span_word_line.
  destruct (span_word s1) as [tok rest]; simpl.
  destruct tok as [|t tok]; [reflexivity|].
  destruct rest as [|c rest]; simpl; reflexivity.
Qed.

Lemma match_VMState_here_newline (r : string) :
  match_VMState_here (String newline r) = None.
Proof. reflexivity. Qed.

Lemma Split_byte_cons (sep : ascii) (s : string) :
  exists l ls, Split_byte sep s = l :: ls.
Proof.
  induction s as [|c s IH]; simpl.
  - eauto.
  - destruct (Ascii.eqb c sep); [eauto|].
    destruct IH as (l & ls & ->). eauto.
Qed.

(** The scan of the text is the scan of its lines: the first line, when the
    head of the text is the start of a line, then every other line. *)
Lemma FindStringSubmatch_VMState_lines (s : string) (bol : bool) :
  FindStringSubmatch_VMState bol s
  = match Split_byte newline s with
    | l :: ls =>
        match (if bol then match_VMState_here l else None) with
        | Some tok => Some tok
        | None => first_VMState ls
        end
    | [] => None
    end.
Proof.
  revert bol; induction s as [|c s IH]; intros bol.
  - simpl. destruct bol; reflexivity.
  - cbn [FindStringSubmatch_VMState Split_byte].
    destruct (Ascii.eqb c newline) eqn:Ec.
    + apply Ascii.eqb_eq in Ec; subst c.
      rewrite match_VMState_here_newline.
      rewrite IH.
      destruct (Split_byte newline s) as [|l ls].
      * destruct bol; reflexivity.
      * destruct bol; reflexivity.
    + rewrite IH.
      destruct (Split_byte_cons newline s) as (l & ls & Hs).
      assert (Hhere : match_VMState_here (String c s) = match_VMState_here (String c l)).
      { clear IH bol. revert l ls Hs. 
        assert (forall t l ls, Split_byte newline t = l :: ls ->
                  t = l \/ exists r, t = l +:+ String newline r) as Hdec.
        { induction t as [|x t IHt]; intros l ls Ht; simpl in Ht.
          - injection Ht as <- <-. now left.
          - destruct (Ascii.eqb x newline) eqn:Ex.
            + apply Ascii.eqb_eq in Ex; subst x. injection Ht as <- <-.
              right. exists t. reflexivity.
            + destruct (Split_byte_cons newline t) as (l' & ls' & Ht').
              rewrite Ht' in Ht. injection Ht as <- <-.
              destruct (IHt _ _ Ht') as [->|[r ->]]; [now left|].
              right. exists r. reflexivity. }
        intros l ls Hs. destruct (Hdec _ _ _ Hs) as [->|[r ->]]; [reflexivity|].
        change (String c (l +:+ String newline r)) with (String c l +:+ String newline r).
        apply match_VMState_here_line. }
      rewrite Hs. rewrite Hhere.
      destruct bol; reflexivity.
Qed.

Lemma strip_prefix_app (p s : string) : strip_prefix p (p +:+ s) = Some s.
Proof.
  induction p as [|a p IH]; simpl; [reflexivity|].
  rewrite Ascii.eqb_refl. exact IH.
Qed.

Lemma strip_prefix_Some (p s r : string) : strip_prefix p s = Some r -> s = p +:+ r.
Proof.
  revert s; induction p as [|a p IH]; intros s H; simpl in *.
  - now injection H as ->.
  - destruct s as [|b s]; [discriminate|].
    destruct (Ascii.eqb a b) eqn:E; [|discriminate].
    apply Ascii.eqb_eq in E; subst b.
    change (String a s = String a (p +:+ r)). f_equal. now apply IH.
Qed.

Lemma span_word_app (tok rest : string) :
  all_word tok = true ->
  span_word (tok +:+ String dquote rest) = (tok, String dquote rest).
Proof.
  induction tok as [|c tok IH]; intros H; simpl in *.
  - reflexivity.
  - apply andb_prop in H as [Hc H]. rewrite Hc, IH by assumption. reflexivity.
Qed.

Lemma span_word_spec (s w rest : string) :
  span_word s = (w, rest) -> s = w +:+ rest /\ all_word w = true.
Proof.
  revert w rest; induction s as [|c s IH]; intros w rest H; simpl in *.
  - injection H as <- <-. auto.
  - destruct (is_word c) eqn:Ec.
    + destruct (span_word s) as [w' rest'] eqn:Es.
      injection H as <- <-. destruct (IH _ _ eq_refl) as [-> Hw].
      simpl. rewrite Ec. auto.
    + injection H as <- <-. auto.
Qed.

(** The matcher at the head of a line is the declarative [VMState_line]. *)
Lemma match_VMState_here_iff (line tok : string) :
  match_VMState_here line = Some tok <-> VMState_line tok line.
Proof.
  unfold match_VMState_here, VMState_line. split.
  - destruct (strip_prefix VMState_key line) as [s1|] eqn:E1; [|discriminate].
    apply strip_prefix_Some in E1.
    destruct (span_word s1) as [w rest] eqn:E2.
    apply span_word_spec in E2 as [-> Hw].
    destruct w as [|c w]; [discriminate|].
    destruct rest as [|q rest]; [discriminate|].
    destruct (Ascii.eqb q dquote) eqn:Eq; [|discriminate].
    apply Ascii.eqb_eq in Eq; subst q.
    intros H; injection H as <-.
    exists rest. split; [|split]; [exact E1|discriminate|exact Hw].
  - intros (rest & -> & Hne & Hw).
    rewrite strip_prefix_app, span_word_app by assumption.
    destruct tok as [|c tok]; [contradiction|].
    rewrite Ascii.eqb_refl. reflexivity.
Qed.

Lemma first_VMState_skip (before : list string) (ls : list string) :
  Forall no_VMState_line before ->
  first_VMState (before ++ ls) = first_VMState ls.
Proof.
  induction 1 as [|l before Hl _ IH]; simpl; [reflexivity|].
  destruct (match_VMState_here l) as [tok|] eqn:E; [|exact IH].
  apply match_VMState_here_iff in E. destruct (Hl tok E).
Qed.

(** The submatch found in a text is the token of its first [VMState] line. *)
Lemma FindStringSubmatch_VMState_first (s : string) :
  FindStringSubmatch_VMState true s = first_VMState (Split_byte newline s).
Proof.
  rewrite FindStringSubmatch_VMState_lines.
  destruct (Split_byte newline s) as [|l ls]; reflexivity.
Qed.

Lemma no_VMState_line_None (line : string) :
  match_VMState_here line = None -> no_VMState_line line.
Proof.
  intros H tok Htok. apply match_VMState_here_iff in Htok. congruence.
Qed.

Lemma first_VMState_None (lines : list string) :
  Forall no_VMState_line lines -> first_VMState lines = None.
Proof.
  intros H. rewrite <- (app_nil_r lines). now rewrite first_VMState_skip.
Qed.

Lemma first_VMState_found (before after : list string) (line tok : string) :
  Forall no_VMState_line before ->
  VMState_line tok line ->
  first_VMState (before ++ line :: after) = Some tok.
Proof.
  intros Hb Hl. rewrite first_VMState_skip by assumption. simpl.
  apply match_VMState_here_iff in Hl. now rewrite Hl.
Qed.

(** C9.  When [showvminfo] succeeds, [GetState] returns a state and no
    error.  The state is decided by the first line of the output that reads
    [VMState="tok"...] with [tok] a run of word characters: [running] gives
    Running, [paused] Paused, [saved] Saved, [poweroff] and [aborted]
    Stopped, any other token None; an output without such a line gives
    None. *)
Theorem GetState_parses_VMState (env : Env) (w : world) (stdout stderr : string) :
  env_vbmOutErr env (hist w) ["showvminfo"; MachineName (drv w); "--machinereadable"]
  = (stdout, stderr, None) ->
  exists st,
    GetState env w
    = (Ok st, record (Vbm ["showvminfo"; MachineName (drv w); "--machinereadable"])
                     (ROut stdout stderr None) w)
    /\ (forall before line after tok,
           Split_byte newline stdout = before ++ line :: after ->
           Forall no_VMState_line before ->
           VMState_line tok line ->
           (tok = "running" -> st = state.Running)
           /\ (tok = "paused" -> st = state.Paused)
           /\ (tok = "saved" -> st = state.Saved)
           /\ (tok = "poweroff" \/ tok = "aborted" -> st = state.Stopped)
           /\ (tok <> "running" -> tok <> "paused" -> tok <> "saved" ->
               tok <> "poweroff" -> tok <> "aborted" -> st = state.None))
    /\ (Forall no_VMState_line (Split_byte newline stdout) -> st = state.None).
Proof.
  intros Hvbm. exists (parse_VMState stdout). split; [|split].
  - unfold GetState, vbmOutErr, ask, get_drv, mbind, M_bind, M_bind_def.
    rewrite Hvbm. reflexivity.
  - intros before line after tok Hsplit Hbefore Hline.
    unfold parse_VMState.
    rewrite FindStringSubmatch_VMState_first, Hsplit.
    rewrite (first_VMState_found _ _ _ _ Hbefore Hline).
    repeat split.
    + intros ->. reflexivity.
    + intros ->. reflexivity.
    + intros ->. reflexivity.
    + intros [-> | ->]; reflexivity.
    + intros H1 H2 H3 H4 H5.
      apply String.eqb_neq in H1, H2, H3, H4, H5.
      now rewrite H1, H2, H3, H4, H5.
  - intros Hnone. unfold parse_VMState.
    rewrite FindStringSubmatch_VMState_first.
    now rewrite (first_VMState_None _ Hnone).
Qed.

Lemma GetState_parses_VMState_witness :
  fst (GetState (Sim.env_of (Sim.plain "aborted")) Sim.world0) = Ok state.Stopped.
Proof.
  destruct (GetState_parses_VMState (Sim.env_of (Sim.plain "aborted")) Sim.world0
              (fst (fst (Sim.vminfo "aborted"))) EmptyString eq_refl)
    as (st & Hrun & Hline & _).
  rewrite Hrun. simpl. f_equal.
  refine (proj1 (proj2 (proj2 (proj2
            (Hline ["name=" +:+ String dquote "default" +:+ String dquote EmptyString]
                   ("VMState=" +:+ String dquote "aborted" +:+ String dquote EmptyString)
                   [EmptyString] "aborted" eq_refl _ _)))) _).
  - constructor; [|constructor]. apply no_VMState_line_None. reflexivity.
  - exists EmptyString. repeat split. discriminate.
  - right. reflexivity.
Defined.

(** ** Removal *)

(** C8.  When the state lookup reports that the machine does not exist,
    [Remove] returns success; the history grows by the lookup alone (no
    stop, kill or unregister command follows it) and the driver is left as
    it was. *)
Theorem Remove_absent_machine (env : Env) (fuel : nat) (w : world) :
  fst (GetState env w) = Err ErrMachineNotExist ->
  exists rep,
    Remove env fuel w
    = (Ok tt, record (Vbm ["showvminfo"; MachineName (drv w); "--machinereadable"]) rep w).
Proof.
  unfold Remove, catch, GetState, vbmOutErr, ask, get_drv, mbind, M_bind, M_bind_def.
  destruct (env_vbmOutErr env (hist w) _) as [[stdout stderr] [e|]]; simpl.
  - destruct (negb _); simpl.
    + intros _. eexists. reflexivity.
    + intros H. injection H as ->. eexists. reflexivity.
  - discriminate.
Qed.

Lemma Remove_absent_machine_witness :
  fst (Remove (Sim.env_of Sim_absent) 0 Sim.world0) = Ok tt
  /\ length (hist (snd (Remove (Sim.env_of Sim_absent) 0 Sim.world0))) = 1%nat.
Proof.
  destruct (Remove_absent_machine (Sim.env_of Sim_absent) 0 Sim.world0 eq_refl)
    as [rep ->].
  split; reflexivity.
Defined.

(** ** Symbolic execution of an operation *)

(** Unfolds the monad and the calls to the outside world in [H]. *)
Ltac unfold_prims H :=
  cbv beta iota zeta delta
      [mbind M_bind M_bind_def mret M_ret M_ret_def must must_val must_wrap ask ask_handing
       get_drv modify_drv raise panic out_of_fuel catch record
       vbm vbmOut vbmOutErr listHostOnlyAdapters getOrCreateHostOnlyNetwork
       removeOrphanDHCPServers addHostOnlyDHCPServer hostOnlyNetwork_SaveIPv4
       getVMDiskInfo getVMInfo logsReader_Read ipWaiter_Wait sleeper_Sleep time_Sleep
       randomInter_RandomInt net_Listen listener_Close b2dUpdater_CopyIsoToMachineDir
       b2dUpdater_UpdateISOCache sshKeyGenerator_Generate diskCreator_Create os_Stat
       mcnutils_CopyFile RunSSHCommandFromDriver isHyperVInstalled Driver_IsVTXDisabled
       reply_of_err reply_of_res] in H;
  cbn [drv hist fst snd MachineName hand_back set_IPAddress set_SSHPort set_SSHUser] in H.

(** Case analysis on the innermost scrutinee of [H]: the next reply of the
    outside world, or the next test of the code. *)
Ltac destruct_innermost H :=
  match type of H with
  | context [match ?x with _ => _ end] =>
      lazymatch x with
      | context [match _ with _ => _ end] => fail
      | _ => destruct x eqn:?
      end
  end.

Ltac run_all H := unfold_prims H; repeat (destruct_innermost H; unfold_prims H).

(** At the end of a path: the outcome and the final world are known, and the
    new part of the history is an explicit list. *)
Ltac finish_path H :=
  injection H as <- <-; cbn [drv hist]; rewrite <- ?app_assoc; cbn [app].

(** ** Creation of the machine *)

(** C10 (the claim as stated fails).  On a host with 64 CPUs, a machine
    configured with a CPU count of [-1] is created with [--cpus 32], not
    with the 64 CPUs of the host. *)
Lemma CreateVM_cpus_counterexample :
  let env := Sim.env_of Sim_manycpus in
  CPU (drv world_allcpus) < 1
  /\ env_runtime_NumCPU env = 64
  /\ exists args,
      In (Vbm args) (map ev_call (hist (snd (CreateVM env world_allcpus))))
      /\ is_hardware_modifyvm args
      /\ args !! 14%nat = Some "--cpus"
      /\ args !! 15%nat = Some "32"
      /\ args !! 15%nat <> Some (itoa (env_runtime_NumCPU env)).
Proof.
  split; [reflexivity|]. split; [reflexivity|].
  eexists. split.
  - vm_compute. do 4 right. left. reflexivity.
  - repeat split. vm_compute. discriminate.
Qed.

Lemma clamp_cpus_cases (n c : Z) :
  (c < 1 -> n <= 32 -> clamp_cpus n c = n)
  /\ (c < 1 -> 32 < n -> clamp_cpus n c = 32)
  /\ (32 < c -> clamp_cpus n c = 32)
  /\ (1 <= c <= 32 -> clamp_cpus n c = c).
Proof.
  unfold clamp_cpus.
  destruct (c <? 1) eqn:E1; destruct (32 <? n) eqn:E2; destruct (32 <? c) eqn:E3; lia.
Qed.

(** C10, amended.  The hardware [modifyvm] command of [CreateVM] carries
    [--cpus v] where, for [c] the CPU count of the machine when the command
    is issued (the configured count, or the count of the imported VM):
    [v] is the number of CPUs of the host capped at 32 when [c < 1], 32 when
    [c > 32], and [c] otherwise.  The command is issued whenever [CreateVM]
    succeeds, and the count is the configured one when no VM is imported. *)
Theorem CreateVM_cpus_clamped (env : Env) (w : world) :
  exists seg,
    hist (snd (CreateVM env w)) = hist w ++ seg
    /\ (Boot2DockerImportVM (drv w) = EmptyString ->
        CPU (drv (snd (CreateVM env w))) = CPU (drv w))
    /\ (forall name vm, In (Ev (GetVMInfo name) (RVM vm)) seg ->
                        CPU (drv (snd (CreateVM env w))) = vm_CPUs vm)
    /\ (forall ev args,
           In ev seg -> ev_call ev = Vbm args -> is_hardware_modifyvm args ->
           args !! 14%nat = Some "--cpus"
           /\ exists v,
               args !! 15%nat = Some (itoa v)
               /\ let c := CPU (drv (snd (CreateVM env w))) in
                  let n := env_runtime_NumCPU env in
                  (c < 1 -> n <= 32 -> v = n)
                  /\ (c < 1 -> 32 < n -> v = 32)
                  /\ (32 < c -> v = 32)
                  /\ (1 <= c <= 32 -> v = c))
    /\ (fst (CreateVM env w) = Ok tt ->
        exists ev args,
          In ev seg /\ ev_call ev = Vbm args /\ is_hardware_modifyvm args).
Proof.
  destruct (CreateVM env w) as [r w'] eqn:H. cbn [fst snd].
  destruct w as [d h]. unfold CreateVM in H.
  run_all H; finish_path H.
  all: eexists; split; [reflexivity|].
  all: split; [cbn [CPU set_CPU_Memory]; try reflexivity;
               try (intros Hempty; rewrite Hempty in *; discriminate)|].
  all: split; [intros name vm Hin; cbn [In] in Hin;
               repeat (destruct Hin as [Hin|Hin]; [try discriminate Hin|]);
               try contradiction;
               try (injection Hin as _ <-; reflexivity)|].
  all: split;
    [intros ev args Hin Hcall [H0 H2]; cbn [In] in Hin;
     repeat (destruct Hin as [<-|Hin];
             [cbn [ev_call] in Hcall; try discriminate Hcall;
              injection Hcall as <-; cbn in H0, H2; try discriminate H0;
              try discriminate H2|]);
     try contradiction;
     (split; [reflexivity|]; eexists; split; [reflexivity|];
      apply clamp_cpus_cases)
    |].
  all: try (intros Hok; discriminate Hok).
  all: intros _;
    match goal with
    | |- context [Ev (Vbm ("modifyvm" :: ?x :: "--firmware" :: ?rest)) ?rep] =>
        exists (Ev (Vbm ("modifyvm" :: x :: "--firmware" :: rest)) rep),
               ("modifyvm" :: x :: "--firmware" :: rest)
    end;
    (split; [cbn [In]; do 20 (try (left; reflexivity); right)
            | split; [reflexivity|split; reflexivity]]).
Qed.

(** On a host with 64 CPUs and a machine configured with [-1] CPU, the
    hardware command carries [--cpus 32]. *)
Lemma CreateVM_cpus_clamped_witness :
  exists args,
    is_hardware_modifyvm args
    /\ In (Vbm args)
          (map ev_call (hist (snd (CreateVM (Sim.env_of Sim_manycpus) world_allcpus))))
    /\ args !! 15%nat = Some (itoa 32).
Proof.
  destruct (CreateVM_cpus_clamped (Sim.env_of Sim_manycpus) world_allcpus)
    as (seg & Hh & _ & _ & Hcpu & Hok).
  destruct (Hok eq_refl) as (ev & args & Hin & Hcall & Hhw).
  destruct (Hcpu ev args Hin Hcall Hhw) as (_ & v & H15 & _ & Hcap & _).
  exists args. split; [exact Hhw|]. split.
  - change (hist world_allcpus ++ seg) with seg in Hh. rewrite Hh, <- Hcall.
    apply in_map. exact Hin.
  - rewrite H15. rewrite (Hcap eq_refl eq_refl). reflexivity.
Defined.

(** ** Port allocation *)

Lemma close_all_run (deferred : list string) (w : world) :
  close_all deferred w
  = (Ok tt, mkWorld (drv w)
                    (hist w ++ map (fun addr => Ev (ListenerClose addr) RDone) deferred)).
Proof.
  revert w; induction deferred as [|addr rest IH]; intros w; simpl.
  - rewrite app_nil_r. destruct w; reflexivity.
  - unfold mbind, M_bind, M_bind_def, listener_Close, ask. rewrite IH.
    unfold record. cbn [drv hist]. now rewrite <- app_assoc.
Qed.

(** On success the port returned is not 0: the loop returns only a port
    read back from a listener and found different from 0. *)
Lemma getAvailableTCPPort_loop_nonzero (env : Env) (n : nat) :
  forall port deferred w p w',
    getAvailableTCPPort_loop env n port deferred w = (Ok p, w') -> p <> 0.
Proof.
  induction n as [|n IH]; intros port deferred w p w' H; cbn [getAvailableTCPPort_loop] in H.
  - unfold mbind, M_bind, M_bind_def in H. rewrite close_all_run in H. discriminate.
  - unfold mbind, M_bind, M_bind_def, net_Listen, ask in H.
    destruct (env_net_Listen env (hist w) _ _) as [e|addr]; cbv beta iota zeta in H.
    + rewrite close_all_run in H. discriminate.
    + destruct (SplitN_colon_2 addr !! 1%nat) as [part|].
      * destruct (Atoi part) as [q|].
        -- destruct (negb (q =? 0)) eqn:Eq.
           ++ unfold mbind, M_bind, M_bind_def in H. rewrite close_all_run in H.
              injection H as <- <-. intros ->. discriminate.
           ++ unfold mbind, M_bind, M_bind_def, time_Sleep, ask in H.
              eapply IH. exact H.
        -- unfold mbind, M_bind, M_bind_def in H. rewrite close_all_run in H. discriminate.
      * unfold mbind, M_bind, M_bind_def in H. rewrite close_all_run in H. discriminate.
Qed.

Lemma getAvailableTCPPort_nonzero (env : Env) (port : Z) (w : world) (p : Z) (w' : world) :
  getAvailableTCPPort env port w = (Ok p, w') -> p <> 0.
Proof. apply getAvailableTCPPort_loop_nonzero. Qed.

(** C3 (the code departs from the claim).  When the listener on the
    requested port cannot be opened, as for a port already bound,
    [getAvailableTCPPort] returns the error of this first attempt: it makes
    no second attempt and never asks for an OS-assigned port. *)
Theorem getAvailableTCPPort_listen_error (env : Env) (port : Z) (w : world) (e : error) :
  env_net_Listen env (hist w) "tcp4" ("127.0.0.1:" +:+ itoa port) = inl e ->
  getAvailableTCPPort env port w
  = (Err e, record (NetListen "tcp4" ("127.0.0.1:" +:+ itoa port)) (RFail e) w).
Proof.
  intros H. unfold getAvailableTCPPort. cbn [getAvailableTCPPort_loop].
  unfold mbind, M_bind, M_bind_def, net_Listen, ask. rewrite H.
  reflexivity.
Qed.

Lemma getAvailableTCPPort_listen_error_witness :
  fst (getAvailableTCPPort (Sim.env_of Sim_bound) 2222 Sim.world0)
  = Err (ErrorString "listen tcp4 127.0.0.1:2222: bind: address already in use")
  /\ map ev_call (hist (snd (getAvailableTCPPort (Sim.env_of Sim_bound) 2222 Sim.world0)))
     = [NetListen "tcp4" "127.0.0.1:2222"].
Proof.
  rewrite (getAvailableTCPPort_listen_error (Sim.env_of Sim_bound) 2222 Sim.world0
             (ErrorString "listen tcp4 127.0.0.1:2222: bind: address already in use")
             eq_refl).
  split; reflexivity.
Defined.

(** ** The address of the DHCP server *)

Lemma getRandomIPinSubnet_loop_run (env : Env) (a b c h : Z) (n : nat) :
  (forall hs, 0 <= env_randomInter_RandomInt env hs 25 < 25) ->
  forall w,
  exists draws,
    snd (getRandomIPinSubnet_loop env n [a; b; c; h] w)
    = mkWorld (drv w) (hist w ++ map draw_event draws)
    /\ (length draws <= n)%nat
    /\ Forall (fun r => 0 <= r <= 24) draws
    /\ ((exists o prev,
            draws = prev ++ [o] /\ Forall (eq h) prev /\ o <> h
            /\ fst (getRandomIPinSubnet_loop env n [a; b; c; h] w) = Ok (IPv4 a b c o))
        \/ (length draws = n /\ Forall (eq h) draws
            /\ fst (getRandomIPinSubnet_loop env n [a; b; c; h] w) = Ok [])).
Proof.
  intros Hrand. induction n as [|n IH]; intros w.
  - exists []. cbn. rewrite app_nil_r. destruct w.
    split; [reflexivity|]. split; [lia|]. split; [constructor|].
    right. repeat split; constructor.
  - cbn [getRandomIPinSubnet_loop].
    unfold mbind, M_bind, M_bind_def, randomInter_RandomInt, ask.
    cbn [lookup list_lookup default].
    pose proof (Hrand (hist w)) as Hr.
    set (r := env_randomInter_RandomInt env (hist w) 25) in *.
    assert (Hbyte : byte_of_int r = r) by (unfold byte_of_int; apply Z.mod_small; lia).
    rewrite Hbyte.
    destruct (Z.eqb_spec r h) as [Heq|Hne]; cbn [negb].
    + destruct (IH (record (RandomInt 25) (RInt r) w))
        as (draws & Hw & Hlen & Hrange & Hres).
      exists (r :: draws). rewrite Hw. unfold record. cbn [drv hist map].
      rewrite <- app_assoc. split; [reflexivity|].
      split; [simpl; lia|]. split; [constructor; [lia|assumption]|].
      destruct Hres as [(o & prev & -> & Hprev & Ho & Hok)|(Hl & Hall & Hok)].
      * left. exists o, (r :: prev). repeat split; auto.
      * right. repeat split; auto. simpl. now rewrite Hl.
    + exists [r]. unfold record, M_ret_def. cbn.
      split; [reflexivity|]. split; [lia|]. split; [constructor; [lia|constructor]|].
      left. exists r, []. repeat split; auto.
Qed.


Lemma Sim_draws_range (draws : list Z) (hs : list event) :
  0 <= env_randomInter_RandomInt (Sim.env_of (Sim_draws draws)) hs 25 < 25.
Proof. cbn. apply Z.mod_pos_bound. lia. Qed.


(** ** The DHCP server of the host-only network *)

Lemma getRandomIPinSubnet_loop_hist (env : Env) (nAddr : IP) (n : nat) :
  forall w, exists draws,
    hist (snd (getRandomIPinSubnet_loop env n nAddr w)) = hist w ++ draws.
Proof.
  induction n as [|n IH]; intros w; cbn [getRandomIPinSubnet_loop].
  - exists []. rewrite app_nil_r. reflexivity.
  - unfold mbind, M_bind, M_bind_def, randomInter_RandomInt, ask.
    destruct (nAddr !! 3%nat) as [h|]; [|eexists; reflexivity].
    destruct (negb _); [eexists; reflexivity|].
    destruct (IH (record (RandomInt 25) (RInt (env_randomInter_RandomInt env (hist w) 25)) w))
      as (draws & ->).
    eexists. unfold record. cbn [hist]. rewrite <- app_assoc. reflexivity.
Qed.

Lemma getRandomIPinSubnet_hist (env : Env) (baseIP : IP) (w : world) :
  exists draws, hist (snd (getRandomIPinSubnet env baseIP w)) = hist w ++ draws.
Proof.
  unfold getRandomIPinSubnet, mbind, M_bind, M_bind_def.
  destruct (getRandomIPinSubnet_loop_hist env (To4 baseIP) 5 w) as (draws & H).
  exists draws.
  destruct (getRandomIPinSubnet_loop env 5 (To4 baseIP) w) as [[[|x l]| | |] w']; exact H.
Qed.

(** Unfolds the monad and the calls to the outside world in the goal. *)
Ltac unfold_goal_prims :=
  cbv beta iota zeta delta
      [mbind M_bind M_bind_def mret M_ret M_ret_def must must_val must_wrap ask ask_handing
       get_drv modify_drv raise panic out_of_fuel catch record
       vbm vbmOut vbmOutErr listHostOnlyAdapters getOrCreateHostOnlyNetwork
       removeOrphanDHCPServers addHostOnlyDHCPServer hostOnlyNetwork_SaveIPv4
       getVMDiskInfo getVMInfo logsReader_Read ipWaiter_Wait sleeper_Sleep time_Sleep
       randomInter_RandomInt net_Listen listener_Close b2dUpdater_CopyIsoToMachineDir
       b2dUpdater_UpdateISOCache sshKeyGenerator_Generate diskCreator_Create os_Stat
       mcnutils_CopyFile RunSSHCommandFromDriver isHyperVInstalled Driver_IsVTXDisabled
       reply_of_err reply_of_res];
  cbn [drv hist fst snd].

Lemma setupHostOnlyNetwork_adds_dhcp (env : Env) (machineName : string) (w : world)
      (ip : IP) (network : IPNet) (a b c z : Z) (adapter : hostOnlyNetwork)
      (dhcpAddr : IP) (w1 : world) :
  parseAndValidateCIDR (effective_CIDR (drv w)) = inr (ip, network) ->
  To4 (IPNet_IP network) = [a; b; c; z] ->
  env_getOrCreateHostOnlyNetwork env (hist w) ip (IPNet_Mask network) = inr adapter ->
  env_removeOrphanDHCPServers env
    (hist w ++ [Ev (GetOrCreateHostOnlyNetwork ip (IPNet_Mask network)) (RNet adapter)])
  = None ->
  getRandomIPinSubnet env ip
    (mkWorld (drv w)
             (hist w ++ [Ev (GetOrCreateHostOnlyNetwork ip (IPNet_Mask network)) (RNet adapter);
                         Ev RemoveOrphanDHCPServers RDone]))
  = (Ok dhcpAddr, w1) ->
  exists rep rest,
    hist (snd (setupHostOnlyNetwork env machineName w))
    = hist w1
      ++ Ev (AddHostOnlyDHCPServer (hon_Name adapter)
               (mkDhcpServer (mkIPNet dhcpAddr (IPNet_Mask network))
                             (IPv4 a b c 100) (IPv4 a b c 254) true)) rep :: rest.
Proof.
  intros Hcidr Hnet Hg Hr Hrand. destruct w as [d h].
  unfold effective_CIDR in Hcidr. cbn [drv hist] in *.
  unfold setupHostOnlyNetwork.
  unfold_goal_prims. rewrite Hcidr. unfold_goal_prims. rewrite Hg. unfold_goal_prims. rewrite Hr.
  unfold_goal_prims. rewrite <- app_assoc. cbn [app]. rewrite Hrand. unfold_goal_prims.
  rewrite Hnet. cbn [lookup list_lookup]. unfold_goal_prims.
  destruct (env_addHostOnlyDHCPServer env _ _ _) as [e|]; unfold_goal_prims.
  - eexists _, []. reflexivity.
  - destruct (env_vbmOutErr env _ _) as [[so se] [e|]]; unfold_goal_prims;
      rewrite <- app_assoc; eexists _, _; reflexivity.
Qed.

(** C6.  For a host-only CIDR whose network address is [a.b.c.z], every
    DHCP server that [setupHostOnlyNetwork] adds has the lease pool
    [a.b.c.100]-[a.b.c.254] and is enabled; a successful setup adds one, on
    the adapter it returns; and the server with this pool is added as soon
    as the adapter is found or created, the orphan servers are removed and an
    address is drawn for the server. *)
Theorem setupHostOnlyNetwork_dhcp_bounds (env : Env) (machineName : string) (w : world)
        (ip : IP) (network : IPNet) (a b c z : Z) :
  parseAndValidateCIDR (effective_CIDR (drv w)) = inr (ip, network) ->
  To4 (IPNet_IP network) = [a; b; c; z] ->
  exists seg,
    hist (snd (setupHostOnlyNetwork env machineName w)) = hist w ++ seg
    /\ (forall ev ifname dhcp,
           In ev seg -> ev_call ev = AddHostOnlyDHCPServer ifname dhcp ->
           dhcp_LowerIP dhcp = IPv4 a b c 100
           /\ dhcp_UpperIP dhcp = IPv4 a b c 254
           /\ dhcp_Enabled dhcp = true)
    /\ (forall adapter,
           fst (setupHostOnlyNetwork env machineName w) = Ok adapter ->
           exists ev dhcp,
             In ev seg /\ ev_call ev = AddHostOnlyDHCPServer (hon_Name adapter) dhcp)
    /\ (forall adapter dhcpAddr w1,
           env_getOrCreateHostOnlyNetwork env (hist w) ip (IPNet_Mask network) = inr adapter ->
           env_removeOrphanDHCPServers env
             (hist w ++ [Ev (GetOrCreateHostOnlyNetwork ip (IPNet_Mask network))
                            (RNet adapter)])
           = None ->
           getRandomIPinSubnet env ip
             (mkWorld (drv w)
                      (hist w ++ [Ev (GetOrCreateHostOnlyNetwork ip (IPNet_Mask network))
                                     (RNet adapter);
                                  Ev RemoveOrphanDHCPServers RDone]))
           = (Ok dhcpAddr, w1) ->
           exists rep,
             In (Ev (AddHostOnlyDHCPServer (hon_Name adapter)
                       (mkDhcpServer (mkIPNet dhcpAddr (IPNet_Mask network))
                                     (IPv4 a b c 100) (IPv4 a b c 254) true)) rep) seg).
Proof.
  intros Hcidr Hnet.
  assert (Hadd : forall seg,
             hist (snd (setupHostOnlyNetwork env machineName w)) = hist w ++ seg ->
             forall adapter dhcpAddr w1,
               env_getOrCreateHostOnlyNetwork env (hist w) ip (IPNet_Mask network)
               = inr adapter ->
               env_removeOrphanDHCPServers env
                 (hist w ++ [Ev (GetOrCreateHostOnlyNetwork ip (IPNet_Mask network))
                                (RNet adapter)])
               = None ->
               getRandomIPinSubnet env ip
                 (mkWorld (drv w)
                          (hist w ++ [Ev (GetOrCreateHostOnlyNetwork ip (IPNet_Mask network))
                                         (RNet adapter);
                                      Ev RemoveOrphanDHCPServers RDone]))
               = (Ok dhcpAddr, w1) ->
               exists rep,
                 In (Ev (AddHostOnlyDHCPServer (hon_Name adapter)
                           (mkDhcpServer (mkIPNet dhcpAddr (IPNet_Mask network))
                                         (IPv4 a b c 100) (IPv4 a b c 254) true)) rep) seg).
  { intros seg Hseg adapter dhcpAddr w1 Hg Hr Hrand.
    destruct (setupHostOnlyNetwork_adds_dhcp env machineName w ip network a b c z adapter
                dhcpAddr w1 Hcidr Hnet Hg Hr Hrand) as (rep & rest & Hh).
    destruct (getRandomIPinSubnet_hist env ip
                (mkWorld (drv w)
                   (hist w ++ [Ev (GetOrCreateHostOnlyNetwork ip (IPNet_Mask network))
                                  (RNet adapter);
                               Ev RemoveOrphanDHCPServers RDone]))) as (draws & Hd).
    rewrite Hrand in Hd. cbn [snd hist] in Hd. rewrite Hd, Hseg in Hh.
    rewrite <- !app_assoc in Hh. apply app_inv_head in Hh. subst seg.
    exists rep. rewrite !in_app_iff. right. right. left. reflexivity. }
  revert Hadd.
  destruct (setupHostOnlyNetwork env machineName w) as [r w'] eqn:H. cbn [fst snd].
  destruct w as [d h]. intros Hadd. unfold setupHostOnlyNetwork, getRandomIPinSubnet in H.
  unfold effective_CIDR in Hcidr. cbn [drv] in Hcidr.
  unfold_prims H. rewrite Hcidr, Hnet in H.
  cbn [getRandomIPinSubnet_loop lookup list_lookup] in H.
  unfold_prims H.
  repeat (destruct_innermost H; unfold_prims H).
  all: finish_path H.
  all: eexists; split; [reflexivity|].
  all: split;
    [intros ev ifname dhcp Hin Hcall; cbn [In] in Hin;
     repeat (destruct Hin as [<-|Hin];
             [cbn [ev_call] in Hcall; try discriminate Hcall;
              injection Hcall as <- <-; repeat split|]);
     try contradiction|].
  all: split; [|apply Hadd; cbn [hist]; rewrite <- ?app_assoc; reflexivity].
  all: intros adapter Hok; try discriminate Hok.
  all: injection Hok as <-.
  all: match goal with
       | |- context [Ev (AddHostOnlyDHCPServer ?n ?dh) ?rep] =>
           exists (Ev (AddHostOnlyDHCPServer n dh) rep), dh
       end;
       (split; [cbn [In]; do 20 (try (left; reflexivity); right)|reflexivity]).
Qed.

Lemma setupHostOnlyNetwork_dhcp_bounds_witness :
  fst (setupHostOnlyNetwork (Sim.env_of (Sim.plain "poweroff")) "default" world_1005)
  = Ok Sim.vboxnet0
  /\ exists rep,
      In (Ev (AddHostOnlyDHCPServer "vboxnet0"
                (mkDhcpServer (mkIPNet (IPv4 10 0 5 7) [255; 255; 255; 0])
                              (IPv4 10 0 5 100) (IPv4 10 0 5 254) true)) rep)
         (hist (snd (setupHostOnlyNetwork (Sim.env_of (Sim.plain "poweroff")) "default"
                       world_1005))).
Proof.
  split; [reflexivity|].
  destruct (setupHostOnlyNetwork_dhcp_bounds (Sim.env_of (Sim.plain "poweroff")) "default"
              world_1005 (IPv4 10 0 5 1) (mkIPNet [10; 0; 5; 0] [255; 255; 255; 0])
              10 0 5 0 eq_refl eq_refl) as (seg & Hh & _ & _ & Hadd).
  destruct (Hadd Sim.vboxnet0 (IPv4 10 0 5 7)
              (snd (getRandomIPinSubnet (Sim.env_of (Sim.plain "poweroff")) (IPv4 10 0 5 1)
                      (mkWorld (drv world_1005)
                         (hist world_1005
                          ++ [Ev (GetOrCreateHostOnlyNetwork (IPv4 10 0 5 1) [255; 255; 255; 0])
                                 (RNet Sim.vboxnet0);
                              Ev RemoveOrphanDHCPServers RDone]))))
              eq_refl eq_refl eq_refl) as (rep & Hin).
  exists rep. rewrite Hh. apply in_or_app. right. exact Hin.
Defined.

(** ** Propagation of the failures of the hypervisor *)

Section Sound.

Variable env : Env.
Variable ex : event -> bool.

Lemma propagates_nil {A : Type} (r : outcome A) : propagates env ex [] r.
Proof. intros ev e stderr []. Qed.

Lemma propagates_app {A : Type} (s1 s2 : list event) (r : outcome A) :
  propagates env ex s1 r -> propagates env ex s2 r -> propagates env ex (s1 ++ s2) r.
Proof.
  intros H1 H2 ev e stderr Hin. apply in_app_or in Hin as [Hin|Hin]; eauto.
Qed.

(** A segment whose outcome is not an error holds no unexcused failure,
    whatever comes after it. *)
Lemma propagates_Ok {A B : Type} (s : list event) (a : A) (r : outcome B) :
  propagates env ex s (Ok a) -> propagates env ex s r.
Proof.
  intros H ev e stderr Hin Hf Hex.
  destruct (H ev e stderr Hin Hf Hex) as (e' & Habs & _). discriminate.
Qed.

Lemma sound_ret {A : Type} (a : A) : sound env ex (mret a).
Proof. intros w. exists []. split; [now rewrite app_nil_r|apply propagates_nil]. Qed.

Lemma sound_raise {A : Type} (e : error) : sound env ex (@raise A e).
Proof. intros w. exists []. split; [now rewrite app_nil_r|apply propagates_nil]. Qed.

Lemma sound_panic {A : Type} (msg : string) : sound env ex (@panic A msg).
Proof. intros w. exists []. split; [now rewrite app_nil_r|apply propagates_nil]. Qed.

Lemma sound_out_of_fuel {A : Type} : sound env ex (@out_of_fuel A).
Proof. intros w. exists []. split; [now rewrite app_nil_r|apply propagates_nil]. Qed.

Lemma sound_get_drv : sound env ex get_drv.
Proof. intros w. exists []. split; [now rewrite app_nil_r|apply propagates_nil]. Qed.

Lemma sound_modify_drv (f : Driver -> Driver) : sound env ex (modify_drv f).
Proof. intros w. exists []. split; [cbn; now rewrite app_nil_r|apply propagates_nil]. Qed.

Lemma sound_bind {A B : Type} (m : M A) (k : A -> M B) :
  sound env ex m -> (forall a, sound env ex (k a)) -> sound env ex (m ≫= k).
Proof.
  intros Hm Hk w. unfold mbind, M_bind, M_bind_def.
  destruct (Hm w) as (s1 & Hh1 & Hp1).
  destruct (m w) as [[a|e|msg|] w1]; cbn [fst snd] in *.
  - destruct (Hk a w1) as (s2 & Hh2 & Hp2).
    exists (s1 ++ s2). split; [now rewrite Hh2, Hh1, app_assoc|].
    apply propagates_app; [|exact Hp2].
    eapply propagates_Ok; exact Hp1.
  - exists s1. split; [exact Hh1|].
    intros ev e0 stderr Hin Hf Hex.
    destruct (Hp1 ev e0 stderr Hin Hf Hex) as (e' & He' & Hrep).
    injection He' as ->. eauto.
  - exists s1. split; [exact Hh1|].
    intros ev e0 stderr Hin Hf Hex.
    destruct (Hp1 ev e0 stderr Hin Hf Hex) as (e' & He' & Hrep). discriminate.
  - exists s1. split; [exact Hh1|].
    intros ev e0 stderr Hin Hf Hex.
    destruct (Hp1 ev e0 stderr Hin Hf Hex) as (e' & He' & Hrep). discriminate.
Qed.

(** A call that is no invocation of the hypervisor, or whose failure is
    excused. *)
Lemma sound_ask {A : Type} (c : call) (oracle : list event -> A) (rep : A -> reply) :
  (forall a, hypervisor_failure (Ev c (rep a)) = None \/ ex (Ev c (rep a)) = true) ->
  sound env ex (ask c oracle rep).
Proof.
  intros Hc w. exists [Ev c (rep (oracle (hist w)))]. split; [reflexivity|].
  intros ev e stderr [<-|[]] Hf Hex. destruct (Hc (oracle (hist w))); congruence.
Qed.

Lemma sound_must_ask (c : call) (oracle : list event -> option error) :
  sound env ex (must (ask c oracle reply_of_err)).
Proof.
  intros w. exists [Ev c (reply_of_err (oracle (hist w)))]. split.
  - unfold must, mbind, M_bind, M_bind_def, ask. destruct (oracle (hist w)); reflexivity.
  - intros ev e stderr [<-|[]] Hf Hex.
    unfold must, mbind, M_bind, M_bind_def, ask.
    destruct (oracle (hist w)) as [e1|]; cbn in *.
    + exists e1. split; [reflexivity|].
      destruct c; try discriminate Hf; injection Hf as <- <-; constructor.
    + destruct c; discriminate Hf.
Qed.

Lemma sound_must_val_ask {A : Type} (c : call) (oracle : list event -> error + A)
      (f : A -> reply) :
  (forall a, hypervisor_failure (Ev c (f a)) = None) ->
  sound env ex (must_val (ask c oracle (reply_of_res f))).
Proof.
  intros Hc w. exists [Ev c (reply_of_res f (oracle (hist w)))]. split.
  - unfold must_val, mbind, M_bind, M_bind_def, ask. destruct (oracle (hist w)); reflexivity.
  - intros ev e stderr [<-|[]] Hf Hex.
    unfold must_val, mbind, M_bind, M_bind_def, ask.
    destruct (oracle (hist w)) as [e1|a]; cbn in *.
    + exists e1. split; [reflexivity|].
      destruct c; try discriminate Hf; injection Hf as <- <-; constructor.
    + rewrite Hc in Hf. discriminate.
Qed.

Lemma sound_must_vbm (args : list string) : sound env ex (must (vbm env args)).
Proof.
  intros w.
  destruct (env_vbmOutErr env (hist w) args) as [[so se] oe] eqn:E.
  exists [Ev (Vbm args) (ROut so se oe)]. split.
  - unfold must, vbm, vbmOutErr, mbind, M_bind, M_bind_def, ask. rewrite E.
    destruct oe; reflexivity.
  - intros ev e stderr [<-|[]] Hf Hex.
    unfold must, vbm, vbmOutErr, mbind, M_bind, M_bind_def, ask. rewrite E.
    destruct oe as [e1|]; cbn in *; [|discriminate].
    injection Hf as <- <-. exists e1. split; [reflexivity|constructor].
Qed.

Lemma sound_must_wrap_vbm (prefix : string) (args : list string) :
  sound env ex (must_wrap prefix (vbm env args)).
Proof.
  intros w.
  destruct (env_vbmOutErr env (hist w) args) as [[so se] oe] eqn:E.
  exists [Ev (Vbm args) (ROut so se oe)]. split.
  - unfold must_wrap, vbm, vbmOutErr, mbind, M_bind, M_bind_def, ask. rewrite E.
    destruct oe; reflexivity.
  - intros ev e stderr [<-|[]] Hf Hex.
    unfold must_wrap, vbm, vbmOutErr, mbind, M_bind, M_bind_def, ask. rewrite E.
    destruct oe as [e1|]; cbn in *; [|discriminate].
    injection Hf as <- <-. exists (Errorf prefix e1).
    split; [reflexivity|do 2 constructor].
Qed.

(** A CLI command whose error the code drops. *)
Lemma sound_vbm_unchecked (args : list string) :
  (forall so se oe, ex (Ev (Vbm args) (ROut so se oe)) = true) ->
  sound env ex (vbm env args).
Proof.
  intros Hex w.
  destruct (env_vbmOutErr env (hist w) args) as [[so se] oe] eqn:E.
  exists [Ev (Vbm args) (ROut so se oe)]. split.
  - unfold vbm, vbmOutErr, mbind, M_bind, M_bind_def, ask. rewrite E. reflexivity.
  - intros ev e stderr [<-|[]] Hf Hne. rewrite Hex in Hne. discriminate.
Qed.

Lemma sound_GetState : sound env ex (GetState env).
Proof.
  intros w.
  destruct (env_vbmOutErr env (hist w)
              ["showvminfo"; MachineName (drv w); "--machinereadable"])
    as [[so se] oe] eqn:E.
  exists [Ev (Vbm ["showvminfo"; MachineName (drv w); "--machinereadable"]) (ROut so se oe)].
  unfold GetState, vbmOutErr, mbind, M_bind, M_bind_def, ask, get_drv. rewrite E.
  split.
  - destruct oe; [destruct (negb _)|]; reflexivity.
  - intros ev e stderr [<-|[]] Hf Hne.
    destruct oe as [e1|]; cbn in Hf; [|discriminate].
    injection Hf as <- <-.
    destruct (negb _) eqn:Enf; cbn.
    + exists ErrMachineNotExist. split; [reflexivity|].
      apply reports_not_exist. intros Heq. rewrite Heq in Enf. discriminate.
    + exists e1. split; [reflexivity|constructor].
Qed.

(** [v, err := m(); if err != nil { ...; return err' }] where [err'] carries
    [err] and the handler calls nothing. *)
Lemma sound_catch {A B : Type} (m : M A) (k : error + A -> M B) :
  sound env ex m ->
  (forall a, sound env ex (k (inr a))) ->
  (forall e, exists e',
      (forall w, fst (k (inl e) w) = Err e' /\ hist (snd (k (inl e) w)) = hist w)
      /\ (forall e0 stderr, reports env e0 stderr e -> reports env e0 stderr e')) ->
  sound env ex (catch m ≫= k).
Proof.
  intros Hm Hk Hh w. unfold mbind, M_bind, M_bind_def, catch.
  destruct (Hm w) as (s1 & Hh1 & Hp1).
  destruct (m w) as [[a|e|msg|] w1]; cbn [fst snd] in *.
  - destruct (Hk a w1) as (s2 & Hh2 & Hp2).
    exists (s1 ++ s2). split; [now rewrite Hh2, Hh1, app_assoc|].
    apply propagates_app; [|exact Hp2].
    eapply propagates_Ok; exact Hp1.
  - destruct (Hh e) as (e' & Hrun & Hrep). destruct (Hrun w1) as [Hr Hw].
    exists s1. split; [now rewrite Hw|].
    intros ev e0 stderr Hin Hf Hex.
    destruct (Hp1 ev e0 stderr Hin Hf Hex) as (e1 & He1 & Hrep1).
    injection He1 as ->. exists e'. split; [exact Hr|]. now apply Hrep.
  - exists s1. split; [exact Hh1|].
    intros ev e0 stderr Hin Hf Hex.
    destruct (Hp1 ev e0 stderr Hin Hf Hex) as (e' & He' & Hrep). discriminate.
  - exists s1. split; [exact Hh1|].
    intros ev e0 stderr Hin Hf Hex.
    destruct (Hp1 ev e0 stderr Hin Hf Hex) as (e' & He' & Hrep). discriminate.
Qed.

End Sound.

Lemma sound_weaken (env : Env) (ex1 ex2 : event -> bool) {A : Type} (m : M A) :
  (forall ev, ex1 ev = true -> ex2 ev = true) ->
  sound env ex1 m -> sound env ex2 m.
Proof.
  intros Hsub Hm w. destruct (Hm w) as (seg & Hh & Hp).
  exists seg. split; [exact Hh|].
  intros ev e stderr Hin Hf Hex. apply (Hp ev e stderr Hin Hf).
  destruct (ex1 ev) eqn:E1; [|reflexivity]. apply Hsub in E1. congruence.
Qed.

Lemma sound_must_ipWaiter_Wait (env : Env) (ex : event -> bool) :
  sound env ex (must (ipWaiter_Wait env)).
Proof.
  intros w. exists [Ev IPWait (reply_of_err (fst (env_ipWaiter_Wait env (hist w) (drv w))))].
  unfold must, ipWaiter_Wait, mbind, M_bind, M_bind_def, ask_handing. cbv zeta. split.
  - destruct (env_ipWaiter_Wait env (hist w) (drv w)) as [[e|] left]; reflexivity.
  - intros ev e stderr [<-|[]] Hf.
    destruct (env_ipWaiter_Wait env (hist w) (drv w)) as [[e'|] left]; discriminate Hf.
Qed.

Lemma sound_must_val_RunSSHCommandFromDriver (env : Env) (ex : event -> bool)
      (command : string) :
  sound env ex (must_val (RunSSHCommandFromDriver env command)).
Proof.
  intros w.
  exists [Ev (RunSSHCommand command)
             (reply_of_res RStr
                (fst (env_RunSSHCommandFromDriver env (hist w) (drv w) command)))].
  unfold must_val, RunSSHCommandFromDriver, mbind, M_bind, M_bind_def, ask_handing.
  cbv zeta. split.
  - destruct (env_RunSSHCommandFromDriver env (hist w) (drv w) command) as [[e|out] left];
      reflexivity.
  - intros ev e stderr [<-|[]] Hf.
    destruct (env_RunSSHCommandFromDriver env (hist w) (drv w) command) as [[e'|out] left];
      discriminate Hf.
Qed.

Create HintDb sound discriminated.

#[local] Hint Resolve sound_ret sound_raise sound_panic sound_out_of_fuel sound_get_drv
  sound_modify_drv sound_must_vbm sound_must_wrap_vbm sound_GetState : sound.

Ltac head_of t :=
  lazymatch t with
  | ?f _ => head_of f
  | _ => t
  end.

(** One step of a proof of [sound]: a rule for the head of the operation,
    or a case analysis on what the operation tests. *)
Ltac sound_step :=
  lazymatch goal with
  | |- sound _ _ (mbind _ (catch _)) =>
      apply sound_catch;
      [ | intros ?
        | solve [intros ?; eexists; split;
                 [intros ?; split; reflexivity
                 |intros ? ? ?; first [assumption | now apply reports_wrapped]]] ]
  | |- sound _ _ (vbm _ _) => fail
  | |- sound _ _ (mbind _ _) => apply sound_bind; [|intros ?]
  | |- sound _ _ (must (vbm _ _)) => apply sound_must_vbm
  | |- sound _ _ (must_wrap _ (vbm _ _)) => apply sound_must_wrap_vbm
  | |- sound _ _ (must (ipWaiter_Wait _)) => apply sound_must_ipWaiter_Wait
  | |- sound _ _ (must_val (RunSSHCommandFromDriver _ _)) =>
      apply sound_must_val_RunSSHCommandFromDriver
  | |- sound _ _ (must (ask _ _ reply_of_err)) => apply sound_must_ask
  | |- sound _ _ (must ?m) => let h := head_of m in unfold h; apply sound_must_ask
  | |- sound _ _ (must_val (ask _ _ (reply_of_res _))) =>
      apply sound_must_val_ask; intros ?; reflexivity
  | |- sound _ _ (must_val ?m) =>
      let h := head_of m in unfold h; apply sound_must_val_ask; intros ?; reflexivity
  | |- sound _ _ (must_val (ask _ _ (reply_of_res _))) =>
      apply sound_must_val_ask; intros ?; reflexivity
  | |- sound _ _ (ask _ _ _) =>
      apply sound_ask; intros ?; left; reflexivity
  | |- sound _ _ (match ?x with _ => _ end) => destruct x
  | |- sound _ _ ?m =>
      first [solve [auto with sound] | let h := head_of m in progress unfold h]
  end.

Ltac sound_auto := repeat sound_step.

Section SoundOps.

Variable env : Env.
Variable ex : event -> bool.

Lemma sound_close_all (deferred : list string) : sound env ex (close_all deferred).
Proof.
  induction deferred as [|addr rest IH]; cbn [close_all]; sound_auto; try exact IH.
Qed.
Hint Resolve sound_close_all : sound.

Lemma sound_getAvailableTCPPort_loop (n : nat) :
  forall port deferred, sound env ex (getAvailableTCPPort_loop env n port deferred).
Proof.
  induction n as [|n IH]; intros port deferred; cbn [getAvailableTCPPort_loop].
  - sound_auto.
  - sound_auto; try apply IH.
Qed.

Lemma sound_getAvailableTCPPort (port : Z) : sound env ex (getAvailableTCPPort env port).
Proof. apply sound_getAvailableTCPPort_loop. Qed.
Hint Resolve sound_getAvailableTCPPort : sound.

Lemma sound_getRandomIPinSubnet_loop (n : nat) (nAddr : IP) :
  sound env ex (getRandomIPinSubnet_loop env n nAddr).
Proof.
  induction n as [|n IH]; cbn [getRandomIPinSubnet_loop]; sound_auto; try exact IH.
Qed.
Hint Resolve sound_getRandomIPinSubnet_loop : sound.

Lemma sound_getRandomIPinSubnet (baseIP : IP) : sound env ex (getRandomIPinSubnet env baseIP).
Proof. unfold getRandomIPinSubnet. sound_auto. Qed.
Hint Resolve sound_getRandomIPinSubnet : sound.

Lemma sound_setupHostOnlyNetwork (machineName : string) :
  sound env ex (setupHostOnlyNetwork env machineName).
Proof. unfold setupHostOnlyNetwork. sound_auto. Qed.
Hint Resolve sound_setupHostOnlyNetwork : sound.

Lemma sound_IsVTXDisabledInTheVM : sound env ex (IsVTXDisabledInTheVM env).
Proof. unfold IsVTXDisabledInTheVM. sound_auto. Qed.
Hint Resolve sound_IsVTXDisabledInTheVM : sound.

Lemma sound_Stop_poll (fuel : nat) : sound env ex (Stop_poll env fuel).
Proof.
  induction fuel as [|fuel IH]; cbn [Stop_poll]; sound_auto; try exact IH.
Qed.
Hint Resolve sound_Stop_poll : sound.

Lemma sound_Stop (fuel : nat) : sound env ex (Stop env fuel).
Proof. unfold Stop. sound_auto. Qed.
Hint Resolve sound_Stop : sound.

Lemma sound_Restart : sound env ex (Restart env).
Proof. unfold Restart. sound_auto. Qed.

Lemma sound_Kill : sound env ex (Kill env).
Proof. unfold Kill. sound_auto. Qed.
Hint Resolve sound_Kill : sound.

End SoundOps.

#[local] Hint Resolve sound_close_all sound_getAvailableTCPPort sound_getRandomIPinSubnet_loop
  sound_getRandomIPinSubnet sound_setupHostOnlyNetwork sound_IsVTXDisabledInTheVM
  sound_Stop_poll sound_Stop sound_Kill sound_Restart : sound.

Section SoundMore.

Variable env : Env.
Variable ex : event -> bool.

Lemma sound_vbmOut {B : Type} (args : list string) (k : string * option error -> M B) :
  (forall out, sound env ex (k (out, None))) ->
  (forall out e, k (out, Some e) = raise e) ->
  sound env ex (vbmOut env args ≫= k).
Proof.
  intros Hk Hraise w.
  destruct (env_vbmOutErr env (hist w) args) as [[so se] oe] eqn:E.
  unfold vbmOut, vbmOutErr, mbind, M_bind, M_bind_def, ask. rewrite E.
  cbv beta iota zeta delta [M_ret_def mret M_ret].
  destruct oe as [e|].
  - rewrite Hraise. exists [Ev (Vbm args) (ROut so se (Some e))].
    split; [reflexivity|].
    intros ev e0 stderr [<-|[]] Hf Hex. injection Hf as <- <-.
    exists e. split; [reflexivity|constructor].
  - destruct (Hk so (record (Vbm args) (ROut so se None) w)) as (seg & Hh & Hp).
    exists (Ev (Vbm args) (ROut so se None) :: seg). split.
    + rewrite Hh. unfold record. cbn [hist]. now rewrite <- app_assoc.
    + intros ev e0 stderr [<-|Hin] Hf Hex; [discriminate Hf|]. eauto.
Qed.

Lemma sound_PreCreateCheck : sound env ex (PreCreateCheck env).
Proof.
  unfold PreCreateCheck. apply sound_bind; [apply sound_get_drv|intros d].
  apply sound_vbmOut; [intros out; sound_auto|reflexivity].
Qed.

Lemma sound_GetIP : sound env ex (GetIP env).
Proof. unfold GetIP. sound_auto. Qed.

Lemma sound_GetURL : sound env ex (GetURL env).
Proof. unfold GetURL. apply sound_bind; [apply sound_GetIP|intros ip]. sound_auto. Qed.

Lemma sound_forget {A : Type} (m : M A) : sound env ex m -> sound env ex (forget m).
Proof. intros H. unfold forget. sound_auto. Qed.

(** The bind of [Create], where the first operation is known to be sound
    in the world where it starts only. *)
Lemma sound_bind_at {A B : Type} (m : M A) (k : A -> M B) (w : world) :
  (exists seg, hist (snd (m w)) = hist w ++ seg /\ propagates env ex seg (fst (m w))) ->
  (forall a, sound env ex (k a)) ->
  exists seg,
    hist (snd ((m ≫= k) w)) = hist w ++ seg /\ propagates env ex seg (fst ((m ≫= k) w)).
Proof.
  intros (s1 & Hh1 & Hp1) Hk. unfold mbind, M_bind, M_bind_def.
  destruct (m w) as [[a|e|msg|] w1]; cbn [fst snd] in *.
  - destruct (Hk a w1) as (s2 & Hh2 & Hp2).
    exists (s1 ++ s2). split; [now rewrite Hh2, Hh1, app_assoc|].
    apply propagates_app; [|exact Hp2].
    eapply propagates_Ok; exact Hp1.
  - exists s1. split; [exact Hh1|].
    intros ev e0 stderr Hin Hf Hex.
    destruct (Hp1 ev e0 stderr Hin Hf Hex) as (e' & He' & Hrep).
    injection He' as ->. eauto.
  - exists s1. split; [exact Hh1|].
    intros ev e0 stderr Hin Hf Hex.
    destruct (Hp1 ev e0 stderr Hin Hf Hex) as (e' & He' & Hrep). discriminate.
  - exists s1. split; [exact Hh1|].
    intros ev e0 stderr Hin Hf Hex.
    destruct (Hp1 ev e0 stderr Hin Hf Hex) as (e' & He' & Hrep). discriminate.
Qed.

(** *** Operations that drop the error of the rule deletion *)

Hypothesis ex_natpf_delete : forall ev, is_natpf_delete (ev_call ev) = true -> ex ev = true.

Lemma prefix_append (p s : string) : String.prefix p (p +:+ s) = true.
Proof.
  induction p as [|a p IH]; [destruct s; reflexivity|].
  change (String a p +:+ s) with (String a (p +:+ s)). cbn [String.prefix].
  destruct (ascii_dec a a); [exact IH|contradiction].
Qed.

Lemma sound_setPortForwarding (interfaceNum : Z) (mapName protocol : string)
      (guestPort desiredHostPort : Z) :
  sound env ex
        (setPortForwarding env interfaceNum mapName protocol guestPort desiredHostPort).
Proof.
  unfold setPortForwarding. sound_auto.
  apply sound_vbm_unchecked. intros so se oe. apply ex_natpf_delete.
  cbn [ev_call is_natpf_delete]. apply prefix_append.
Qed.
Hint Resolve sound_setPortForwarding : sound.

Lemma sound_Start (fuel : nat) : sound env ex (Start env fuel).
Proof. unfold Start. sound_auto. Qed.

End SoundMore.

#[local] Hint Resolve sound_setPortForwarding sound_Start sound_PreCreateCheck sound_GetIP
  sound_GetURL : sound.

Section SoundRemove.

Variable env : Env.
Variable ex : event -> bool.

Hypothesis ex_not_exist : forall ev, is_machine_not_exist env ev = true -> ex ev = true.

(** The state lookup of [Remove]: a machine that does not exist is no
    error. *)
Lemma sound_catch_GetState_not_exist {B : Type} (k : state.State -> M B) (k0 : M B) :
  (forall s, sound env ex (k s)) ->
  sound env ex k0 ->
  sound env ex
        (catch (GetState env)
         ≫= fun r => match r with
                     | inl err =>
                         if bool_decide (err = ErrMachineNotExist) then k0 else raise err
                     | inr s => k s
                     end).
Proof.
  intros Hk Hk0 w.
  destruct (env_vbmOutErr env (hist w)
              ["showvminfo"; MachineName (drv w); "--machinereadable"])
    as [[so se] oe] eqn:E.
  set (ev := Ev (Vbm ["showvminfo"; MachineName (drv w); "--machinereadable"])
                (ROut so se oe)).
  unfold catch, GetState, vbmOutErr, mbind, M_bind, M_bind_def, ask, get_drv.
  rewrite E. fold ev.
  assert (Hcons : forall (m : M B),
             sound env ex m -> (hypervisor_failure ev = None \/ ex ev = true) ->
             exists seg,
               hist (snd (m (record (ev_call ev) (ev_reply ev) w))) = hist w ++ seg
               /\ propagates env ex seg (fst (m (record (ev_call ev) (ev_reply ev) w)))).
  { intros m Hm Hev. destruct (Hm (record (ev_call ev) (ev_reply ev) w)) as (seg & Hh & Hp).
    exists (ev :: seg). split.
    - rewrite Hh. unfold record. cbn [hist]. now rewrite <- app_assoc.
    - intros ev' e stderr [<-|Hin] Hf Hex; [destruct Hev; congruence|eauto]. }
  destruct oe as [e1|]; cbn [fst snd].
  - destruct (negb _) eqn:Enf; cbn [raise fst snd].
    + cbn [bool_decide decide_rel]. apply (Hcons k0 Hk0). right.
      apply ex_not_exist. subst ev. cbn. now rewrite Enf.
    + destruct (bool_decide (e1 = ErrMachineNotExist)) eqn:Ee.
      * apply (Hcons k0 Hk0). right. apply ex_not_exist. subst ev. cbn.
        rewrite Ee. apply orb_true_r.
      * exists [ev]. split; [reflexivity|].
        intros ev' e stderr [<-|[]] Hf Hex. injection Hf as <- <-.
        exists e1. split; [reflexivity|constructor].
  - apply (Hcons (k (parse_VMState so)) (Hk _)). left. reflexivity.
Qed.

Lemma sound_Remove (fuel : nat) : sound env ex (Remove env fuel).
Proof.
  unfold Remove. apply sound_bind; [apply sound_get_drv|intros d].
  apply sound_catch_GetState_not_exist; [intros s|]; sound_auto.
Qed.

End SoundRemove.

Section SoundCreate.

Variable env : Env.
Variable ex : event -> bool.
Variable w : world.

Hypothesis ex_import_poweroff :
  forall ev, is_import_poweroff (drv w) (ev_call ev) = true -> ex ev = true.

Lemma sound_CreateVM_at :
  exists seg,
    hist (snd (CreateVM env w)) = hist w ++ seg
    /\ propagates env ex seg (fst (CreateVM env w)).
Proof.
  unfold CreateVM.
  match goal with
  | |- context [(mbind ?k get_drv) w] =>
      assert (Hs : sound env ex (k (drv w))); [cbv beta|exact (Hs w)]
  end.
  sound_auto.
  apply sound_vbm_unchecked. intros so se oe. apply ex_import_poweroff.
  cbn [ev_call is_import_poweroff]. apply String.eqb_refl.
Qed.

Hypothesis ex_natpf_delete : forall ev, is_natpf_delete (ev_call ev) = true -> ex ev = true.

Lemma sound_Create_at (fuel : nat) :
  exists seg,
    hist (snd (Create env fuel w)) = hist w ++ seg
    /\ propagates env ex seg (fst (Create env fuel w)).
Proof.
  unfold Create. apply sound_bind_at; [apply sound_CreateVM_at|].
  intros _. apply sound_Start. exact ex_natpf_delete.
Qed.

End SoundCreate.




(** ** Traces of the operations that [Start] calls *)

(** Symbolic execution where [special] deals with the calls to operations
    that have a lemma of their own. *)
Ltac decide_states H :=
  repeat match type of H with
         | context [bool_decide (@eq state.State ?a ?b)] =>
             let v := eval vm_compute in (bool_decide (a = b)) in
             lazymatch v with
             | true => change (bool_decide (a = b)) with true in H
             | false => change (bool_decide (a = b)) with false in H
             end
         end.

Ltac run_with special H :=
  unfold_prims H;
  repeat (match type of H with
          | context [match ?x with _ => _ end] =>
              lazymatch x with
              | context [match _ with _ => _ end] => fail
              | bool_decide (parse_VMState ?so = _) => destruct (parse_VMState so) eqn:?
              | _ => first [special x | destruct x eqn:?]
              end
          end; decide_states H; unfold_prims H).

(** Closes a goal [Forall (fun ev => q (ev_call ev) = true) seg] for a
    segment made of explicit events and of segments known to satisfy it. *)
Ltac solve_Forall :=
  repeat first [assumption
               | apply List.Forall_nil
               | apply List.Forall_cons; [reflexivity|]
               | apply Forall_app; split].


Lemma count_app (p : call -> bool) (s1 s2 : list event) :
  count p (s1 ++ s2) = (count p s1 + count p s2)%nat.
Proof. unfold count. now rewrite map_app, List.filter_app, length_app. Qed.

Lemma count_cons (p : call -> bool) (ev : event) (s : list event) :
  count p (ev :: s) = ((if p (ev_call ev) then 1 else 0) + count p s)%nat.
Proof. unfold count. cbn. destruct (p (ev_call ev)); reflexivity. Qed.

Lemma count_zero (p q : call -> bool) (seg : list event) :
  (forall c, q c = true -> p c = false) ->
  Forall (fun ev => q (ev_call ev) = true) seg ->
  count p seg = 0%nat.
Proof.
  intros Hpq. induction 1 as [|ev seg Hev _ IH]; [reflexivity|].
  rewrite count_cons, IH, (Hpq _ Hev). reflexivity.
Qed.

Lemma mutating_calls_app (s1 s2 : list event) :
  mutating_calls (s1 ++ s2) = mutating_calls s1 ++ mutating_calls s2.
Proof. unfold mutating_calls. now rewrite map_app, List.filter_app. Qed.

Lemma mutating_calls_quiet (q : call -> bool) (seg : list event) :
  (forall c, q c = true -> is_mutating c = false) ->
  Forall (fun ev => q (ev_call ev) = true) seg ->
  mutating_calls seg = [].
Proof.
  intros Hq. induction 1 as [|ev seg Hev _ IH]; [reflexivity|].
  unfold mutating_calls in *. cbn. now rewrite (Hq _ Hev).
Qed.

Lemma getAvailableTCPPort_loop_run (env : Env) (n : nat) :
  forall port deferred w,
  exists seg,
    snd (getAvailableTCPPort_loop env n port deferred w) = mkWorld (drv w) (hist w ++ seg)
    /\ Forall (fun ev => is_probe (ev_call ev) = true) seg.
Proof.
  assert (Hclose : forall deferred : list string,
             Forall (fun ev => is_probe (ev_call ev) = true)
                    (map (fun addr => Ev (ListenerClose addr) RDone) deferred)).
  { induction deferred; constructor; auto. }
  induction n as [|n IH]; intros port deferred w; cbn [getAvailableTCPPort_loop].
  - unfold mbind, M_bind, M_bind_def. rewrite close_all_run. eexists. split; [reflexivity|].
    apply Hclose.
  - unfold mbind, M_bind, M_bind_def, net_Listen, ask.
    destruct (env_net_Listen env (hist w) _ _) as [e|addr]; cbv beta iota zeta.
    + rewrite close_all_run. unfold record. cbn [drv hist snd]. rewrite <- app_assoc.
      eexists. split; [reflexivity|]. constructor; [reflexivity|apply Hclose].
    + destruct (SplitN_colon_2 addr !! 1%nat) as [part|];
        [destruct (Atoi part) as [q|]; [destruct (negb (q =? 0))|]|].
      1, 3, 4: rewrite close_all_run; unfold record; cbn [drv hist snd];
        rewrite <- app_assoc; eexists; (split; [reflexivity|]);
        constructor; [reflexivity|apply Hclose].
      unfold time_Sleep, ask. cbn [fst snd].
      match goal with
      | |- context [getAvailableTCPPort_loop env n 0 ?df ?w1] =>
          destruct (IH 0 df w1) as (seg & Hw & Hfp)
      end.
      rewrite Hw. unfold record. cbn [drv hist]. rewrite <- !app_assoc.
      eexists. split; [reflexivity|].
      constructor; [reflexivity|]. constructor; [reflexivity|]. exact Hfp.
Qed.

Lemma Stop_poll_run (env : Env) (fuel : nat) :
  forall w,
  exists seg,
    snd (Stop_poll env fuel w) = mkWorld (drv w) (hist w ++ seg)
    /\ Forall (fun ev => stop_call (ev_call ev) = true) seg
    /\ count is_acpipowerbutton seg = 0%nat.
Proof.
  induction fuel as [|fuel IH]; intros w.
  - exists []. cbn. rewrite app_nil_r. destruct w. auto.
  - destruct (Stop_poll env (S fuel) w) as [r w'] eqn:H. destruct w as [d h].
    cbn [Stop_poll] in H. unfold GetState in H.
    run_with ltac:(fun x =>
      lazymatch x with
      | Stop_poll _ _ ?w1 =>
          let Hr := fresh "Hrun" in
          pose proof (IH w1) as Hr;
          destruct x eqn:?; cbn [fst snd drv hist] in Hr;
          destruct Hr as (? & -> & ? & ?)
      end) H.
    all: try (match type of H with
              | Stop_poll _ _ ?w1 = _ =>
                  let Hr := fresh "Hrun" in
                  pose proof (IH w1) as Hr; rewrite H in Hr;
                  cbn [fst snd drv hist] in Hr; destruct Hr as (? & -> & ? & ?)
              end).
    all: try finish_path H.
    all: cbn [fst snd drv hist]; rewrite <- ?app_assoc; cbn [app].
    all: eexists; (split; [reflexivity|]).
    all: split;
      [solve_Forall
      |rewrite ?count_cons; cbn [ev_call is_acpipowerbutton];
       repeat match goal with Hc : count _ _ = 0%nat |- _ => rewrite Hc; clear Hc end;
       reflexivity].
Qed.

(** [Stop]: state lookups, [controlvm] commands and sleeps, with at most
    one power-button signal. *)
Lemma Stop_run (env : Env) (fuel : nat) (w : world) :
  exists seg d',
    snd (Stop env fuel w) = mkWorld d' (hist w ++ seg)
    /\ Forall (fun ev => stop_call (ev_call ev) = true) seg
    /\ (count is_acpipowerbutton seg <= 1)%nat.
Proof.
  destruct (Stop env fuel w) as [r w'] eqn:H. destruct w as [d h].
  unfold Stop, GetState in H.
  run_with ltac:(fun x =>
    lazymatch x with
    | Stop_poll ?env ?f ?w1 =>
        let Hr := fresh "Hrun" in
        pose proof (Stop_poll_run env f w1) as Hr;
        destruct x eqn:?; cbn [fst snd drv hist] in Hr;
        destruct Hr as (? & -> & ? & ?)
    end) H.
  all: finish_path H.
  all: eexists; eexists; (split; [reflexivity|]).
  all: split;
    [solve_Forall
    |rewrite ?count_cons; cbn [ev_call is_acpipowerbutton];
     repeat match goal with Hc : count _ _ = 0%nat |- _ => rewrite Hc; clear Hc end;
     cbn; lia].
Qed.

Lemma probe_provision (c : call) : is_probe c = true -> provision_call c = true.
Proof. destruct c; cbn; congruence. Qed.

Lemma probe_quiet (c : call) : is_probe c = true -> is_mutating c = false.
Proof. destruct c; cbn; congruence. Qed.

Lemma provision_not_repair (c : call) : provision_call c = true -> repair_step c = false.
Proof.
  destruct c; cbn; try congruence.
  intros H. unfold repair_step, is_startvm, is_acpipowerbutton. cbn.
  destruct args as [|verb args]; [discriminate|]. cbn in H.
  apply String.eqb_eq in H. subst verb.
  destruct args as [|a [|b [|c args]]]; reflexivity.
Qed.

Lemma stop_not_repair (c : call) :
  stop_call c = true ->
  is_SaveIPv4 c = false /\ is_ListHostOnlyAdapters c = false
  /\ is_startvm c = false /\ is_IPWait c = false.
Proof.
  destruct c; cbn; try congruence; try (intros _; repeat split; reflexivity).
  intros H. unfold is_startvm. cbn.
  destruct args as [|verb args]; [discriminate|]. cbn in H.
  apply orb_true_iff in H as [H|H]; apply String.eqb_eq in H; subst verb;
    repeat split; reflexivity.
Qed.

Lemma getAvailableTCPPort_run (env : Env) (port : Z) (w : world) :
  exists seg,
    snd (getAvailableTCPPort env port w) = mkWorld (drv w) (hist w ++ seg)
    /\ Forall (fun ev => is_probe (ev_call ev) = true) seg.
Proof. apply getAvailableTCPPort_loop_run. Qed.

(** The port forwarding of [Start]: probes, then the deletion of the old
    rule and the installation of the new one, which is the last call. *)
Lemma setPortForwarding_run (env : Env) (hostPort : Z) (w : world) :
  exists seg port,
    snd (setPortForwarding env 1 "ssh" "tcp" 22 hostPort w)
    = mkWorld (drv w) (hist w ++ seg)
    /\ Forall (fun ev => provision_call (ev_call ev) = true) seg
    /\ mutating_calls seg `prefix_of` [cmd_natpf_delete (drv w); cmd_natpf_add (drv w) port]
    /\ (forall p, fst (setPortForwarding env 1 "ssh" "tcp" 22 hostPort w) = Ok p ->
                  p = port
                  /\ mutating_calls seg
                     = [cmd_natpf_delete (drv w); cmd_natpf_add (drv w) port]).
Proof.
  destruct (setPortForwarding env 1 "ssh" "tcp" 22 hostPort w) as [r w'] eqn:H.
  destruct w as [d h]. unfold setPortForwarding in H.
  run_with ltac:(fun x =>
    lazymatch x with
    | getAvailableTCPPort ?env ?p ?w1 =>
        let Hr := fresh "Hrun" in
        pose proof (getAvailableTCPPort_run env p w1) as Hr;
        destruct x eqn:?; cbn [fst snd drv hist] in Hr;
        destruct Hr as (? & -> & ?)
    end) H.
  all: finish_path H.
  all: match goal with
       | Hp : Forall (fun ev => is_probe (ev_call ev) = true) ?probes |- _ =>
           pose proof (mutating_calls_quiet is_probe probes probe_quiet Hp) as Hq;
           pose proof (Forall_impl _ _ _ Hp (fun ev => probe_provision (ev_call ev))) as Hpr
       end.
  all: eexists; eexists; (split; [reflexivity|]).
  all: split; [solve_Forall|].
  all: rewrite ?mutating_calls_app, ?Hq; cbn [app fst snd drv].
  all: split;
    [|intros p' Hp'; first [discriminate Hp' | injection Hp' as <-; split; reflexivity]].
  all: try (eexists; reflexivity).
  all: apply prefix_nil.
  Unshelve. all: exact 0.
Qed.

(** The set-up of the host-only network: the calls of [hostonly_calls] in
    their order, with random draws between them. *)
Lemma setupHostOnlyNetwork_run (env : Env) (machineName : string) (w : world) :
  exists seg ip mask ifname dhcp,
    snd (setupHostOnlyNetwork env machineName w) = mkWorld (drv w) (hist w ++ seg)
    /\ Forall (fun ev => provision_call (ev_call ev) = true) seg
    /\ mutating_calls seg `prefix_of` hostonly_calls (drv w) machineName ip mask ifname dhcp
    /\ (forall a, fst (setupHostOnlyNetwork env machineName w) = Ok a ->
                  ifname = hon_Name a
                  /\ mutating_calls seg
                     = hostonly_calls (drv w) machineName ip mask ifname dhcp
                  /\ In (Ev (GetOrCreateHostOnlyNetwork ip mask) (RNet a)) seg
                  /\ exists network,
                      parseAndValidateCIDR (effective_CIDR (drv w)) = inr (ip, network)
                      /\ mask = IPNet_Mask network).
Proof.
  destruct (setupHostOnlyNetwork env machineName w) as [r w'] eqn:H.
  destruct w as [d h]. unfold setupHostOnlyNetwork, getRandomIPinSubnet in H.
  cbn [getRandomIPinSubnet_loop] in H.
  unfold_prims H. fold (effective_CIDR d) in H.
  run_all H; finish_path H.
  all: eexists; eexists; eexists; eexists; eexists;
    (split; [first [reflexivity | rewrite app_nil_r; reflexivity]|]).
  all: split; [solve_Forall|].
  all: cbn [fst snd drv].
  all: split;
    [|intros a Ha;
      first [discriminate Ha
            |injection Ha as <-;
             split; [reflexivity|]; split; [reflexivity|];
             split; [cbn [In]; left; reflexivity|];
             eexists; split; [eassumption|reflexivity]]].
  all: try (eexists; reflexivity).
  all: try apply prefix_nil.
  Unshelve.
  all: first [exact EmptyString | exact ([] : list Z)
             | exact (mkDhcpServer (mkIPNet [] []) [] [] false)].
Qed.

(** Symbolic execution of [Start]: the three operations it calls are
    replaced by what their lemmas say of them. *)
Ltac start_special x :=
  lazymatch x with
  | setupHostOnlyNetwork ?env ?n ?w1 =>
      let Hr := fresh "Hsetup" in
      pose proof (setupHostOnlyNetwork_run env n w1) as Hr;
      destruct x eqn:?; cbn [fst snd drv hist] in Hr;
      destruct Hr as (? & ? & ? & ? & ? & -> & ? & ? & ?)
  | setPortForwarding ?env _ _ _ _ ?hp ?w1 =>
      let Hr := fresh "Hpf" in
      pose proof (setPortForwarding_run env hp w1) as Hr;
      destruct x eqn:?; cbn [fst snd drv hist] in Hr;
      destruct Hr as (? & ? & -> & ? & ? & ?)
  | Stop ?env ?f ?w1 =>
      let Hr := fresh "Hstop" in
      pose proof (Stop_run env f w1) as Hr;
      destruct x eqn:?; cbn [fst snd drv hist] in Hr;
      destruct Hr as (? & ? & -> & ? & ?)
  end.

(** What the lemmas say of an operation that succeeded. *)
Ltac use_success :=
  subst;
  repeat match goal with
         | Hok : forall x, Ok ?a = Ok x -> _ |- _ => specialize (Hok _ eq_refl)
         | Hok : forall x, Err _ = Ok x -> _ |- _ => clear Hok
         | Hok : forall x, Panic _ = Ok x -> _ |- _ => clear Hok
         | Hok : forall x, OutOfFuel = Ok x -> _ |- _ => clear Hok
         end.

Lemma mutating_calls_cons (ev : event) (seg : list event) :
  mutating_calls (ev :: seg)
  = (if is_mutating (ev_call ev) then [ev_call ev] else []) ++ mutating_calls seg.
Proof. unfold mutating_calls. cbn. destruct (is_mutating (ev_call ev)); reflexivity. Qed.

Lemma mutating_calls_nil : mutating_calls [] = [].
Proof. reflexivity. Qed.

(** ** The transitions of [Start] *)




(** ** The repair of the host-only adapter *)

Lemma count_nil (p : call -> bool) : count p [] = 0%nat.
Proof. reflexivity. Qed.

Lemma repair_step_false (c : call) :
  repair_step c = false ->
  is_SaveIPv4 c = false /\ is_acpipowerbutton c = false
  /\ is_ListHostOnlyAdapters c = false /\ is_startvm c = false /\ is_IPWait c = false.
Proof.
  unfold repair_step. intros H.
  repeat (apply orb_false_iff in H as [H ?]). auto.
Qed.

Lemma count_provision (seg : list event) :
  Forall (fun ev => provision_call (ev_call ev) = true) seg ->
  count is_SaveIPv4 seg = 0%nat /\ count is_acpipowerbutton seg = 0%nat
  /\ count is_ListHostOnlyAdapters seg = 0%nat /\ count is_startvm seg = 0%nat
  /\ count is_IPWait seg = 0%nat /\ count is_repair_action seg = 0%nat.
Proof.
  intros H. repeat split; (eapply count_zero; [|exact H]); intros c Hc;
    apply provision_not_repair, repair_step_false in Hc;
    destruct Hc as (H1 & H2 & H3 & H4 & H5); unfold is_repair_action;
    rewrite ?H1, ?H2; auto.
Qed.

Lemma count_stop (seg : list event) :
  Forall (fun ev => stop_call (ev_call ev) = true) seg ->
  count is_SaveIPv4 seg = 0%nat /\ count is_ListHostOnlyAdapters seg = 0%nat
  /\ count is_startvm seg = 0%nat /\ count is_IPWait seg = 0%nat.
Proof.
  intros H. repeat split; (eapply count_zero; [|exact H]); intros c Hc;
    apply stop_not_repair in Hc; tauto.
Qed.

(** Where an event that satisfies [p] can be in a history: not in a part
    without such event, not at an event that does not satisfy [p]. *)
Lemma occ_nil (pre post : list event) (ev : event) : [] = pre ++ ev :: post -> False.
Proof. destruct pre; discriminate. Qed.

Lemma occ_none (p : call -> bool) (s pre post : list event) (ev : event) :
  s = pre ++ ev :: post -> p (ev_call ev) = true -> count p s = 0%nat -> False.
Proof. intros -> Hev Hc. rewrite count_app, count_cons, Hev in Hc. lia. Qed.

Lemma occ_cons (p : call -> bool) (a : event) (s pre post : list event) (ev : event) :
  a :: s = pre ++ ev :: post ->
  p (ev_call ev) = true -> p (ev_call a) = false ->
  exists pre', pre = a :: pre' /\ s = pre' ++ ev :: post.
Proof.
  intros H Hev Ha. destruct pre as [|b pre]; cbn in H.
  - injection H as -> _. congruence.
  - injection H as -> ->. eauto.
Qed.

Lemma occ_app (p : call -> bool) (s1 s2 pre post : list event) (ev : event) :
  s1 ++ s2 = pre ++ ev :: post ->
  p (ev_call ev) = true -> count p s1 = 0%nat ->
  exists pre', pre = s1 ++ pre' /\ s2 = pre' ++ ev :: post.
Proof.
  revert pre. induction s1 as [|a s1 IH]; intros pre H Hev Hc.
  - exists pre. auto.
  - rewrite count_cons in Hc. destruct (p (ev_call a)) eqn:Ha; [discriminate|].
    cbn [app] in H. destruct (occ_cons p _ _ _ _ _ H Hev Ha) as (pre' & -> & H').
    destruct (IH _ H' Hev Hc) as (pre'' & -> & H''). eauto.
Qed.

Lemma occ_here (p : call -> bool) (x : event) (s pre post : list event) (ev : event) :
  x :: s = pre ++ ev :: post ->
  p (ev_call ev) = true -> count p s = 0%nat ->
  pre = [] /\ ev = x /\ post = s.
Proof.
  intros H Hev Hc. destruct pre as [|b pre]; cbn in H.
  - injection H as -> ->. auto.
  - injection H as -> ->. rewrite count_app, count_cons, Hev in Hc. lia.
Qed.

Ltac solve_In :=
  lazymatch goal with
  | H : In ?x ?s |- In ?x (?s ++ _) => apply in_or_app; left; exact H
  | |- In _ (_ :: _) => first [left; reflexivity | right; solve_In]
  | |- In _ (_ ++ _) => apply in_or_app; right; solve_In
  end.

(** C1.  In the history of one [Start]: the adapter is rewritten at most
    once, the VM is sent the power-button signal at most once, the adapters
    are listed at most once, and there are at most two boots and two waits
    for an IP.  A repair action (the power-button signal or the rewriting of
    the adapter) comes only after a state lookup that gave Stopped, the
    set-up of a host-only adapter in this call, and a listing of the adapters
    in which none matches the IP and mask of the CIDR.  What follows the
    rewriting of the adapter, which is the adapter set up in this call, is at
    most a sleep, one headless boot and one wait for an IP: no validation, no
    repair. *)
Theorem Start_repairs_at_most_once (env : Env) (fuel : nat) (w : world) :
  exists seg,
    hist (snd (Start env fuel w)) = hist w ++ seg
    /\ ((count is_SaveIPv4 seg <= 1)%nat
        /\ (count is_acpipowerbutton seg <= 1)%nat
        /\ (count is_ListHostOnlyAdapters seg <= 1)%nat
        /\ (count is_startvm seg <= 2)%nat
        /\ (count is_IPWait seg <= 2)%nat)
    /\ (forall pre ev post,
           seg = pre ++ ev :: post ->
           is_repair_action (ev_call ev) = true ->
           exists so se a ip0 mask0 nets ip network,
             head pre = Some (Ev (cmd_showvminfo (drv w)) (ROut so se None))
             /\ parse_VMState so = state.Stopped
             /\ In (Ev (GetOrCreateHostOnlyNetwork ip0 mask0) (RNet a)) pre
             /\ In (Ev ListHostOnlyAdapters (RNets nets)) pre
             /\ parseAndValidateCIDR (HostOnlyCIDR (drv w)) = inr (ip, network)
             /\ env_getHostOnlyAdapter env nets ip (IPNet_Mask network) = None)
    /\ (forall pre ev post,
           seg = pre ++ ev :: post ->
           is_SaveIPv4 (ev_call ev) = true ->
           map ev_call post `prefix_of` [Sleep (5 * second); cmd_startvm (drv w); IPWait]
           /\ exists a ip0 mask0,
               ev_call ev = SaveIPv4 a
               /\ In (Ev (GetOrCreateHostOnlyNetwork ip0 mask0) (RNet a)) pre).
Proof.
  destruct (Start env fuel w) as [r w'] eqn:H. destruct w as [d h].
  unfold Start, IsVTXDisabledInTheVM, GetState in H.
  run_with start_special H.
  all: finish_path H.
  all: use_success.
  all: repeat match goal with
              | Hfp : Forall (fun ev => provision_call (ev_call ev) = true) _ |- _ =>
                  apply count_provision in Hfp; destruct Hfp as (? & ? & ? & ? & ? & ?)
              | Hfp : Forall (fun ev => stop_call (ev_call ev) = true) _ |- _ =>
                  apply count_stop in Hfp; destruct Hfp as (? & ? & ? & ?)
              end.
  all: eexists; (split; [first [reflexivity | rewrite app_nil_r; reflexivity]|]);
    cbn [fst snd drv].
  all: split;
    [repeat first [rewrite count_cons | rewrite count_app | rewrite count_nil];
     repeat match goal with
            | Hc : count ?p ?x = 0%nat |- context [count ?p ?x] => rewrite Hc
            end;
     cbn -[count]; lia
    |].
  all: repeat match goal with
              | Hc : _ /\ _ |- _ => destruct Hc
              | Hc : exists _, _ |- _ => destruct Hc
              end.
  all: split.
  all: intros pre ev post Hseg Hact.
  (* a repair action *)
  all: try (match type of Hact with
            | is_repair_action _ = true =>
                repeat first
                  [ eapply (occ_cons is_repair_action) in Hseg;
                    [destruct Hseg as (? & -> & Hseg) | exact Hact | solve [reflexivity]]
                  | eapply (occ_app is_repair_action) in Hseg;
                    [destruct Hseg as (? & -> & Hseg) | exact Hact | solve [assumption]] ];
                try (exfalso; eapply (occ_none is_repair_action);
                     [exact Hseg|exact Hact|first [assumption | reflexivity]]);
                eexists; eexists;
                match goal with
                | Hin : In (Ev (GetOrCreateHostOnlyNetwork ?i ?m) (RNet ?a)) _ |- _ =>
                    exists a, i, m
                end;
                eexists; eexists; eexists;
                (split; [reflexivity|]);
                (split; [eassumption|]);
                (split; [solve_In|]);
                (split; [solve_In|]);
                split; eassumption
            end).
  (* the rewriting of the adapter *)
  all: repeat first
         [ eapply (occ_cons is_SaveIPv4) in Hseg;
           [destruct Hseg as (? & -> & Hseg) | exact Hact | solve [reflexivity]]
         | eapply (occ_app is_SaveIPv4) in Hseg;
           [destruct Hseg as (? & -> & Hseg) | exact Hact | solve [assumption]] ].
  all: try (exfalso; eapply (occ_none is_SaveIPv4);
            [exact Hseg|exact Hact|first [assumption | reflexivity]]).
  all: eapply (occ_here is_SaveIPv4) in Hseg; [|exact Hact|reflexivity].
  all: destruct Hseg as (-> & -> & ->).
  all: split; [eexists; reflexivity|].
  all: match goal with
       | Hin : In (Ev (GetOrCreateHostOnlyNetwork ?i ?m) (RNet ?a)) _ |- _ =>
           exists a, i, m
       end.
  all: split; [reflexivity|].
  all: rewrite ?app_nil_r; solve_In.
Qed.

(** On the host of [Sim_corrupted] the adapter is rewritten by the 21st
    event of [Start]; it is the adapter set up earlier in the call, and what
    follows is within a sleep, one boot and one wait. *)
Lemma Start_repairs_at_most_once_witness :
  let tr := hist (snd (Start (Sim.env_of Sim_corrupted) 5 Sim.world0)) in
  map ev_call (drop 21 tr) `prefix_of` [Sleep (5 * second); cmd_startvm Sim.default; IPWait]
  /\ exists a ip0 mask0,
      In (Ev (GetOrCreateHostOnlyNetwork ip0 mask0) (RNet a)) (take 20 tr)
      /\ tr !! 20%nat = Some (Ev (SaveIPv4 a) RDone).
Proof.
  intros tr.
  destruct (Start_repairs_at_most_once (Sim.env_of Sim_corrupted) 5 Sim.world0)
    as (seg & Hh & _ & _ & Hsave).
  change (hist Sim.world0 ++ seg) with seg in Hh. fold tr in Hh.
  destruct (Hsave (take 20 tr) (Ev (SaveIPv4 Sim.vboxnet0) RDone) (drop 21 tr))
    as (Hpost & a & ip0 & mask0 & Hcall & Hin).
  - rewrite <- Hh. vm_compute. reflexivity.
  - reflexivity.
  - split; [exact Hpost|]. exists a, ip0, mask0. split; [exact Hin|].
    injection Hcall as <-. vm_compute. reflexivity.
Defined.

(** The repair at work: the adapter is missing after the boot; [Start]
    stops the VM, rewrites the adapter, boots again and waits, once. *)
Example Start_repair_example :
  let env := Sim.env_of Sim_corrupted in
  fst (Start env 5 Sim.world0) = Ok tt
  /\ List.filter repair_step (map ev_call (hist (snd (Start env 5 Sim.world0))))
     = [cmd_startvm Sim.default; IPWait; ListHostOnlyAdapters;
        Vbm ["controlvm"; "default"; "acpipowerbutton"];
        SaveIPv4 Sim.vboxnet0; cmd_startvm Sim.default; IPWait].
Proof. split; vm_compute; reflexivity. Qed.


(** ** The listeners of the port allocation *)

Lemma opened_app (s1 s2 : list event) : opened (s1 ++ s2) = opened s1 ++ opened s2.
Proof. apply omap_app. Qed.

(** Closes a case of the loop that ends after one more attempt. *)
Ltac one_attempt :=
  unfold raise, panic, mret, M_ret, M_ret_def;
  cbn [snd drv hist record reply_of_res];
  match goal with
  | |- context [Ev (NetListen ?a ?b) ?r] => exists [Ev (NetListen a b) r]
  end;
  rewrite <- app_assoc; split; reflexivity.

Lemma getAvailableTCPPort_loop_listeners (env : Env) (n : nat) :
  forall port deferred w,
  exists attempts,
    snd (getAvailableTCPPort_loop env n port deferred w)
    = mkWorld (drv w)
              (hist w ++ attempts ++ map close_event (rev (opened attempts) ++ deferred))
    /\ count is_ListenerClose attempts = 0%nat.
Proof.
  induction n as [|n IH]; intros port deferred w; cbn [getAvailableTCPPort_loop].
  - unfold mbind, M_bind, M_bind_def. rewrite close_all_run. exists []. split; reflexivity.
  - unfold mbind, M_bind, M_bind_def, net_Listen, ask.
    destruct (env_net_Listen env (hist w) _ _) as [e|addr] eqn:El; cbv beta iota zeta.
    + rewrite close_all_run. one_attempt.
    + destruct (SplitN_colon_2 addr !! 1%nat) as [part|].
      * destruct (Atoi part) as [q|].
        -- destruct (negb (q =? 0)).
           ++ unfold mbind, M_bind, M_bind_def. rewrite close_all_run. one_attempt.
           ++ unfold mbind, M_bind, M_bind_def, time_Sleep, ask.
              match goal with
              | |- context [getAvailableTCPPort_loop env n 0 ?d ?w1] =>
                  destruct (IH 0 d w1) as (att & -> & Hc)
              end.
              cbn [drv hist record reply_of_res].
              exists (Ev (NetListen "tcp4" ("127.0.0.1:" +:+ itoa port)) (RStr addr)
                        :: Ev (TimeSleep 1) RDone :: att).
              split.
              ** f_equal. rewrite <- !app_assoc. cbn [app]. do 3 f_equal.
                 change (opened (?a :: ?b :: att)) with (addr :: opened att).
                 cbn [rev]. rewrite <- app_assoc. reflexivity.
              ** rewrite !count_cons, Hc. reflexivity.
        -- unfold mbind, M_bind, M_bind_def. rewrite close_all_run. one_attempt.
      * unfold mbind, M_bind, M_bind_def. rewrite close_all_run. one_attempt.
Qed.

(** X1.  [getAvailableTCPPort] leaks no listener: whatever it returns (a
    port, an error, a panic), the history it adds is made of its attempts,
    which close nothing, followed by the closing of every listener that the
    attempts opened, last opened first; the driver is unchanged. *)
Theorem getAvailableTCPPort_closes_listeners (env : Env) (port : Z) (w : world) :
  exists attempts,
    snd (getAvailableTCPPort env port w)
    = mkWorld (drv w) (hist w ++ attempts ++ map close_event (rev (opened attempts)))
    /\ count is_ListenerClose attempts = 0%nat.
Proof.
  destruct (getAvailableTCPPort_loop_listeners env 11 port [] w) as (att & H & Hc).
  exists att. rewrite app_nil_r in H. split; assumption.
Qed.

Lemma listen_requests_0 (n : nat) :
  listen_requests 0 n = replicate n (NetListen "tcp4" ("127.0.0.1:" +:+ itoa 0)).
Proof. destruct n; reflexivity. Qed.

Lemma filter_calls_app (p : call -> bool) (s1 s2 : list event) :
  List.filter p (map ev_call (s1 ++ s2))
  = List.filter p (map ev_call s1) ++ List.filter p (map ev_call s2).
Proof. now rewrite map_app, List.filter_app. Qed.

Lemma closes_no_listen (deferred : list string) :
  List.filter is_NetListen
              (map ev_call (map (fun addr => Ev (ListenerClose addr) RDone) deferred)) = [].
Proof. induction deferred; auto. Qed.

Lemma getAvailableTCPPort_loop_requests (env : Env) (n : nat) :
  forall port deferred w,
  exists seg,
    snd (getAvailableTCPPort_loop env n port deferred w) = mkWorld (drv w) (hist w ++ seg)
    /\ List.filter is_NetListen (map ev_call seg) `prefix_of` listen_requests port n.
Proof.
  induction n as [|n IH]; intros port deferred w; cbn [getAvailableTCPPort_loop].
  - unfold mbind, M_bind, M_bind_def. rewrite close_all_run. eexists. split; [reflexivity|].
    rewrite closes_no_listen. reflexivity.
  - unfold mbind, M_bind, M_bind_def, net_Listen, ask.
    assert (Hone : forall (r : reply) (deferred' : list string),
               List.filter is_NetListen
                 (map ev_call
                    ([Ev (NetListen "tcp4" ("127.0.0.1:" +:+ itoa port)) r]
                       ++ map (fun addr => Ev (ListenerClose addr) RDone) deferred'))
               `prefix_of` listen_requests port (S n)).
    { intros r deferred'. rewrite filter_calls_app, closes_no_listen. cbn.
      apply prefix_cons, prefix_nil. }
    destruct (env_net_Listen env (hist w) _ _) as [e|addr] eqn:El; cbv beta iota zeta.
    + rewrite close_all_run. unfold raise. cbn [snd drv hist record reply_of_res].
      eexists. rewrite <- app_assoc. split; [reflexivity|]. apply Hone.
    + destruct (SplitN_colon_2 addr !! 1%nat) as [part|].
      * destruct (Atoi part) as [q|].
        -- destruct (negb (q =? 0)).
           ++ unfold mbind, M_bind, M_bind_def. rewrite close_all_run.
              unfold mret, M_ret, M_ret_def. cbn [snd drv hist record reply_of_res].
              eexists. rewrite <- app_assoc. split; [reflexivity|]. apply Hone.
           ++ unfold mbind, M_bind, M_bind_def, time_Sleep, ask.
              match goal with
              | |- context [getAvailableTCPPort_loop env n 0 ?d ?w1] =>
                  destruct (IH 0 d w1) as (seg & -> & Hp)
              end.
              cbn [drv hist record reply_of_res].
              exists (Ev (NetListen "tcp4" ("127.0.0.1:" +:+ itoa port)) (RStr addr)
                        :: Ev (TimeSleep 1) RDone :: seg).
              split.
              ** f_equal. rewrite <- !app_assoc. reflexivity.
              ** cbn [map List.filter ev_call is_NetListen listen_requests].
                 apply prefix_cons. rewrite <- listen_requests_0. exact Hp.
        -- unfold mbind, M_bind, M_bind_def. rewrite close_all_run.
           unfold raise. cbn [snd drv hist record reply_of_res].
           eexists. rewrite <- app_assoc. split; [reflexivity|]. apply Hone.
      * unfold mbind, M_bind, M_bind_def. rewrite close_all_run.
        unfold panic. cbn [snd drv hist record reply_of_res].
        eexists. rewrite <- app_assoc. split; [reflexivity|]. apply Hone.
Qed.

(** X2.  [getAvailableTCPPort] asks for at most 11 listeners; the first
    request is for the hinted port, every later one for port 0 (the hint is
    thrown away). *)
Theorem getAvailableTCPPort_requests (env : Env) (port : Z) (w : world) :
  exists seg,
    hist (snd (getAvailableTCPPort env port w)) = hist w ++ seg
    /\ List.filter is_NetListen (map ev_call seg) `prefix_of` listen_requests port 11.
Proof.
  destruct (getAvailableTCPPort_loop_requests env 11 port [] w) as (seg & H & Hp).
  exists seg. unfold getAvailableTCPPort. rewrite H. split; [reflexivity|exact Hp].
Qed.

Lemma opened_closes (deferred : list string) :
  opened (map (fun addr => Ev (ListenerClose addr) RDone) deferred) = [].
Proof. induction deferred; auto. Qed.

Lemma getAvailableTCPPort_loop_port (env : Env) (n : nat) :
  forall port deferred w p w',
    getAvailableTCPPort_loop env n port deferred w = (Ok p, w') ->
    exists seg addr,
      hist w' = hist w ++ seg
      /\ last (opened seg) = Some addr
      /\ port_of_addr addr = Some p.
Proof.
  induction n as [|n IH]; intros port deferred w p w' H; cbn [getAvailableTCPPort_loop] in H.
  - unfold mbind, M_bind, M_bind_def in H. rewrite close_all_run in H. discriminate.
  - unfold mbind, M_bind, M_bind_def, net_Listen, ask in H.
    destruct (env_net_Listen env (hist w) _ _) as [e|addr]; cbv beta iota zeta in H.
    + rewrite close_all_run in H. discriminate.
    + destruct (SplitN_colon_2 addr !! 1%nat) as [part|] eqn:Epart.
      * destruct (Atoi part) as [q|] eqn:Eq.
        -- destruct (negb (q =? 0)).
           ++ unfold mbind, M_bind, M_bind_def in H. rewrite close_all_run in H.
              injection H as <- <-. cbn [drv hist record reply_of_res].
              eexists. exists addr. rewrite <- app_assoc. split; [reflexivity|].
              pose proof (opened_closes (addr :: deferred)) as Hoc. cbn [map] in Hoc.
              rewrite opened_app, Hoc. cbn. unfold port_of_addr.
              rewrite Epart. auto.
           ++ unfold mbind, M_bind, M_bind_def, time_Sleep, ask in H.
              apply IH in H. destruct H as (seg & a & Hh & Hl & Hp).
              cbn [drv hist record reply_of_res] in Hh.
              exists (Ev (NetListen "tcp4" ("127.0.0.1:" +:+ itoa port)) (RStr addr)
                        :: Ev (TimeSleep 1) RDone :: seg), a.
              split; [rewrite Hh, <- !app_assoc; reflexivity|]. split; [|exact Hp].
              change (opened (?x :: ?y :: seg)) with (addr :: opened seg).
              destruct (opened seg); [discriminate Hl|exact Hl].
        -- unfold mbind, M_bind, M_bind_def in H. rewrite close_all_run in H. discriminate.
      * unfold mbind, M_bind, M_bind_def in H. rewrite close_all_run in H. discriminate.
Qed.

(** X3.  A port that [getAvailableTCPPort] returns is the port that the last
    listener it opened reports (the number after the first colon of its
    address), and it is not 0. *)
Theorem getAvailableTCPPort_returns_listener_port (env : Env) (port : Z) (w : world) (p : Z) :
  fst (getAvailableTCPPort env port w) = Ok p ->
  exists seg addr,
    hist (snd (getAvailableTCPPort env port w)) = hist w ++ seg
    /\ last (opened seg) = Some addr
    /\ port_of_addr addr = Some p
    /\ p <> 0.
Proof.
  intros H. destruct (getAvailableTCPPort env port w) as [r w'] eqn:E.
  cbn [fst snd] in *. subst r.
  destruct (getAvailableTCPPort_loop_port env 11 port [] w p w' E) as (seg & addr & Hh & Hl & Hp).
  exists seg, addr. repeat split; auto.
  eapply getAvailableTCPPort_loop_nonzero. exact E.
Qed.

Lemma getAvailableTCPPort_returns_listener_port_witness :
  exists seg addr,
    hist (snd (getAvailableTCPPort (Sim.env_of Sim_bound) 0 Sim.world0)) = seg
    /\ last (opened seg) = Some addr
    /\ port_of_addr addr = Some 49152.
Proof.
  destruct (getAvailableTCPPort_returns_listener_port
              (Sim.env_of Sim_bound) 0 Sim.world0 49152 eq_refl)
    as (seg & addr & Hh & Hl & Hp & _).
  exists seg, addr. auto.
Defined.

Lemma count_closes (p : call -> bool) (deferred : list string) :
  (forall a, p (ListenerClose a) = true) ->
  count p (map (fun addr => Ev (ListenerClose addr) RDone) deferred) = length deferred.
Proof.
  intros Hp. induction deferred as [|a l IH]; [reflexivity|].
  cbn [map]. rewrite count_cons. cbn [ev_call]. rewrite Hp, IH. reflexivity.
Qed.

Lemma count_closes_0 (p : call -> bool) (deferred : list string) :
  (forall a, p (ListenerClose a) = false) ->
  count p (map (fun addr => Ev (ListenerClose addr) RDone) deferred) = 0%nat.
Proof.
  intros Hp. induction deferred as [|a l IH]; [reflexivity|].
  cbn [map]. rewrite count_cons. cbn [ev_call]. rewrite Hp, IH. reflexivity.
Qed.

Lemma getAvailableTCPPort_loop_exhausted (env : Env) (hint : Z) (n : nat) :
  (forall hs q, q = hint \/ q = 0 ->
      exists addr,
        env_net_Listen env hs "tcp4" ("127.0.0.1:" +:+ itoa q) = inr addr
        /\ port_of_addr addr = Some 0) ->
  forall port deferred w,
  port = hint \/ port = 0 ->
  exists seg,
    getAvailableTCPPort_loop env n port deferred w
    = (Err (ErrorString "unable to allocate tcp port"), mkWorld (drv w) (hist w ++ seg))
    /\ count is_NetListen seg = n
    /\ count is_TimeSleep seg = n
    /\ count is_ListenerClose seg = (n + length deferred)%nat.
Proof.
  intros Hl. induction n as [|n IH]; intros port deferred w Hport;
    cbn [getAvailableTCPPort_loop].
  - unfold mbind, M_bind, M_bind_def. rewrite close_all_run. eexists. split; [reflexivity|].
    rewrite !count_closes_0 by reflexivity. rewrite count_closes by reflexivity. auto.
  - unfold mbind, M_bind, M_bind_def, net_Listen, ask.
    destruct (Hl (hist w) port Hport) as (addr & -> & Hp).
    cbv beta iota zeta. unfold port_of_addr in Hp.
    destruct (SplitN_colon_2 addr !! 1%nat) as [part|]; [|discriminate Hp].
    rewrite Hp. cbn [Z.eqb negb].
    unfold mbind, M_bind, M_bind_def, time_Sleep, ask.
    match goal with
    | |- context [getAvailableTCPPort_loop env n 0 ?d ?w1] =>
        destruct (IH 0 d w1 (or_intror eq_refl)) as (seg & -> & H1 & H2 & H3)
    end.
    cbn [drv hist record reply_of_res].
    exists (Ev (NetListen "tcp4" ("127.0.0.1:" +:+ itoa port)) (RStr addr)
              :: Ev (TimeSleep 1) RDone :: seg).
    split; [rewrite <- !app_assoc; reflexivity|].
    rewrite !count_cons. cbn [ev_call is_NetListen is_TimeSleep is_ListenerClose].
    rewrite H1, H2, H3. cbn [length]. repeat split; lia.
Qed.

(** X4.  On a host where the listeners asked for the hinted port and for
    port 0 all report port 0, [getAvailableTCPPort] gives up with the error
    "unable to allocate tcp port" after 11 attempts, each followed by a
    sleep, and closes the 11 listeners. *)
Theorem getAvailableTCPPort_exhausted (env : Env) (port : Z) (w : world) :
  (forall hs q, q = port \/ q = 0 ->
      exists addr,
        env_net_Listen env hs "tcp4" ("127.0.0.1:" +:+ itoa q) = inr addr
        /\ port_of_addr addr = Some 0) ->
  exists seg,
    getAvailableTCPPort env port w
    = (Err (ErrorString "unable to allocate tcp port"), mkWorld (drv w) (hist w ++ seg))
    /\ count is_NetListen seg = 11%nat
    /\ count is_TimeSleep seg = 11%nat
    /\ count is_ListenerClose seg = 11%nat.
Proof.
  intros Hl.
  apply (getAvailableTCPPort_loop_exhausted env port 11 Hl port [] w (or_introl eq_refl)).
Qed.

Lemma getAvailableTCPPort_exhausted_witness :
  fst (getAvailableTCPPort (Sim.env_of Sim_port0) 0 Sim.world0)
  = Err (ErrorString "unable to allocate tcp port")
  /\ count is_NetListen (hist (snd (getAvailableTCPPort (Sim.env_of Sim_port0) 0 Sim.world0)))
     = 11%nat.
Proof.
  destruct (getAvailableTCPPort_exhausted (Sim.env_of Sim_port0) 0 Sim.world0)
    as (seg & H & Hn & _).
  - intros hs q [->| ->]; exists "127.0.0.1:0"; split; reflexivity.
  - rewrite H. split; [reflexivity|exact Hn].
Defined.

(** The history of [setPortForwarding]. *)
Lemma setPortForwarding_trace (env : Env) (interfaceNum : Z)
        (mapName protocol : string) (guestPort desiredHostPort : Z) (w : world) :
  exists probes cmds,
    snd (setPortForwarding env interfaceNum mapName protocol guestPort desiredHostPort w)
    = mkWorld (drv w) (hist w ++ probes ++ cmds)
    /\ Forall (fun ev => is_probe (ev_call ev) = true) probes
    /\ ((cmds = []
         /\ forall p,
             fst (setPortForwarding env interfaceNum mapName protocol guestPort
                                    desiredHostPort w) <> Ok p)
        \/ exists p rd so se err,
            p <> 0
            /\ cmds
               = [Ev (Vbm ["modifyvm"; MachineName (drv w); "--natpf" +:+ itoa interfaceNum;
                           "delete"; mapName]) rd;
                  Ev (Vbm ["modifyvm"; MachineName (drv w); "--natpf" +:+ itoa interfaceNum;
                           mapName +:+ "," +:+ protocol +:+ ",127.0.0.1," +:+ itoa p
                           +:+ ",," +:+ itoa guestPort])
                     (ROut so se err)]
            /\ fst (setPortForwarding env interfaceNum mapName protocol guestPort
                                      desiredHostPort w)
               = match err with
                 | None => Ok p
                 | Some e => Err e
                 end).
Proof.
  destruct (setPortForwarding env interfaceNum mapName protocol guestPort desiredHostPort w)
    as [r w'] eqn:H.
  cbn [fst snd]. destruct w as [d h]. unfold setPortForwarding in H.
  run_with ltac:(fun x =>
    lazymatch x with
    | getAvailableTCPPort ?env ?p ?w1 =>
        let Hr := fresh "Hrun" in
        let Hnz := fresh "Hnz" in
        pose proof (getAvailableTCPPort_run env p w1) as Hr;
        pose proof (getAvailableTCPPort_nonzero env p w1) as Hnz;
        destruct x eqn:?; cbn [fst snd drv hist] in Hr;
        destruct Hr as (? & -> & ?)
    end) H.
  all: finish_path H.
  all: match goal with Hp : Forall _ ?x |- _ => exists x end.
  all: first [ eexists; split; [reflexivity|]; split; [assumption|]; right
             | exists []; rewrite app_nil_r; split; [reflexivity|]; split; [assumption|];
               left; split; [reflexivity|intros; discriminate] ].
  all: do 5 eexists; split; [eapply Hnz; reflexivity|]; split; reflexivity.
Qed.

(** X5.  [setPortForwarding] first allocates a port, which touches the
    loopback interface only.  When the allocation fails, no command is sent
    to the hypervisor.  Otherwise the port is not 0, and exactly two
    commands follow: the deletion of the rule [mapName] and the installation
    of the rule [mapName,protocol,127.0.0.1,port,,guestPort] on the same
    interface; the result is the port when the installation succeeds, its
    error otherwise, whatever the deletion replied.  The driver is
    unchanged. *)
Theorem setPortForwarding_installs_rule (env : Env) (interfaceNum : Z)
        (mapName protocol : string) (guestPort desiredHostPort : Z) (w : world) :
  exists probes cmds,
    snd (setPortForwarding env interfaceNum mapName protocol guestPort desiredHostPort w)
    = mkWorld (drv w) (hist w ++ probes ++ cmds)
    /\ Forall (fun ev => is_probe (ev_call ev) = true) probes
    /\ ((cmds = []
         /\ forall p,
             fst (setPortForwarding env interfaceNum mapName protocol guestPort
                                    desiredHostPort w) <> Ok p)
        \/ exists p rd so se err,
            p <> 0
            /\ cmds
               = [Ev (Vbm ["modifyvm"; MachineName (drv w); "--natpf" +:+ itoa interfaceNum;
                           "delete"; mapName]) rd;
                  Ev (Vbm ["modifyvm"; MachineName (drv w); "--natpf" +:+ itoa interfaceNum;
                           mapName +:+ "," +:+ protocol +:+ ",127.0.0.1," +:+ itoa p
                           +:+ ",," +:+ itoa guestPort])
                     (ROut so se err)]
            /\ fst (setPortForwarding env interfaceNum mapName protocol guestPort
                                      desiredHostPort w)
               = match err with
                 | None => Ok p
                 | Some e => Err e
                 end).
Proof. apply setPortForwarding_trace. Qed.

Lemma setPortForwarding_installs_rule_witness :
  exists probes rd so se,
    hist (snd (setPortForwarding (Sim.env_of (Sim.plain "poweroff")) 1 "ssh" "tcp" 22 2222
                                 Sim.world0))
    = probes ++ [Ev (cmd_natpf_delete Sim.default) rd;
                 Ev (cmd_natpf_add Sim.default 2222) (ROut so se None)].
Proof.
  destruct (setPortForwarding_installs_rule (Sim.env_of (Sim.plain "poweroff")) 1 "ssh" "tcp"
              22 2222 Sim.world0)
    as (probes & cmds & Hw & _ & [(_ & Hno)|(p & rd & so & se & err & _ & -> & Hres)]).
  - exfalso. apply (Hno 2222). reflexivity.
  - exists probes, rd, so, se. rewrite Hw. cbn [hist Sim.world0 app].
    change (fst (setPortForwarding (Sim.env_of (Sim.plain "poweroff")) 1 "ssh" "tcp" 22 2222
                                   Sim.world0)) with (@Ok Z 2222) in Hres.
    destruct err as [e|]; [discriminate Hres|].
    injection Hres as <-. reflexivity.
Defined.

(** ** Stopping *)

(** The polling loop of [Stop]: it exhausts its bound only when that many
    polls in a row found the VM running; otherwise it ends with the first
    state lookup that fails or reports another state. *)
Lemma Stop_poll_spec (env : Env) (fuel : nat) :
  forall w,
  exists n polls,
    running_polls (drv w) n polls
    /\ ((n = fuel
         /\ Stop_poll env fuel w = (OutOfFuel, mkWorld (drv w) (hist w ++ polls)))
        \/ ((n < fuel)%nat
            /\ exists so se err,
                (err = None -> parse_VMState so <> state.Running)
                /\ Stop_poll env fuel w
                   = (match err with
                      | None => Ok tt
                      | Some e => Err (GetState_error env se e)
                      end,
                      mkWorld (drv w)
                              (hist w ++ polls
                                      ++ [Ev (cmd_showvminfo (drv w)) (ROut so se err)])))).
Proof.
  induction fuel as [|fuel IH]; intros w.
  - exists O, []. split; [constructor|]. left. split; [reflexivity|].
    cbn. rewrite app_nil_r. destruct w; reflexivity.
  - destruct w as [d h]. cbn [Stop_poll]. unfold GetState. unfold_goal_prims.
    destruct (env_vbmOutErr env h _) as [[so se] err] eqn:E.
    destruct err as [e|].
    + exists O, []. split; [constructor|]. right. split; [lia|].
      exists so, se, (Some e). split; [discriminate|].
      unfold GetState_error. cbn [app].
      destruct (negb _); reflexivity.
    + destruct (parse_VMState so) eqn:Eso;
        try (exists O, []; split; [constructor|]; right; split; [lia|];
             exists so, se, None; split; [congruence|]; reflexivity).
      change (bool_decide (state.Running = state.Running)) with true. unfold_goal_prims.
      match goal with
      | |- context [Stop_poll env fuel ?w1] => destruct (IH w1) as (n & polls & Hp & Hr)
      end.
      cbn [drv hist] in *.
      exists (S n), (running_poll d so se ++ polls). split; [constructor; assumption|].
      destruct Hr as [(-> & ->)|(Hlt & so' & se' & err' & Hne & ->)].
      * left. split; [reflexivity|]. unfold running_poll, cmd_showvminfo. cbn [drv].
        rewrite <- !app_assoc. reflexivity.
      * right. split; [lia|]. exists so', se', err'. split; [exact Hne|].
        unfold running_poll, cmd_showvminfo. cbn [drv].
        rewrite <- !app_assoc. reflexivity.
Qed.

Lemma Stop_poll_more_fuel (env : Env) (fuel : nat) :
  forall w r w' k,
    Stop_poll env fuel w = (r, w') -> r <> OutOfFuel ->
    Stop_poll env (fuel + k) w = (r, w').
Proof.
  induction fuel as [|fuel IH]; intros w r w' k H Hr.
  - cbn in H. unfold out_of_fuel in H. congruence.
  - cbn [Stop_poll Nat.add] in *. unfold mbind, M_bind, M_bind_def in *.
    destruct (GetState env w) as [[s| | |] w1]; try exact H.
    destruct (bool_decide (s = state.Running)); [|exact H].
    destruct (sleeper_Sleep (1 * second) w1) as [[[]| | |] w2]; try exact H.
    apply IH; assumption.
Qed.

Ltac stop_special H x :=
  lazymatch x with
  | Stop_poll ?env ?f ?w1 =>
      let Hr := fresh "Hpoll" in
      pose proof (Stop_poll_spec env f w1) as Hr;
      cbn [drv hist] in Hr;
      destruct Hr as (? & ? & ? & [(-> & Hr)|(? & ? & ? & ? & ? & Hr)]);
      rewrite Hr in H; clear Hr
  end.

(** The history of a [Stop] that succeeds. *)
Lemma Stop_Ok_shape (env : Env) (fuel : nat) (w w' : world) :
  Stop env fuel w = (Ok tt, w') ->
  drv w' = set_IPAddress EmptyString (drv w)
  /\ exists so0 se0 resume so1 se1 n polls so se,
      hist w'
      = hist w ++ Ev (cmd_showvminfo (drv w)) (ROut so0 se0 None) :: resume
               ++ Ev (cmd_acpipowerbutton (drv w)) (ROut so1 se1 None) :: polls
               ++ [Ev (cmd_showvminfo (drv w)) (ROut so se None)]
      /\ ((resume = [] /\ parse_VMState so0 <> state.Paused)
          \/ (exists so2 se2,
                 resume = [Ev (cmd_resume (drv w)) (ROut so2 se2 None)]
                 /\ parse_VMState so0 = state.Paused))
      /\ running_polls (drv w) n polls
      /\ (n < fuel)%nat
      /\ parse_VMState so <> state.Running.
Proof.
  intros H. destruct w as [d h]. unfold Stop, GetState in H.
  run_with ltac:(stop_special H) H.
  all: try discriminate H.
  all: injection H as <-; cbn [drv hist]; rewrite <- ?app_assoc; cbn [app].
  all: split; [reflexivity|].
  all: first
    [ eexists _, _, [], _, _, _, _, _, _; split; [reflexivity|];
      split; [left; split; [reflexivity|congruence]|]; repeat split; eauto
    | eexists _, _, [_], _, _, _, _, _, _; split; [reflexivity|];
      split; [right; eexists _, _; split; [reflexivity|assumption]|];
      repeat split; eauto ].
Qed.

(** X6.  A [Stop] that succeeds has cleared the cached IP address of the
    driver and changed nothing else in it.  Its history reads: the state
    lookup; the resume command when, and only when, the state was Paused;
    the power-button signal; a number of polls that found the VM running,
    each followed by a sleep of one second; a last poll that reported
    another state.  Every command succeeded. *)
Theorem Stop_success (env : Env) (fuel : nat) (w w' : world) :
  Stop env fuel w = (Ok tt, w') ->
  drv w' = set_IPAddress EmptyString (drv w)
  /\ exists so0 se0 resume so1 se1 n polls so se,
      hist w'
      = hist w ++ Ev (cmd_showvminfo (drv w)) (ROut so0 se0 None) :: resume
               ++ Ev (cmd_acpipowerbutton (drv w)) (ROut so1 se1 None) :: polls
               ++ [Ev (cmd_showvminfo (drv w)) (ROut so se None)]
      /\ ((resume = [] /\ parse_VMState so0 <> state.Paused)
          \/ (exists so2 se2,
                 resume = [Ev (cmd_resume (drv w)) (ROut so2 se2 None)]
                 /\ parse_VMState so0 = state.Paused))
      /\ running_polls (drv w) n polls
      /\ (n < fuel)%nat
      /\ parse_VMState so <> state.Running.
Proof. apply Stop_Ok_shape. Qed.

Lemma Stop_success_witness :
  let w' := snd (Stop (Sim.env_of Sim_stopping) 5 Sim.world0) in
  drv w' = set_IPAddress EmptyString Sim.default
  /\ count is_showvminfo (hist w') = 4%nat.
Proof.
  intros w'.
  destruct (Stop_success (Sim.env_of Sim_stopping) 5 Sim.world0 w') as (Hd & _).
  - vm_compute. reflexivity.
  - split; [exact Hd|]. vm_compute. reflexivity.
Defined.


Lemma running_polls_quiet (d : Driver) (n : nat) (polls : list event) :
  running_polls d n polls -> Forall (fun ev => failed_command ev = false) polls.
Proof.
  induction 1 as [|n so se rest Hs Hr IH]; [constructor|].
  unfold running_poll. cbn [app]. repeat constructor. exact IH.
Qed.

(** X7.  The bound on the polls of [Stop] stands for a loop that the code
    does not bound.  When [Stop] ends within the bound, a larger bound gives
    the same result and the same history; it exhausts the bound only when
    that many polls in a row, after the power-button signal, found the VM
    running. *)
Theorem Stop_fuel (env : Env) (fuel : nat) (w : world) :
  (fst (Stop env fuel w) <> OutOfFuel ->
   forall k, Stop env (fuel + k) w = Stop env fuel w)
  /\ (fst (Stop env fuel w) = OutOfFuel ->
      exists pre so se polls,
        hist (snd (Stop env fuel w))
        = hist w ++ pre ++ Ev (cmd_acpipowerbutton (drv w)) (ROut so se None) :: polls
        /\ running_polls (drv w) fuel polls).
Proof.
  split.
  - intros Hne k. unfold Stop, mbind, M_bind, M_bind_def, get_drv in *.
    destruct (GetState env w) as [[s| | |] w1]; try reflexivity.
    match goal with
    | |- context [(if ?b then ?m1 else ?m2) w1] =>
        destruct ((if b then m1 else m2) w1) as [[[]| | |] w2]; try reflexivity
    end.
    match goal with
    | |- context [must ?m w2] => destruct (must m w2) as [[[]| | |] w3]; try reflexivity
    end.
    destruct (Stop_poll env fuel w3) as [r w4] eqn:E.
    assert (Hr : r <> OutOfFuel) by (destruct r; [discriminate..|exact Hne]).
    rewrite (Stop_poll_more_fuel env fuel w3 r w4 k E Hr). reflexivity.
  - intros H. destruct (Stop env fuel w) as [r w'] eqn:E. cbn [fst snd] in *. subst r.
    destruct w as [d h]. unfold Stop, GetState in E.
    run_with ltac:(stop_special E) E.
    all: try discriminate E.
    all: injection E as <-; cbn [drv hist]; rewrite <- ?app_assoc; cbn [app].
    all: first [ eexists [_], _, _, _; split; [reflexivity|assumption]
               | eexists [_; _], _, _, _; split; [reflexivity|assumption] ].
Qed.

(** X8.  [Stop] fails only because a command of the hypervisor failed: that
    command is the last event, no command failed before it, and the error
    returned is its error, or [ErrMachineNotExist] for a state lookup whose
    stderr says that the machine is not registered.  The driver is left as
    it was: the cached IP address is not cleared.  [Stop] never panics. *)
Theorem Stop_failure (env : Env) (fuel : nat) (w : world) :
  (forall msg, fst (Stop env fuel w) <> Panic msg)
  /\ (forall e,
         fst (Stop env fuel w) = Err e ->
         drv (snd (Stop env fuel w)) = drv w
         /\ exists pre args so se e0,
             hist (snd (Stop env fuel w))
             = hist w ++ pre ++ [Ev (Vbm args) (ROut so se (Some e0))]
             /\ Forall (fun ev => failed_command ev = false) pre
             /\ (e = e0 \/ (e = ErrMachineNotExist /\ vbm_verb (Vbm args) = "showvminfo"))).
Proof.
  destruct (Stop env fuel w) as [r w'] eqn:E. cbn [fst snd].
  destruct w as [d h]. unfold Stop, GetState in E.
  run_with ltac:(stop_special E) E.
  all: split; [intros msg Hm; rewrite Hm in E; discriminate E|].
  all: intros err He; rewrite He in E; try discriminate E.
  all: injection E; intros; subst; cbn [drv hist]; rewrite <- ?app_assoc; cbn [app].
  all: split; [reflexivity|].
  all: repeat match goal with
              | Hp : running_polls _ _ _ |- _ => apply running_polls_quiet in Hp
              end.
  all: first
    [ eexists (_ :: _ :: _ :: _), _, _, _, _; split; [reflexivity|]
    | eexists [], _, _, _, _; split; [reflexivity|]
    | eexists [_], _, _, _, _; split; [reflexivity|]
    | eexists [_; _], _, _, _, _; split; [reflexivity|]
    | eexists (_ :: _ :: _), _, _, _, _; split; [reflexivity|]
    | eexists (_ :: _), _, _, _, _; split; [reflexivity|] ].
  all: split; [solve_Forall|].
  all: first [ left; reflexivity
             | right; split; reflexivity
             | unfold GetState_error; destruct (negb _);
               [right; split; reflexivity|left; reflexivity] ].
Qed.

Lemma Stop_failure_witness :
  drv (snd (Stop (Sim.env_of Sim_deaf) 5 Sim.world0)) = Sim.default
  /\ exists pre so se,
      hist (snd (Stop (Sim.env_of Sim_deaf) 5 Sim.world0))
      = pre ++ [Ev (cmd_acpipowerbutton Sim.default)
                   (ROut so se (Some (ErrorString "exit status 1")))]
      /\ Forall (fun ev => failed_command ev = false) pre.
Proof.
  destruct (Stop_failure (Sim.env_of Sim_deaf) 5 Sim.world0) as (_ & H).
  destruct (H (ErrorString "exit status 1") eq_refl)
    as (Hd & pre & args & so & se & e0 & Hh & Hpre & _).
  split; [exact Hd|].
  exists pre, EmptyString, "VBoxManage: error: The machine is not running".
  split; [|exact Hpre].
  change (hist Sim.world0 ++ ?x) with x in Hh.
  assert (Hl : last (hist (snd (Stop (Sim.env_of Sim_deaf) 5 Sim.world0)))
               = Some (Ev (cmd_acpipowerbutton Sim.default)
                          (ROut EmptyString "VBoxManage: error: The machine is not running"
                                (Some (ErrorString "exit status 1")))))
    by (vm_compute; reflexivity).
  rewrite Hh in Hl |- *. rewrite last_snoc in Hl.
  injection Hl; intros; subst; reflexivity.
Defined.

(** ** Removal *)

Lemma last_reported_state_app (s1 s2 : list event) (s : state.State) :
  last_reported_state s2 = Some s -> last_reported_state (s1 ++ s2) = Some s.
Proof.
  unfold last_reported_state. rewrite omap_app. intros H.
  destruct (omap reported_state s2) as [|x l] eqn:E; [discriminate H|].
  rewrite last_app. rewrite H. reflexivity.
Qed.

Lemma last_reported_state_snoc (s1 : list event) (d : Driver) (so se : string) :
  last_reported_state (s1 ++ [Ev (cmd_showvminfo d) (ROut so se None)])
  = Some (parse_VMState so).
Proof. apply last_reported_state_app. reflexivity. Qed.

Lemma stop_call_not_unregistervm (seg : list event) :
  Forall (fun ev => stop_call (ev_call ev) = true) seg -> count is_unregistervm seg = 0%nat.
Proof.
  induction 1 as [|ev seg Hev _ IH]; [reflexivity|].
  rewrite count_cons, IH. destruct ev as [[] r]; try discriminate Hev; try reflexivity.
  cbn [ev_call] in Hev |- *. unfold stop_call in Hev. unfold is_unregistervm.
  destruct (vbm_verb (Vbm args) =? "showvminfo")%string eqn:E1.
  - apply String.eqb_eq in E1. rewrite E1. reflexivity.
  - cbn [orb] in Hev. apply String.eqb_eq in Hev. rewrite Hev. reflexivity.
Qed.

(** What [Remove] needs to know of a [Stop]. *)
Lemma Stop_trace (env : Env) (fuel : nat) (w : world) :
  exists seg d',
    snd (Stop env fuel w) = mkWorld d' (hist w ++ seg)
    /\ count is_unregistervm seg = 0%nat
    /\ (fst (Stop env fuel w) = Ok tt ->
        Forall (fun ev => failed_command ev = false) seg
        /\ exists s, last_reported_state seg = Some s /\ s <> state.Running).
Proof.
  destruct (Stop_run env fuel w) as (seg & d' & Hw & Hcalls & _).
  exists seg, d'. split; [exact Hw|]. split; [apply stop_call_not_unregistervm, Hcalls|].
  intros Hok. destruct (Stop env fuel w) as [r w'] eqn:E. cbn [fst snd] in *. subst r w'.
  destruct (Stop_Ok_shape env fuel w _ E)
    as (_ & so0 & se0 & resume & so1 & se1 & n & polls & so & se & Hh & Hres & Hp & _ & Hs).
  cbn [hist] in Hh. apply app_inv_head in Hh. subst seg.
  apply running_polls_quiet in Hp. split.
  - destruct Hres as [(-> & _)|(so2 & se2 & -> & _)]; solve_Forall; repeat constructor.
  - exists (parse_VMState so). split; [|exact Hs].
    match goal with
    | |- last_reported_state (?a :: ?r ++ ?b :: ?p ++ [?l]) = _ =>
        replace (a :: r ++ b :: p ++ [l]) with ((a :: r ++ b :: p) ++ [l])
          by (cbn [app]; rewrite <- app_assoc; reflexivity)
    end.
    apply last_reported_state_snoc.
Qed.

Ltac remove_special x :=
  lazymatch x with
  | Stop ?env ?f ?w1 =>
      let Hr := fresh "Hstop" in
      pose proof (Stop_trace env f w1) as Hr;
      destruct x eqn:?; cbn [fst snd drv hist] in Hr;
      destruct Hr as (? & ? & -> & ? & ?)
  end.

(** X9.  [Remove] unregisters the machine as its last step or not at all.
    When it does, the command [unregistervm --delete <name>] ends the
    history and directly follows a sleep of one second, no command failed
    before it, the last state that a lookup reported is not Running, and the
    result of [Remove] is the result of this command.  When it does not,
    [Remove] has failed, unless the machine was not registered. *)
Theorem Remove_unregisters_last (env : Env) (fuel : nat) (w : world) :
  exists seg,
    hist (snd (Remove env fuel w)) = hist w ++ seg
    /\ ((count is_unregistervm seg = 0%nat
         /\ (fst (Remove env fuel w) = Ok tt ->
             fst (GetState env w) = Err ErrMachineNotExist))
        \/ exists pre so se err s,
            seg = pre ++ [Ev (Sleep (1 * second)) RDone;
                          Ev (cmd_unregistervm (drv w)) (ROut so se err)]
            /\ count is_unregistervm pre = 0%nat
            /\ Forall (fun ev => failed_command ev = false) pre
            /\ last_reported_state pre = Some s
            /\ s <> state.Running
            /\ fst (Remove env fuel w)
               = match err with
                 | None => Ok tt
                 | Some e => Err e
                 end).
Proof.
  destruct (Remove env fuel w) as [r w'] eqn:H. cbn [fst snd].
  destruct (GetState env w) as [r0 w0] eqn:H0.
  destruct w as [d h]. unfold Remove, Kill, GetState in H. unfold GetState in H0.
  unfold_prims H0.
  run_with remove_special H.
  all: finish_path H.
  all: repeat match goal with
              | Hok : Ok ?a = Ok tt -> _ |- _ =>
                  first [specialize (Hok eq_refl) | destruct a; specialize (Hok eq_refl)];
                  destruct Hok as (? & ? & ? & ?)
              | Hok : _ = Ok tt -> _ |- _ => clear Hok
              end.
  all: eexists; (split; [first [reflexivity | rewrite app_nil_r; reflexivity]|]).
  all: first
    [ right;
      first [ eexists [_], _, _, _, _; split; [reflexivity|]
            | eexists [_; _], _, _, _, _; split; [reflexivity|]
            | eexists (_ :: _), _, _, _, _; split; [reflexivity|] ];
      (split;
       [repeat first [rewrite count_cons | rewrite count_app | rewrite count_nil];
        repeat match goal with
               | Hc : count ?p ?x = 0%nat |- context [count ?p ?x] => rewrite Hc
               end;
        reflexivity|]);
      (split; [solve_Forall|]);
      (split;
       [first [reflexivity
              | match goal with
                | Hl : last_reported_state ?x = Some _ |- last_reported_state (?a :: ?x) = _ =>
                    apply (last_reported_state_app [a] x), Hl
                end]|]);
      (split; [first [assumption | congruence]|]);
      reflexivity
    | left; split;
      [repeat first [rewrite count_cons | rewrite count_app | rewrite count_nil];
       repeat match goal with
              | Hc : count ?p ?x = 0%nat |- context [count ?p ?x] => rewrite Hc
              end;
       reflexivity
      |intros Hok;
       first [ discriminate Hok
             | rewrite <- H0; reflexivity
             | match goal with
               | Hb : bool_decide (_ = _) = true |- _ =>
                   apply bool_decide_eq_true_1 in Hb; subst
               end;
               rewrite <- H0; reflexivity ]] ].
Qed.

Lemma Remove_unregisters_last_witness :
  exists pre so se,
    hist (snd (Remove (Sim.env_of Sim_stopping) 5 Sim.world0))
    = pre ++ [Ev (Sleep (1 * second)) RDone;
              Ev (cmd_unregistervm Sim.default) (ROut so se None)]
    /\ last_reported_state pre = Some state.Stopped.
Proof.
  destruct (Remove_unregisters_last (Sim.env_of Sim_stopping) 5 Sim.world0)
    as (seg & Hh & [(Hc & _)|(pre & so & se & err & s & Hseg & _ & _ & Hs & _ & Hr)]).
  - exfalso. change (hist Sim.world0 ++ seg) with seg in Hh. rewrite <- Hh in Hc.
    vm_compute in Hc. discriminate Hc.
  - change (hist Sim.world0 ++ seg) with seg in Hh. rewrite Hseg in Hh. clear Hseg.
    destruct err as [e|]; [vm_compute in Hr; discriminate Hr|].
    exists pre, so, se. split; [exact Hh|].
    assert (Hlen : length (hist (snd (Remove (Sim.env_of Sim_stopping) 5 Sim.world0)))
                   = 8%nat) by (vm_compute; reflexivity).
    assert (Ht : take 6 (hist (snd (Remove (Sim.env_of Sim_stopping) 5 Sim.world0))) = pre).
    { rewrite Hh. rewrite Hh, length_app in Hlen. cbn [length] in Hlen.
      rewrite take_app_length' by lia. reflexivity. }
    rewrite <- Ht. vm_compute. reflexivity.
Defined.

Lemma running_polls_mutating (d : Driver) (n : nat) (polls : list event) :
  running_polls d n polls -> mutating_calls polls = [].
Proof.
  induction 1 as [|n so se rest Hs Hr IH]; [reflexivity|].
  rewrite mutating_calls_app, IH. reflexivity.
Qed.

(** Closes a goal [l1 `prefix_of` l2] on lists given element by element. *)
Ltac solve_prefix :=
  cbn [app]; solve [repeat first [apply prefix_nil | apply prefix_cons]].

(** The commands of [Stop] that change the hypervisor. *)
Lemma Stop_mutating (env : Env) (fuel : nat) (w : world) :
  exists seg d',
    snd (Stop env fuel w) = mkWorld d' (hist w ++ seg)
    /\ (exists resume,
           (resume = [] \/ resume = [cmd_resume (drv w)])
           /\ mutating_calls seg `prefix_of` resume ++ [cmd_acpipowerbutton (drv w)]
           /\ (fst (Stop env fuel w) = Ok tt ->
               mutating_calls seg = resume ++ [cmd_acpipowerbutton (drv w)])).
Proof.
  destruct (Stop env fuel w) as [r w'] eqn:E. cbn [fst snd].
  destruct w as [d h]. unfold Stop, GetState in E.
  run_with ltac:(stop_special E) E.
  all: injection E; intros; subst; cbn [drv hist]; rewrite <- ?app_assoc; cbn [app].
  all: eexists; eexists; (split; [reflexivity|]).
  all: repeat match goal with
              | Hp : running_polls _ _ _ |- _ => apply running_polls_mutating in Hp
              end.
  all: repeat first [rewrite mutating_calls_cons | rewrite mutating_calls_app
                    | rewrite mutating_calls_nil].
  all: repeat match goal with
              | Hc : mutating_calls ?x = [] |- context [mutating_calls ?x] => rewrite Hc
              end.
  all: cbn [ev_call is_mutating vbm_verb cmd_showvminfo String.eqb Ascii.eqb Bool.eqb negb app].
  all: first
    [ exists []; split; [left; reflexivity|]; split;
      [solve_prefix|intros Hok; first [discriminate Hok | reflexivity]]
    | exists [cmd_resume d]; split; [right; reflexivity|]; split;
      [solve_prefix|intros Hok; first [discriminate Hok | reflexivity]] ].
Qed.

Ltac remove_special' x :=
  lazymatch x with
  | Stop ?env ?f ?w1 =>
      let Hr := fresh "Hstop" in
      pose proof (Stop_mutating env f w1) as Hr;
      destruct x eqn:?; cbn [fst snd drv hist] in Hr;
      destruct Hr as (? & ? & -> & ? & [-> | ->] & ? & ?)
  end.

(** X10.  The commands by which [Remove] changes the hypervisor depend on
    the state that its lookup reports.  Stopped: the unregistration alone.
    Running: the graceful stop of [Stop] (the power-button signal, after a
    resume if [Stop] finds the VM paused), then the unregistration if the
    stop succeeded; no [poweroff].  Any other state: [poweroff], then the
    unregistration if it succeeded. *)
Theorem Remove_by_state (env : Env) (fuel : nat) (w : world) (s : state.State) :
  fst (GetState env w) = Ok s ->
  exists seg,
    hist (snd (Remove env fuel w)) = hist w ++ seg
    /\ let d := drv w in
       match s with
       | state.Stopped => mutating_calls seg = [cmd_unregistervm d]
       | state.Running =>
           exists resume,
             (resume = [] \/ resume = [cmd_resume d])
             /\ mutating_calls seg
                `prefix_of` resume ++ [cmd_acpipowerbutton d; cmd_unregistervm d]
             /\ (fst (Remove env fuel w) = Ok tt ->
                 mutating_calls seg = resume ++ [cmd_acpipowerbutton d; cmd_unregistervm d])
       | _ =>
           mutating_calls seg `prefix_of` [cmd_poweroff d; cmd_unregistervm d]
           /\ mutating_calls seg <> []
           /\ (fst (Remove env fuel w) = Ok tt ->
               mutating_calls seg = [cmd_poweroff d; cmd_unregistervm d])
       end.
Proof.
  intros Hs.
  destruct (Remove env fuel w) as [r w'] eqn:H. cbn [fst snd].
  destruct w as [d h]. unfold Remove, Kill, GetState in H. unfold GetState in Hs.
  unfold_prims Hs.
  run_with remove_special' H.
  all: cbn [fst] in Hs; try discriminate Hs; injection Hs as <-.
  all: finish_path H.
  all: eexists; (split; [reflexivity|]).
  all: cbv beta iota zeta.
  all: repeat match goal with
              | Hok : Ok ?a = Ok tt -> _ |- _ =>
                  first [specialize (Hok eq_refl) | destruct a; specialize (Hok eq_refl)]
              | Hok : _ = Ok tt -> _ |- _ => clear Hok
              end.
  all: repeat first [rewrite mutating_calls_cons | rewrite mutating_calls_app
                    | rewrite mutating_calls_nil].
  all: cbn [ev_call is_mutating vbm_verb cmd_showvminfo String.eqb Ascii.eqb Bool.eqb negb app].
  all: rewrite ?app_nil_r.
  all: try match goal with Hb : negb _ = _ |- _ => discriminate Hb end.
  all: first
    [ reflexivity
    | split; [solve_prefix|];
      (split; [discriminate|]);
      intros Hok; first [discriminate Hok | reflexivity]
    | match goal with
      | Hp : mutating_calls _ `prefix_of` ?r ++ _ |- _ => exists r
      end;
      (split; [first [left; reflexivity | right; reflexivity]|]);
      split;
      [ first [ match goal with
                | Heq : mutating_calls ?x = _ |- context [mutating_calls ?x] => rewrite Heq
                end; solve_prefix
              | etransitivity; [eassumption|solve_prefix] ]
      | intros Hok;
        first [ discriminate Hok
              | match goal with
                | Heq : mutating_calls ?x = _ |- context [mutating_calls ?x] => rewrite Heq
                end; reflexivity ] ] ].
Qed.

Lemma Remove_by_state_witness :
  mutating_calls (hist (snd (Remove (Sim.env_of Sim_deaf) 5 Sim.world0)))
  = [cmd_poweroff Sim.default; cmd_unregistervm Sim.default].
Proof.
  destruct (Remove_by_state (Sim.env_of Sim_deaf) 5 Sim.world0 state.Paused eq_refl)
    as (seg & Hh & _ & _ & Hok).
  change (hist Sim.world0 ++ seg) with seg in Hh. rewrite Hh. apply Hok.
  vm_compute. reflexivity.
Defined.

(** ** The address of the guest *)

Lemma before_slash_app (ip tail : string) :
  no_slash ip = true -> before_slash (ip +:+ String "/" tail) = Some ip.
Proof.
  induction ip as [|c ip IH]; intros H; [reflexivity|].
  cbn [no_slash] in H. apply andb_true_iff in H. destruct H as [Hc Hip].
  change (String c ip +:+ String "/" tail) with (String c (ip +:+ String "/" tail)).
  cbn [before_slash]. apply negb_true_iff in Hc. rewrite Hc, (IH Hip). reflexivity.
Qed.

Lemma before_slash_none (s : string) : no_slash s = true -> before_slash s = None.
Proof.
  induction s as [|c s IH]; intros H; [reflexivity|].
  cbn [no_slash] in H. apply andb_true_iff in H. destruct H as [Hc Hs].
  cbn [before_slash]. apply negb_true_iff in Hc. rewrite Hc, (IH Hs). reflexivity.
Qed.

Lemma GetIP_scan_skip (env : Env) (before rest : list string) :
  Forall (fun l => is_inet_line env l = false) before ->
  GetIP_scan env (before ++ rest) = GetIP_scan env rest.
Proof.
  induction 1 as [|l before Hl _ IH]; [reflexivity|].
  cbn [app GetIP_scan]. unfold is_inet_line, fields in Hl.
  destruct (Split_byte " " (env_strings_TrimSpace env l)) as [|v0 [|v1 vs]]; auto.
  rewrite Hl. exact IH.
Qed.

Lemma GetIP_scan_none (env : Env) (lines : list string) :
  Forall (fun l => is_inet_line env l = false) lines -> GetIP_scan env lines = None.
Proof.
  intros H. rewrite <- (app_nil_r lines). rewrite GetIP_scan_skip by exact H. reflexivity.
Qed.

(** X11.  On a running machine whose guest answers [ip addr show dev eth1]
    with [output], [GetIP] looks at the first line that, trimmed and split at
    every space, has at least two fields and [inet] as the first one.  It
    returns the part of the second field that precedes its first slash; a
    second field without a slash makes it panic (the slice bound is -1); and
    it fails with "No IP address found" when no line qualifies. *)
Theorem GetIP_parses_output (env : Env) (w : world) (output : string) :
  fst (GetState env w) = Ok state.Running ->
  fst (env_RunSSHCommandFromDriver env (hist (snd (GetState env w))) (drv w)
                                   "ip addr show dev eth1") = inr output ->
  (forall before line after v1 rest,
      Split_byte newline output = before ++ line :: after ->
      Forall (fun l => is_inet_line env l = false) before ->
      fields env line = "inet" :: v1 :: rest ->
      (forall ip tail,
          v1 = ip +:+ String "/" tail -> no_slash ip = true ->
          fst (GetIP env w) = Ok ip)
      /\ (no_slash v1 = true -> fst (GetIP env w) = Panic "slice bounds out of range"))
  /\ (Forall (fun l => is_inet_line env l = false) (Split_byte newline output) ->
      fst (GetIP env w) = Err (ErrorString ("No IP address found " +:+ output))).
Proof.
  intros Hs Hssh.
  assert (Hrun : forall r,
             GetIP_scan env (Split_byte newline output) = r ->
             fst (GetIP env w)
             = match r with
               | Some (Some ip) => Ok ip
               | Some None => Panic "slice bounds out of range"
               | None => Err (ErrorString ("No IP address found " +:+ output))
               end).
  { intros r <-. unfold GetIP. unfold mbind at 1, M_bind at 1, M_bind_def at 1.
    destruct (GetState env w) as [r0 w0] eqn:E0. cbn [fst snd] in Hs, Hssh. subst r0.
    assert (Hd : drv w0 = drv w).
    { unfold GetState in E0. destruct w as [d h]. run_all E0; try discriminate E0.
      injection E0 as _ <-. reflexivity. }
    change (bool_decide (state.Running = state.Running)) with true. cbn [negb].
    unfold_goal_prims. rewrite Hd, Hssh.
    destruct (GetIP_scan env (Split_byte newline output)) as [[ip|]|]; reflexivity. }
  split.
  - intros before line after v1 rest Hsplit Hbefore Hline.
    assert (Hscan : GetIP_scan env (Split_byte newline output) = Some (before_slash v1)).
    { rewrite Hsplit, GetIP_scan_skip by exact Hbefore. cbn [GetIP_scan].
      unfold fields in Hline. rewrite Hline. reflexivity. }
    split.
    + intros ip tail -> Hip. rewrite (Hrun _ Hscan), before_slash_app by exact Hip.
      reflexivity.
    + intros Hv. rewrite (Hrun _ Hscan), before_slash_none by exact Hv. reflexivity.
  - intros Hnone. rewrite (Hrun _ (GetIP_scan_none env _ Hnone)). reflexivity.
Qed.

Lemma GetIP_parses_output_witness :
  fst (GetIP (Sim.env_of (Sim.plain "running")) Sim.world0) = Ok "192.168.99.100".
Proof.
  destruct (GetIP_parses_output
              (Sim.env_of (Sim.plain "running")) Sim.world0
              "    inet 192.168.99.100/24 brd 192.168.99.255 scope global eth1"
              eq_refl eq_refl) as (H & _).
  destruct (H [] "    inet 192.168.99.100/24 brd 192.168.99.255 scope global eth1" []
              "192.168.99.100/24" ["brd"; "192.168.99.255"; "scope"; "global"; "eth1"]
              eq_refl (List.Forall_nil _) eq_refl) as (Hok & _).
  apply (Hok "192.168.99.100" "24"); reflexivity.
Defined.

(** X12.  [GetIP] runs a command in the guest, and hands the driver to the
    SSH helper, only when the state lookup reports Running.  Otherwise it
    asks the hypervisor for the state and nothing else, leaves the driver as
    it is, and returns no address: [ErrHostIsNotRunning] when the lookup
    succeeds, the error of the lookup otherwise. *)
Theorem GetIP_asks_running_guest_only (env : Env) (w : world) :
  exists seg,
    hist (snd (GetIP env w)) = hist w ++ seg
    /\ ((count is_RunSSHCommand seg = 0%nat
         /\ snd (GetIP env w) = snd (GetState env w)
         /\ drv (snd (GetIP env w)) = drv w
         /\ (forall ip, fst (GetIP env w) <> Ok ip)
         /\ (forall s, fst (GetState env w) = Ok s ->
                       fst (GetIP env w) = Err ErrHostIsNotRunning))
        \/ exists so se r,
            seg = [Ev (cmd_showvminfo (drv w)) (ROut so se None); Ev cmd_ip_addr r]
            /\ parse_VMState so = state.Running).
Proof.
  destruct (GetIP env w) as [r w'] eqn:H. cbn [fst snd].
  destruct (GetState env w) as [r0 w0] eqn:H0. cbn [fst snd].
  destruct w as [d h]. unfold GetIP, GetState in H. unfold GetState in H0.
  unfold_prims H0.
  run_with ltac:(fun x =>
    lazymatch x with
    | GetIP_scan _ _ => destruct x as [[?|]|] eqn:?
    end) H.
  all: finish_path H.
  all: eexists; (split; [reflexivity|]).
  all: repeat match goal with
              | Hb : negb (bool_decide _) = false |- _ =>
                  apply negb_false_iff, bool_decide_eq_true_1 in Hb
              end.
  all: first
    [ right; eexists _, _, _; split; [reflexivity|assumption]
    | left; injection H0 as <- <-;
      split; [reflexivity|]; split; [reflexivity|]; split; [reflexivity|];
      split; [intros; discriminate|];
      intros ? Hs; first [discriminate Hs | reflexivity] ].
Qed.

(** X13.  [hostOnlyIPAvailable] and [GetURL] both rest on [GetIP], with
    the same history.  [hostOnlyIPAvailable] never returns an error, and
    says yes exactly when [GetIP] returns an address that is not empty,
    which is when [GetURL] returns the URL [tcp://<address>:2376]; for the
    empty address [GetURL] returns the empty URL and no error. *)
Theorem hostOnlyIPAvailable_iff_URL (env : Env) (w : world) :
  snd (hostOnlyIPAvailable env w) = snd (GetIP env w)
  /\ snd (GetURL env w) = snd (GetIP env w)
  /\ (forall e, fst (hostOnlyIPAvailable env w) <> Err e)
  /\ (fst (hostOnlyIPAvailable env w) = Ok true
      <-> exists ip, ip <> EmptyString /\ fst (GetIP env w) = Ok ip)
  /\ (forall ip,
         fst (GetIP env w) = Ok ip ->
         fst (GetURL env w)
         = Ok (if String.eqb ip EmptyString then EmptyString
               else "tcp://" +:+ ip +:+ ":2376"))
  /\ (forall e, fst (GetIP env w) = Err e <-> fst (GetURL env w) = Err e).
Proof.
  unfold hostOnlyIPAvailable, GetURL, catch, mbind, M_bind, M_bind_def.
  destruct (GetIP env w) as [[ip|e|msg|] w']; cbn [fst snd].
  - destruct (String.eqb ip EmptyString) eqn:E; cbn [fst snd];
      (split; [reflexivity|]); (split; [reflexivity|]); (split; [discriminate|]); split.
    + split; [discriminate|].
      intros (ip' & Hne & Hip). injection Hip as <-.
      apply String.eqb_eq in E. contradiction.
    + split; [|intros e0; split; discriminate].
      intros ip' Hip. injection Hip as <-. rewrite E. reflexivity.
    + split; [|reflexivity].
      intros _. exists ip. split; [|reflexivity]. intros ->. discriminate E.
    + split; [|intros e0; split; discriminate].
      intros ip' Hip. injection Hip as <-. rewrite E. reflexivity.
  - (split; [reflexivity|]); (split; [reflexivity|]); (split; [discriminate|]); split.
    + split; [discriminate|]. intros (? & ? & ?); discriminate.
    + split; [discriminate|]. intros e0; split; auto.
  - (split; [reflexivity|]); (split; [reflexivity|]); (split; [discriminate|]); split.
    + split; [discriminate|]. intros (? & ? & ?); discriminate.
    + split; [discriminate|]. intros e0; split; discriminate.
  - (split; [reflexivity|]); (split; [reflexivity|]); (split; [discriminate|]); split.
    + split; [discriminate|]. intros (? & ? & ?); discriminate.
    + split; [discriminate|]. intros e0; split; discriminate.
Qed.

(** ** The checks before a creation *)

(** X14.  [PreCreateCheck] only looks: it leaves the driver as it is, and
    its calls are, in this order, [VBoxManage --version], the probes for
    Hyper-V and for VT-x (both left out when [NoVTXCheck] is set), the update
    of the ISO cache and the listing of the host-only adapters.  It stops at
    the first check that fails, so the ISO is downloaded only after the
    version and the virtualization checks passed; it succeeds only after all
    the calls. *)
Theorem PreCreateCheck_checks (env : Env) (w : world) :
  drv (snd (PreCreateCheck env w)) = drv w
  /\ exists seg,
      hist (snd (PreCreateCheck env w)) = hist w ++ seg
      /\ map ev_call seg `prefix_of` precreate_checks (drv w)
      /\ (fst (PreCreateCheck env w) = Ok tt -> map ev_call seg = precreate_checks (drv w))
      /\ (forall msg, fst (PreCreateCheck env w) <> Panic msg).
Proof.
  destruct (PreCreateCheck env w) as [r w'] eqn:H. cbn [fst snd].
  destruct w as [d h]. unfold PreCreateCheck in H.
  run_all H; finish_path H.
  all: split; [reflexivity|].
  all: eexists; (split; [reflexivity|]).
  all: unfold precreate_checks; cbn [drv map ev_call].
  all: try match goal with
           | Hb : negb (NoVTXCheck ?d') = _ |- _ =>
               destruct (NoVTXCheck d'); try discriminate Hb
           end.
  all: split; [solve_prefix|].
  all: split; [intros Hok; first [discriminate Hok | reflexivity]|discriminate].
Qed.

Lemma PreCreateCheck_checks_witness :
  map ev_call (hist (snd (PreCreateCheck (Sim.env_of (Sim.plain "poweroff")) Sim.world0)))
  = precreate_checks Sim.default.
Proof.
  destruct (PreCreateCheck_checks (Sim.env_of (Sim.plain "poweroff")) Sim.world0)
    as (_ & seg & Hh & _ & Hok & _).
  change (hist Sim.world0 ++ seg) with seg in Hh. rewrite Hh. apply Hok.
  vm_compute. reflexivity.
Defined.

(** X15.  The verdicts of [PreCreateCheck]: a version that
    [checkVBoxManageVersion] rejects ends the check at once with its error;
    a host with Hyper-V ends it with [ErrNotCompatibleWithHyperV], before
    VT-x is looked at; a host without VT-x ends it with [ErrMustEnableVTX].
    In the three cases nothing is downloaded. *)
Theorem PreCreateCheck_verdicts (env : Env) (w : world) :
  exists seg,
    hist (snd (PreCreateCheck env w)) = hist w ++ seg
    /\ (forall version stderr e,
           In (Ev (Vbm ["--version"]) (ROut version stderr None)) seg ->
           env_checkVBoxManageVersion env (env_strings_TrimSpace env version) = Some e ->
           fst (PreCreateCheck env w) = Err e /\ length seg = 1%nat)
    /\ (In (Ev IsHyperVInstalled (RBool true)) seg ->
        fst (PreCreateCheck env w) = Err ErrNotCompatibleWithHyperV
        /\ map ev_call seg = [Vbm ["--version"]; IsHyperVInstalled])
    /\ (In (Ev IsVTXDisabled (RBool true)) seg ->
        fst (PreCreateCheck env w) = Err ErrMustEnableVTX
        /\ map ev_call seg = [Vbm ["--version"]; IsHyperVInstalled; IsVTXDisabled]).
Proof.
  destruct (PreCreateCheck env w) as [r w'] eqn:H. cbn [fst snd].
  destruct w as [d h]. unfold PreCreateCheck in H.
  run_all H; finish_path H.
  all: eexists; (split; [reflexivity|]).
  all: split; [|split].
  all: intros; repeat match goal with
                      | Hin : In _ (_ :: _) |- _ => destruct Hin as [Hin|Hin]
                      | Hin : In _ [] |- _ => destruct Hin
                      end.
  all: try discriminate.
  all: try match goal with
           | Hin : Ev _ _ = Ev _ _ |- _ => injection Hin; intros; subst
           end.
  all: try congruence.
  all: try (split; reflexivity).
  all: split; [congruence|reflexivity].
Qed.

Lemma PreCreateCheck_verdicts_witness :
  fst (PreCreateCheck env_hyperv Sim.world0) = Err ErrNotCompatibleWithHyperV
  /\ map ev_call (hist (snd (PreCreateCheck env_hyperv Sim.world0)))
     = [Vbm ["--version"]; IsHyperVInstalled].
Proof.
  destruct (PreCreateCheck_verdicts env_hyperv Sim.world0) as (seg & Hh & _ & Hv & _).
  change (hist Sim.world0 ++ seg) with seg in Hh. rewrite Hh. apply Hv.
  rewrite <- Hh. vm_compute. right. left. reflexivity.
Defined.


(** ** The start of the machine *)

Lemma setupHostOnlyNetwork_invalid (env : Env) (machineName : string) (w : world) (e : error) :
  parseAndValidateCIDR (effective_CIDR (drv w)) = inl e ->
  setupHostOnlyNetwork env machineName w = (Err e, w).
Proof.
  intros H. unfold setupHostOnlyNetwork, mbind, M_bind, M_bind_def, get_drv.
  unfold effective_CIDR in H. rewrite H. reflexivity.
Qed.

(** X16.  [Start] touches nothing when the host-only CIDR of a stopped
    machine is invalid: after the state lookup it returns the error of the
    CIDR, with the prefix "Error setting up host only network on machine
    start: ", and has made no other call. *)
Theorem Start_invalid_CIDR (env : Env) (fuel : nat) (w : world) (e : error) :
  fst (GetState env w) = Ok state.Stopped ->
  parseAndValidateCIDR (effective_CIDR (drv w)) = inl e ->
  Start env fuel w
  = (Err (Errorf "Error setting up host only network on machine start: " e),
     snd (GetState env w)).
Proof.
  intros Hs Hc. unfold Start. unfold mbind at 1, M_bind at 1, M_bind_def at 1, get_drv at 1.
  cbv beta iota. unfold mbind at 1, M_bind at 1, M_bind_def at 1.
  destruct (GetState env w) as [r w1] eqn:E. cbn [fst snd] in *. subst r.
  assert (Hd : drv w1 = drv w).
  { unfold GetState in E. destruct w as [d h]. run_all E; try discriminate E.
    injection E as _ <-. reflexivity. }
  change (bool_decide (state.Stopped = state.Stopped)) with true. cbv iota.
  unfold mbind at 1, M_bind at 1, M_bind_def at 1.
  unfold mbind at 1, M_bind at 1, M_bind_def at 1. unfold catch.
  rewrite (setupHostOnlyNetwork_invalid env (MachineName (drv w)) w1 e)
    by (rewrite Hd; exact Hc).
  reflexivity.
Qed.

Lemma Start_invalid_CIDR_witness :
  Start (Sim.env_of (Sim.plain "poweroff")) 5 world_bad_CIDR
  = (Err (ErrorString
            "Error setting up host only network on machine start: invalid CIDR address: 192.168.99.1"),
     snd (GetState (Sim.env_of (Sim.plain "poweroff")) world_bad_CIDR)).
Proof.
  apply (Start_invalid_CIDR (Sim.env_of (Sim.plain "poweroff")) 5 world_bad_CIDR
           (ParseError "CIDR address" "192.168.99.1")); reflexivity.
Defined.

(** Splits a hypothesis [In ev seg] along the segments and events of [seg]
    and discards the segments that cannot hold [ev]. *)
Ltac split_In Hin :=
  repeat match type of Hin with
         | In _ (_ ++ _) => apply in_app_or in Hin; destruct Hin as [Hin|Hin]
         | In _ (_ :: _) => destruct Hin as [Hin|Hin]
         | In _ [] => destruct Hin
         | In ?ev ?x =>
             match goal with
             | HF : Forall _ x |- _ =>
                 let Hf := fresh in
                 pose proof (proj1 (List.Forall_forall _ _) HF _ Hin) as Hf;
                 cbn in Hf; discriminate Hf
             end
         end.

(** Closes a goal [last seg = Some ev] where [seg] ends with events given
    one by one. *)
Ltac solve_last :=
  first [ reflexivity
        | repeat rewrite app_comm_cons; rewrite ?app_assoc; rewrite last_app_cons;
          reflexivity ].

(** X17.  A stopped machine whose settings hold no host-only CIDR (the 0.2
    format) cannot be started: the network is set up with the default CIDR,
    but the validation that follows the boot parses the empty CIDR of the
    settings.  [Start] never succeeds; when it gets as far as listing the
    adapters, the VM has been booted and [Start] returns the parse error
    "invalid CIDR address: ". *)
Theorem Start_empty_CIDR (env : Env) (fuel : nat) (w : world) :
  HostOnlyCIDR (drv w) = EmptyString ->
  fst (GetState env w) = Ok state.Stopped ->
  fst (Start env fuel w) <> Ok tt
  /\ exists seg,
      hist (snd (Start env fuel w)) = hist w ++ seg
      /\ forall nets,
          In (Ev ListHostOnlyAdapters (RNets nets)) seg ->
          fst (Start env fuel w) = Err (ParseError "CIDR address" EmptyString)
          /\ (exists so se, In (Ev (cmd_startvm (drv w)) (ROut so se None)) seg)
          /\ last seg = Some (Ev ListHostOnlyAdapters (RNets nets)).
Proof.
  intros Hc Hs.
  destruct (Start env fuel w) as [r w'] eqn:H. cbn [fst snd].
  destruct w as [d h]. cbn [drv] in Hc.
  unfold Start, IsVTXDisabledInTheVM, GetState in H. unfold GetState in Hs.
  unfold_prims H. rewrite Hc in H.
  change (parseAndValidateCIDR EmptyString)
    with (@inl error (IP * IPNet) (ParseError "CIDR address" EmptyString)) in H.
  unfold_prims Hs.
  run_with start_special H.
  all: cbn [fst] in Hs; try discriminate Hs.
  all: finish_path H.
  all: split; [discriminate|].
  all: eexists; (split; [first [reflexivity | rewrite app_nil_r; reflexivity]|]).
  all: intros nets Hin.
  all: split_In Hin.
  all: try discriminate Hin.
  all: injection Hin as <-.
  all: split; [reflexivity|].
  all: split; [eexists _, _; solve_In|solve_last].
Qed.

Lemma Start_empty_CIDR_witness :
  fst (Start (Sim.env_of (Sim.plain "poweroff")) 5 world_no_CIDR)
  = Err (ParseError "CIDR address" EmptyString)
  /\ exists so se,
      In (Ev (cmd_startvm (drv world_no_CIDR)) (ROut so se None))
         (hist (snd (Start (Sim.env_of (Sim.plain "poweroff")) 5 world_no_CIDR))).
Proof.
  destruct (Start_empty_CIDR (Sim.env_of (Sim.plain "poweroff")) 5 world_no_CIDR
              eq_refl eq_refl) as (_ & seg & Hh & H).
  change (hist world_no_CIDR ++ seg) with seg in Hh.
  destruct (H {[ "vboxnet0" := Sim.vboxnet0 ]}) as (Hr & Hboot & _).
  - rewrite <- Hh. vm_compute. do 13 right. left. reflexivity.
  - split; [exact Hr|]. rewrite Hh. exact Hboot.
Defined.

(** X18.  [Start] on a machine that is neither stopped nor saved still
    checks the log of the VM and waits for an IP: its calls are the state
    lookup, the resume command if the machine is paused, the reading of the
    log and the wait, in this order, up to the first one that fails; a log
    that reports missing VT-x ends them before the wait.  [Start] itself
    writes nothing in the driver then: the driver is as it was whenever the
    IP waiter, which is handed the driver, is not reached. *)
Theorem Start_unrestartable (env : Env) (fuel : nat) (w : world) (s : state.State) :
  fst (GetState env w) = Ok s ->
  s <> state.Stopped -> s <> state.Saved ->
  exists seg,
    hist (snd (Start env fuel w)) = hist w ++ seg
    /\ (count is_IPWait seg = 0%nat -> drv (snd (Start env fuel w)) = drv w)
    /\ let d := drv w in
       let calls :=
         [cmd_showvminfo d]
           ++ (if bool_decide (s = state.Paused) then [cmd_resume_headless d] else [])
           ++ [LogsRead (VBox_log env d); IPWait] in
       map ev_call seg `prefix_of` calls
       /\ (fst (Start env fuel w) = Ok tt -> map ev_call seg = calls)
       /\ (forall path lines,
              In (Ev (LogsRead path) (RLines lines)) seg ->
              log_says_no_VTX lines = true ->
              fst (Start env fuel w) = Err ErrMustEnableVTX
              /\ count is_IPWait seg = 0%nat).
Proof.
  intros Hs Hn1 Hn2.
  destruct (Start env fuel w) as [r w'] eqn:H. cbn [fst snd].
  destruct w as [d h].
  unfold Start, IsVTXDisabledInTheVM, GetState in H. unfold GetState in Hs.
  unfold_prims Hs.
  run_with start_special H.
  all: cbn [fst] in Hs; try discriminate Hs; injection Hs as <-.
  all: try congruence.
  all: finish_path H.
  all: eexists; (split; [reflexivity|]).
  all: split; [intros Hc; first [reflexivity | discriminate Hc]|].
  all: cbv beta iota zeta; cbn [drv map ev_call].
  all: match goal with
       | |- context [bool_decide (?a = ?b)] =>
           let v := eval vm_compute in (bool_decide (a = b)) in
           change (bool_decide (a = b)) with v
       end; cbv iota.
  all: split; [unfold VBox_log, cmd_showvminfo, cmd_resume_headless; solve_prefix|].
  all: split; [intros Hok; first [discriminate Hok | reflexivity]|].
  all: intros path lines Hin Hno; split_In Hin; try discriminate Hin.
  all: injection Hin as <- <-.
  all: unfold log_says_no_VTX in Hno.
  all: first [ split; reflexivity | congruence ].
Qed.

Lemma Start_unrestartable_witness :
  map ev_call (hist (snd (Start (Sim.env_of (Sim.plain "running")) 5 Sim.world0)))
  = [cmd_showvminfo Sim.default;
     LogsRead (VBox_log (Sim.env_of (Sim.plain "running")) Sim.default); IPWait].
Proof.
  destruct (Start_unrestartable (Sim.env_of (Sim.plain "running")) 5 Sim.world0
              state.Running eq_refl) as (seg & Hh & _ & _ & Hok & _);
    [discriminate|discriminate|].
  change (hist Sim.world0 ++ seg) with seg in Hh. rewrite Hh. apply Hok.
  vm_compute. reflexivity.
Defined.


Lemma provision_not_LogsRead (c : call) : provision_call c = true -> is_LogsRead c = false.
Proof. destruct c; try discriminate; reflexivity. Qed.

Lemma stop_not_LogsRead (c : call) : stop_call c = true -> is_LogsRead c = false.
Proof. destruct c; try discriminate; reflexivity. Qed.

(** Rewrites the counts of a goal down to numbers. *)
Ltac solve_count :=
  repeat first [rewrite count_cons | rewrite count_app | rewrite count_nil];
  repeat match goal with
         | Hc : count ?p ?x = 0%nat |- context [count ?p ?x] => rewrite Hc
         end;
  cbn -[count]; lia.

(** X19.  [Start] reads the log of the VM at most once, also when it
    repairs the adapter and boots a second time.  When the log reports that
    VT-x is missing, the reading is the last call of [Start], which returns
    [ErrMustEnableVTX] and has not waited for an IP: the VM it has just
    booted is not stopped.  When the log cannot be read, the reading is the
    last call too, and the error is returned with the prefix "Checking if
    hardware virtualization is enabled failed: ". *)
Theorem Start_checks_VTX_once (env : Env) (fuel : nat) (w : world) :
  exists seg,
    hist (snd (Start env fuel w)) = hist w ++ seg
    /\ (count is_LogsRead seg <= 1)%nat
    /\ (forall path lines,
           In (Ev (LogsRead path) (RLines lines)) seg ->
           log_says_no_VTX lines = true ->
           fst (Start env fuel w) = Err ErrMustEnableVTX
           /\ count is_IPWait seg = 0%nat
           /\ last seg = Some (Ev (LogsRead path) (RLines lines)))
    /\ (forall path e,
           In (Ev (LogsRead path) (RFail e)) seg ->
           fst (Start env fuel w)
           = Err (Errorf "Checking if hardware virtualization is enabled failed: " e)
           /\ last seg = Some (Ev (LogsRead path) (RFail e))).
Proof.
  destruct (Start env fuel w) as [r w'] eqn:H. cbn [fst snd].
  destruct w as [d h].
  unfold Start, IsVTXDisabledInTheVM, GetState in H.
  run_with start_special H.
  all: finish_path H.
  all: eexists; (split; [first [reflexivity | rewrite app_nil_r; reflexivity]|]).
  all: repeat match goal with
              | Hf : Forall (fun ev => provision_call (ev_call ev) = true) ?x |- _ =>
                  lazymatch goal with
                  | _ : count is_LogsRead x = 0%nat |- _ => fail
                  | _ =>
                      pose proof (count_zero is_LogsRead _ x provision_not_LogsRead Hf);
                      pose proof (proj1 (proj2 (proj2 (proj2 (proj2 (count_provision x Hf))))))
                  end
              | Hf : Forall (fun ev => stop_call (ev_call ev) = true) ?x |- _ =>
                  lazymatch goal with
                  | _ : count is_LogsRead x = 0%nat |- _ => fail
                  | _ => pose proof (count_zero is_LogsRead _ x stop_not_LogsRead Hf)
                  end
              end.
  all: split; [solve_count|].
  all: split.
  all: intros; match goal with Hin : In _ _ |- _ => split_In Hin; try discriminate Hin end.
  all: match goal with Hin : Ev _ _ = Ev _ _ |- _ => injection Hin; intros; subst end.
  all: match goal with
       | Hno : log_says_no_VTX _ = true |- _ => unfold log_says_no_VTX in Hno
       | _ => idtac
       end.
  all: try congruence.
  all: first [ split; [reflexivity|solve_last]
             | split; [reflexivity|]; split; [solve_count|solve_last] ].
Qed.

Lemma Start_checks_VTX_once_witness :
  fst (Start (Sim.env_of Sim_no_VTX) 5 Sim.world0) = Err ErrMustEnableVTX
  /\ count is_startvm (hist (snd (Start (Sim.env_of Sim_no_VTX) 5 Sim.world0))) = 1%nat
  /\ count is_IPWait (hist (snd (Start (Sim.env_of Sim_no_VTX) 5 Sim.world0))) = 0%nat.
Proof.
  destruct (Start_checks_VTX_once (Sim.env_of Sim_no_VTX) 5 Sim.world0)
    as (seg & Hh & _ & Hno & _).
  change (hist Sim.world0 ++ seg) with seg in Hh.
  destruct (Hno (VBox_log (Sim.env_of Sim_no_VTX) (set_SSHPort 49152 Sim.default))
                ["00:00:01.2 VMSetError: VT-x is disabled in the BIOS for all CPU modes"])
    as (Hr & Hw & _).
  - rewrite <- Hh. vm_compute. do 6 right. left. reflexivity.
  - reflexivity.
  - split; [exact Hr|]. split; [vm_compute; reflexivity|]. rewrite Hh. exact Hw.
Defined.

(** [Stop] changes nothing but the cached IP address. *)
Lemma Stop_drv (env : Env) (fuel : nat) (w : world) :
  exists seg d',
    snd (Stop env fuel w) = mkWorld d' (hist w ++ seg)
    /\ Forall (fun ev => stop_call (ev_call ev) = true) seg
    /\ (d' = drv w \/ d' = set_IPAddress EmptyString (drv w)).
Proof.
  destruct (Stop_run env fuel w) as (seg & d' & Hw & Hf & _).
  exists seg, d'. split; [exact Hw|]. split; [exact Hf|].
  destruct (Stop env fuel w) as [r w'] eqn:E. cbn [snd] in Hw. subst w'.
  destruct w as [d h]. unfold Stop, GetState in E.
  run_with ltac:(stop_special E) E.
  all: injection E; intros; subst; cbn [drv]; auto.
Qed.

(** The forwarding of the SSH port: a port that it returns is not 0 and is
    the host port of the rule installed. *)
Lemma setPortForwarding_ssh (env : Env) (hostPort : Z) (w : world) :
  exists seg,
    snd (setPortForwarding env 1 "ssh" "tcp" 22 hostPort w) = mkWorld (drv w) (hist w ++ seg)
    /\ Forall (fun ev => provision_call (ev_call ev) = true) seg
    /\ forall p,
        fst (setPortForwarding env 1 "ssh" "tcp" 22 hostPort w) = Ok p ->
        p <> 0
        /\ exists so se, In (Ev (cmd_natpf_add (drv w) p) (ROut so se None)) seg.
Proof.
  destruct (setPortForwarding_trace env 1 "ssh" "tcp" 22 hostPort w)
    as (probes & cmds & Hw & Hp & Hc).
  exists (probes ++ cmds). split; [exact Hw|].
  assert (Hprobes : Forall (fun ev => provision_call (ev_call ev) = true) probes).
  { eapply Forall_impl; [exact Hp|]. intros ev Hev. apply probe_provision, Hev. }
  destruct Hc as [(-> & Hne)|(p & rd & so & se & err & Hnz & -> & Hres)].
  - split; [rewrite app_nil_r; exact Hprobes|]. intros p Hok. destruct (Hne p Hok).
  - split; [apply Forall_app; split; [exact Hprobes|repeat constructor]|].
    intros q Hok. rewrite Hres in Hok. destruct err as [e|]; [discriminate Hok|].
    injection Hok as <-. split; [exact Hnz|]. exists so, se.
    apply in_or_app. right. right. left. reflexivity.
Qed.

Ltac port_special x :=
  lazymatch x with
  | setupHostOnlyNetwork ?env ?n ?w1 =>
      let Hr := fresh "Hsetup" in
      pose proof (setupHostOnlyNetwork_run env n w1) as Hr;
      destruct x eqn:?; cbn [fst snd drv hist] in Hr;
      destruct Hr as (? & ? & ? & ? & ? & -> & ? & _ & _)
  | setPortForwarding ?env _ _ _ _ ?hp ?w1 =>
      let Hr := fresh "Hpf" in
      pose proof (setPortForwarding_ssh env hp w1) as Hr;
      destruct x eqn:?; cbn [fst snd drv hist] in Hr;
      destruct Hr as (? & -> & ? & ?)
  | Stop ?env ?f ?w1 =>
      let Hr := fresh "Hstop" in
      pose proof (Stop_drv env f w1) as Hr;
      destruct x eqn:?; cbn [fst snd drv hist] in Hr;
      destruct Hr as (? & ? & -> & ? & [-> | ->])
  end.



(** ** The DHCP server of the host-only network, its address *)

Ltac locate p Hseg Hact :=
  repeat (eapply (occ_cons p) in Hseg;
          [destruct Hseg as (? & -> & Hseg) | exact Hact | solve [reflexivity]]);
  first [ exfalso; eapply (occ_none p); [exact Hseg|exact Hact|reflexivity]
        | exfalso; exact (occ_nil _ _ _ Hseg)
        | eapply (occ_here p) in Hseg; [|exact Hact|reflexivity];
          let Hev := fresh "Hev" in
          destruct Hseg as (-> & Hev & ->); injection Hev; intros; subst ].

(** X21.  For a host-only CIDR with the IPv4 host address [a.b.c.h],
    [setupHostOnlyNetwork] adds at most one DHCP server.  It does so after it
    found or created the adapter for the host IP and the mask of the CIDR,
    removed the orphan DHCP servers, and drew between one and five random
    numbers; the server goes to this adapter, has the mask of the CIDR and
    the address [a.b.c.o] with [o <> h]: never the address of the host.
    Only the attachment of the adapter to the VM can follow. *)
Theorem setupHostOnlyNetwork_dhcp_address (env : Env) (machineName : string) (w : world)
        (ip : IP) (network : IPNet) (a b c h : Z) :
  parseAndValidateCIDR (effective_CIDR (drv w)) = inr (ip, network) ->
  To4 ip = [a; b; c; h] ->
  exists seg,
    hist (snd (setupHostOnlyNetwork env machineName w)) = hist w ++ seg
    /\ (count is_AddHostOnlyDHCPServer seg <= 1)%nat
    /\ forall pre ifname dhcp r post,
        seg = pre ++ Ev (AddHostOnlyDHCPServer ifname dhcp) r :: post ->
        (exists o,
            dhcp_IPv4 dhcp = mkIPNet (IPv4 a b c o) (IPNet_Mask network)
            /\ o <> h /\ 0 <= o < 256)
        /\ (exists adapter draws,
               pre = Ev (GetOrCreateHostOnlyNetwork ip (IPNet_Mask network)) (RNet adapter)
                        :: Ev RemoveOrphanDHCPServers RDone :: draws
               /\ ifname = hon_Name adapter
               /\ Forall (fun ev => ev_call ev = RandomInt 25) draws
               /\ (1 <= length draws <= 5)%nat)
        /\ map ev_call post `prefix_of` [cmd_nic2 (drv w) machineName ifname].
Proof.
  intros Hcidr Hip.
  destruct (setupHostOnlyNetwork env machineName w) as [r w'] eqn:H. cbn [fst snd].
  destruct w as [d h0]. unfold setupHostOnlyNetwork, getRandomIPinSubnet in H.
  unfold effective_CIDR in Hcidr. cbn [drv] in Hcidr.
  unfold_prims H. rewrite Hcidr in H. unfold_prims H. rewrite Hip in H.
  cbn [getRandomIPinSubnet_loop lookup list_lookup default] in H.
  unfold_prims H.
  repeat (destruct_innermost H; unfold_prims H).
  all: finish_path H.
  all: eexists; (split; [first [reflexivity | rewrite app_nil_r; reflexivity]|]).
  all: split; [solve_count|].
  all: intros pre ifname dhcp rep post Hseg.
  all: assert (Hact : is_AddHostOnlyDHCPServer
                        (ev_call (Ev (AddHostOnlyDHCPServer ifname dhcp) rep)) = true)
         by reflexivity.
  all: locate is_AddHostOnlyDHCPServer Hseg Hact.
  all: split;
    [match goal with
     | Heqi : IPv4 _ _ _ (byte_of_int ?r) = _ :: _ |- _ =>
         exists (byte_of_int r); rewrite <- Heqi;
         split; [reflexivity|];
         split;
         [match goal with
          | Hb : negb (byte_of_int r =? _) = true |- _ =>
              apply negb_true_iff, Z.eqb_neq in Hb; exact Hb
          end
         |unfold byte_of_int; apply Z.mod_pos_bound; lia]
     end|].
  all: split;
    [eexists _, _; split; [reflexivity|]; split; [reflexivity|];
     split; [repeat constructor|cbn [length]; lia]|].
  all: cbn [map ev_call]; unfold cmd_nic2; solve_prefix.
Qed.

Lemma setupHostOnlyNetwork_dhcp_address_witness :
  exists pre r post,
    hist (snd (setupHostOnlyNetwork (Sim.env_of (Sim.plain "poweroff")) "default" world_1005))
    = pre ++ Ev (AddHostOnlyDHCPServer "vboxnet0"
                   {| dhcp_IPv4 := mkIPNet (IPv4 10 0 5 7) [255; 255; 255; 0];
                      dhcp_LowerIP := IPv4 10 0 5 100;
                      dhcp_UpperIP := IPv4 10 0 5 254;
                      dhcp_Enabled := true |}) r :: post
    /\ map ev_call post `prefix_of` [cmd_nic2 (drv world_1005) "default" "vboxnet0"].
Proof.
  destruct (setupHostOnlyNetwork_dhcp_address
              (Sim.env_of (Sim.plain "poweroff")) "default" world_1005
              (IPv4 10 0 5 1) (mkIPNet [10; 0; 5; 0] [255; 255; 255; 0]) 10 0 5 1
              eq_refl eq_refl) as (seg & Hh & _ & H).
  change (hist world_1005 ++ seg) with seg in Hh.
  destruct (H (take 3 seg) "vboxnet0"
              {| dhcp_IPv4 := mkIPNet (IPv4 10 0 5 7) [255; 255; 255; 0];
                 dhcp_LowerIP := IPv4 10 0 5 100;
                 dhcp_UpperIP := IPv4 10 0 5 254;
                 dhcp_Enabled := true |} RDone (drop 4 seg)) as (_ & _ & Hpost).
  - rewrite <- Hh. vm_compute. reflexivity.
  - exists (take 3 seg), RDone, (drop 4 seg). split; [|exact Hpost].
    rewrite <- Hh. vm_compute. reflexivity.
Defined.

(** X22.  A host-only CIDR whose host address is not an IPv4 one (an IPv6
    CIDR passes [parseAndValidateCIDR]) never gives a network:
    [setupHostOnlyNetwork] adds no DHCP server and attaches nothing, and
    once the adapter is found or created and the orphan DHCP servers are
    removed it draws one random number and panics, as the 4-byte form of
    the host address is empty and its fourth byte is read. *)
Theorem setupHostOnlyNetwork_not_IPv4 (env : Env) (machineName : string) (w : world)
        (ip : IP) (network : IPNet) :
  parseAndValidateCIDR (effective_CIDR (drv w)) = inr (ip, network) ->
  To4 ip = [] ->
  (forall adapter, fst (setupHostOnlyNetwork env machineName w) <> Ok adapter)
  /\ exists seg,
      hist (snd (setupHostOnlyNetwork env machineName w)) = hist w ++ seg
      /\ map ev_call seg
         `prefix_of` [GetOrCreateHostOnlyNetwork ip (IPNet_Mask network);
                      RemoveOrphanDHCPServers; RandomInt 25]
      /\ (In (Ev RemoveOrphanDHCPServers RDone) seg ->
          fst (setupHostOnlyNetwork env machineName w) = Panic "index out of range"
          /\ length seg = 3%nat).
Proof.
  intros Hcidr Hip.
  destruct (setupHostOnlyNetwork env machineName w) as [r w'] eqn:H. cbn [fst snd].
  destruct w as [d h0]. unfold setupHostOnlyNetwork, getRandomIPinSubnet in H.
  unfold effective_CIDR in Hcidr. cbn [drv] in Hcidr.
  unfold_prims H. rewrite Hcidr in H. unfold_prims H. rewrite Hip in H.
  cbn [getRandomIPinSubnet_loop lookup list_lookup default] in H.
  unfold_prims H.
  repeat (destruct_innermost H; unfold_prims H).
  all: finish_path H.
  all: split; [discriminate|].
  all: eexists; (split; [reflexivity|]).
  all: split; [cbn [map ev_call]; solve_prefix|].
  all: intros Hin; split_In Hin; try discriminate Hin.
  all: split; reflexivity.
Qed.

Lemma setupHostOnlyNetwork_not_IPv4_witness :
  fst (setupHostOnlyNetwork (Sim.env_of (Sim.plain "poweroff")) "default" world_ipv6)
  = Panic "index out of range".
Proof.
  destruct (setupHostOnlyNetwork_not_IPv4
              (Sim.env_of (Sim.plain "poweroff")) "default" world_ipv6
              [254; 128; 0; 0; 0; 0; 0; 0; 0; 0; 0; 0; 0; 0; 0; 1]
              (mkIPNet [254; 128; 0; 0; 0; 0; 0; 0; 0; 0; 0; 0; 0; 0; 0; 0]
                       [255; 255; 255; 255; 255; 255; 255; 255; 0; 0; 0; 0; 0; 0; 0; 0])
              eq_refl eq_refl) as (_ & seg & Hh & _ & Hp).
  change (hist world_ipv6 ++ seg) with seg in Hh.
  apply Hp. rewrite <- Hh. vm_compute. right. left. reflexivity.
Defined.

(** ** The shared folder *)

(** [strings.TrimLeft(s, "/")] removes the slashes at the head of [s], all
    of them and nothing else. *)
Lemma TrimLeft_slash_spec (s : string) :
  String.prefix "/" (TrimLeft_slash s) = false
  /\ exists n, s = slashes n +:+ TrimLeft_slash s.
Proof.
  induction s as [|c s IH].
  - split; [reflexivity|]. exists O. reflexivity.
  - destruct (Ascii.eqb_spec c "/") as [->|Hc].
    + cbn [TrimLeft_slash]. destruct IH as (Hp & n & Hn). split; [exact Hp|].
      exists (S n). cbn [slashes].
      change (String "/" s = String "/" (slashes n +:+ TrimLeft_slash s)).
      now rewrite <- Hn.
    + assert (Hm : TrimLeft_slash (String c s) = String c s)
        by (destruct c as [[] [] [] [] [] [] [] []]; try reflexivity; congruence).
      rewrite Hm. split; [|exists O; reflexivity].
      destruct c as [[] [] [] [] [] [] [] []]; try reflexivity; congruence.
Qed.

(** X23.  The shared folder of [CreateVM], for the name and the directory
    that [getShareDriveAndName] proposes.  No folder is shared when the
    directory is empty or the driver has [NoShare].  A folder is shared once
    at most, right after a successful [os.Stat] of the directory, under the
    proposed name or, when that is empty, under the directory without its
    leading slashes, so that this name never starts with a slash; only the
    command that enables symlinks for this name can follow.  A directory
    that does not exist is no error: the creation succeeds and shares
    nothing; any other error of [os.Stat] is returned. *)
Theorem CreateVM_shares_folder (env : Env) (w : world) (shareName shareDir : string) :
  env_getShareDriveAndName env = (shareName, shareDir) ->
  exists seg,
    hist (snd (CreateVM env w)) = hist w ++ seg
    /\ (count is_sharedfolder seg <= 1)%nat
    /\ (shareDir = EmptyString \/ NoShare (drv w) = true ->
        count is_sharedfolder seg = 0%nat /\ count is_setextradata seg = 0%nat)
    /\ (forall pre args r post,
           seg = pre ++ Ev (Vbm ("sharedfolder" :: args)) r :: post ->
           let name := share_name shareName shareDir in
           Vbm ("sharedfolder" :: args) = cmd_sharedfolder (drv w) name shareDir
           /\ (shareName = EmptyString ->
               String.prefix "/" name = false
               /\ exists n, shareDir = slashes n +:+ name)
           /\ last pre = Some (Ev (OsStat shareDir) RDone)
           /\ map ev_call post `prefix_of` [cmd_symlinks (drv w) name])
    /\ (forall pre e,
           seg = pre ++ [Ev (OsStat shareDir) (RFail e)] ->
           count is_guestproperty pre = 2%nat ->
           fst (CreateVM env w) = if env_os_IsNotExist env e then Ok tt else Err e).
Proof.
  intros Hshare.
  destruct (CreateVM env w) as [r w'] eqn:H. cbn [fst snd].
  destruct w as [d h]. unfold CreateVM in H.
  unfold_prims H. rewrite Hshare in H.
  run_all H; finish_path H.
  all: eexists; (split; [reflexivity|]).
  all: split; [solve_count|].
  all: cbn [drv].
  all: split;
    [intros Hno;
     first [ split; solve_count
           | exfalso;
             match goal with
             | Hb : negb (_ =? _)%string && negb (NoShare _) = true |- _ =>
                 apply andb_true_iff in Hb; destruct Hb as [Hb1 Hb2];
                 apply negb_true_iff in Hb1, Hb2;
                 destruct Hno as [-> | Hn];
                 [cbn in Hb1; discriminate Hb1
                 |cbn [NoShare set_CPU_Memory] in Hb2; congruence]
             end ]|].
  all: split.
  (* the command that shares the folder *)
  all: try (intros pre args rep post Hseg;
            assert (Hact : is_sharedfolder
                             (ev_call (Ev (Vbm ("sharedfolder" :: args)) rep)) = true)
              by reflexivity;
            locate is_sharedfolder Hseg Hact;
            cbv zeta;
            (split;
             [unfold share_name, cmd_sharedfolder;
              match goal with
              | Hn : (_ =? EmptyString)%string = _ |- _ => rewrite Hn
              end; reflexivity|]);
            (split;
             [intros ->; unfold share_name; cbn [String.eqb]; apply TrimLeft_slash_spec|]);
            (split; [reflexivity|]);
            unfold share_name, cmd_symlinks;
            match goal with
            | Hn : (_ =? EmptyString)%string = _ |- _ => rewrite Hn
            end; cbn [map ev_call]; solve_prefix).
  (* the directory cannot be examined *)
  all: intros pre e0 Hseg Hc.
  all: pose proof (f_equal last Hseg) as Hl; rewrite last_snoc in Hl; cbn [last] in Hl.
  all: try discriminate Hl.
  all: pose proof (f_equal (@removelast event) Hseg) as Hp; rewrite removelast_last in Hp;
    cbn [removelast] in Hp; subst pre; vm_compute in Hc; try discriminate Hc.
  all: injection Hl; intros; subst.
  all: match goal with
       | Hb : negb (env_os_IsNotExist _ _) = _ |- _ =>
           destruct (env_os_IsNotExist env e0); try discriminate Hb; reflexivity
       end.
Qed.

Lemma CreateVM_shares_folder_witness :
  exists pre r post,
    hist (snd (CreateVM (Sim.env_of Sim_share) Sim.world0))
    = pre ++ Ev (cmd_sharedfolder Sim.default "Users" "/Users") r :: post
    /\ last pre = Some (Ev (OsStat "/Users") RDone)
    /\ map ev_call post `prefix_of` [cmd_symlinks Sim.default "Users"].
Proof.
  destruct (CreateVM_shares_folder (Sim.env_of Sim_share) Sim.world0 EmptyString "/Users"
              eq_refl) as (seg & Hh & _ & _ & H & _).
  change (hist Sim.world0 ++ seg) with seg in Hh.
  destruct (H (take 12 seg)
              ["add"; "default"; "--name"; "Users"; "--hostpath"; "/Users"; "--automount"]
              (ROut EmptyString EmptyString None) (drop 13 seg))
    as (_ & _ & Hlast & Hpost).
  - rewrite <- Hh. vm_compute. reflexivity.
  - exists (take 12 seg), (ROut EmptyString EmptyString None), (drop 13 seg).
    split; [|split; [exact Hlast|exact Hpost]].
    rewrite <- Hh. vm_compute. reflexivity.
Defined.

(** ** What the operations may do *)

Lemma same_settings_refl (d : Driver) : same_settings d d.
Proof. repeat split. Qed.

Lemma same_settings_trans (d1 d2 d3 : Driver) :
  same_settings d1 d2 -> same_settings d2 d3 -> same_settings d1 d3.
Proof. unfold same_settings. intuition congruence. Qed.

Lemma frame_refl (hw hands ip : bool) (d : Driver) : frame hw hands ip d d.
Proof. unfold frame. split; [apply same_settings_refl|]. auto. Qed.

(** What a collaborator leaves in the driver is within the frame of an
    operation that hands it the driver. *)
Lemma frame_hand_back (hw ip : bool) (left : handed) (d : Driver) :
  frame hw true ip d (hand_back left d).
Proof.
  unfold frame. split; [repeat split|]. split; [intros _; split; reflexivity|].
  discriminate.
Qed.

Lemma frame_trans (hw hands ip : bool) (d1 d2 d3 : Driver) :
  frame hw hands ip d1 d2 -> frame hw hands ip d2 d3 -> frame hw hands ip d1 d3.
Proof.
  intros (Hs1 & Hh1 & Hp1) (Hs2 & Hh2 & Hp2).
  split; [eapply same_settings_trans; eassumption|].
  split; [intros E; destruct (Hh1 E), (Hh2 E); split; congruence|].
  intros E. destruct (Hp1 E) as (Hu1 & Hq1 & Hi1), (Hp2 E) as (Hu2 & Hq2 & Hi2).
  split; [congruence|]. split; [congruence|].
  destruct Hi2 as [E2|[? E2]]; [rewrite E2; exact Hi1|right; auto].
Qed.

Section Keeps.

Variable allowed : call -> bool.
Variables hw hands ip : bool.

Ltac keeps_nothing :=
  intros w; exists []; cbn; rewrite app_nil_r;
  split; [reflexivity|]; split; [constructor|apply frame_refl].

Lemma keeps_ret {A : Type} (a : A) : keeps allowed hw hands ip (mret a).
Proof. keeps_nothing. Qed.

Lemma keeps_raise {A : Type} (e : error) : keeps allowed hw hands ip (@raise A e).
Proof. keeps_nothing. Qed.

Lemma keeps_panic {A : Type} (msg : string) : keeps allowed hw hands ip (@panic A msg).
Proof. keeps_nothing. Qed.

Lemma keeps_out_of_fuel {A : Type} : keeps allowed hw hands ip (@out_of_fuel A).
Proof. keeps_nothing. Qed.

Lemma keeps_get_drv : keeps allowed hw hands ip get_drv.
Proof. keeps_nothing. Qed.

Lemma keeps_modify_drv (f : Driver -> Driver) :
  (forall d, frame hw hands ip d (f d)) -> keeps allowed hw hands ip (modify_drv f).
Proof.
  intros H w. exists []. cbn. rewrite app_nil_r.
  split; [reflexivity|]. split; [constructor|apply H].
Qed.

Lemma keeps_ask {A : Type} (c : call) (oracle : list event -> A) (rep : A -> reply) :
  allowed c = true -> keeps allowed hw hands ip (ask c oracle rep).
Proof.
  intros H w. exists [Ev c (rep (oracle (hist w)))].
  split; [reflexivity|]. split; [repeat constructor; exact H|apply frame_refl].
Qed.

Lemma keeps_ask_handing {A : Type} (c : call) (oracle : list event -> Driver -> A * handed)
      (rep : A -> reply) :
  hands = true -> allowed c = true -> keeps allowed hw hands ip (ask_handing c oracle rep).
Proof.
  intros -> H w. exists [Ev c (rep (fst (oracle (hist w) (drv w))))].
  split; [reflexivity|]. split; [repeat constructor; exact H|apply frame_hand_back].
Qed.

Lemma keeps_bind {A B : Type} (m : M A) (k : A -> M B) :
  keeps allowed hw hands ip m -> (forall a, keeps allowed hw hands ip (k a)) ->
  keeps allowed hw hands ip (m ≫= k).
Proof.
  intros Hm Hk w. unfold mbind, M_bind, M_bind_def.
  destruct (Hm w) as (s1 & Hh1 & Hf1 & Hd1).
  destruct (m w) as [[a|e|msg|] w1]; cbn [fst snd] in *;
    try solve [exists s1; split; [assumption|split; assumption]].
  destruct (Hk a w1) as (s2 & Hh2 & Hf2 & Hd2).
  exists (s1 ++ s2). split; [now rewrite Hh2, Hh1, app_assoc|].
  split; [apply Forall_app; auto|eapply frame_trans; eassumption].
Qed.

Lemma keeps_catch {A : Type} (m : M A) :
  keeps allowed hw hands ip m -> keeps allowed hw hands ip (catch m).
Proof.
  intros Hm w. unfold catch. destruct (Hm w) as (s1 & Hh1 & Hf1 & Hd1).
  destruct (m w) as [[a|e|msg|] w1]; cbn [fst snd] in *;
    exists s1; (split; [assumption|split; assumption]).
Qed.

End Keeps.

Create HintDb keeps discriminated.

#[local] Hint Resolve keeps_ret keeps_raise keeps_panic keeps_out_of_fuel keeps_get_drv
  : keeps.

(** A change of the driver that stays within the frame. *)
Ltac solve_frame :=
  intros ?; unfold frame, same_settings;
  cbn [MachineName StorePath SSHUser SSHPort IPAddress CPU Memory DiskSize Boot2DockerURL
       Boot2DockerImportVM HostDNSResolver HostOnlyCIDR HostOnlyNicType HostOnlyPromiscMode
       NoShare DNSProxy NoVTXCheck SwarmMaster SwarmHost SwarmDiscovery
       set_SSHPort set_IPAddress set_CPU_Memory];
  repeat split; intros; auto; try discriminate.

(** One step of a proof of [keeps]. *)
Ltac keeps_step :=
  lazymatch goal with
  | |- keeps _ _ _ _ (mbind _ _) => apply keeps_bind; [|intros ?]
  | |- keeps _ _ _ _ (catch _) => apply keeps_catch
  | |- keeps _ _ _ _ (ask _ _ _) => apply keeps_ask; try reflexivity
  | |- keeps _ _ _ _ (ask_handing _ _ _) => apply keeps_ask_handing; reflexivity
  | |- keeps _ _ _ _ (modify_drv _) => apply keeps_modify_drv; solve_frame
  | |- keeps _ _ _ _ (match ?x with _ => _ end) => destruct x
  | |- _ = true => fail
  | |- keeps _ _ _ _ ?m =>
      first [solve [auto with keeps] | let h := head_of m in progress unfold h]
  end.

Ltac keeps_auto := repeat keeps_step.

Section KeepsLoops.

Variable env : Env.
Variable allowed : call -> bool.
Variables hw hands ip : bool.

Hypothesis allowed_probe : forall c, is_probe c = true -> allowed c = true.
Hypothesis allowed_draw : forall n, allowed (RandomInt n) = true.
Hypothesis allowed_showvminfo : forall d, allowed (cmd_showvminfo d) = true.
Hypothesis allowed_Sleep : forall ns, allowed (Sleep ns) = true.

Ltac allowed_base :=
  first [ apply allowed_Sleep | apply allowed_draw | apply (allowed_showvminfo _)
        | apply allowed_probe; reflexivity ].

Lemma keeps_close_all (deferred : list string) :
  keeps allowed hw hands ip (close_all deferred).
Proof.
  induction deferred as [|addr rest IH]; cbn [close_all]; keeps_auto; try exact IH.
  all: allowed_base.
Qed.
Hint Resolve keeps_close_all : keeps.

Lemma keeps_getAvailableTCPPort_loop (n : nat) :
  forall p deferred, keeps allowed hw hands ip (getAvailableTCPPort_loop env n p deferred).
Proof.
  induction n as [|n IH]; intros p deferred; cbn [getAvailableTCPPort_loop].
  - keeps_auto.
  - keeps_auto. all: try apply IH. all: allowed_base.
Qed.

Lemma keeps_getAvailableTCPPort (p : Z) :
  keeps allowed hw hands ip (getAvailableTCPPort env p).
Proof. apply keeps_getAvailableTCPPort_loop. Qed.

Lemma keeps_getRandomIPinSubnet_loop (n : nat) (nAddr : IP) :
  keeps allowed hw hands ip (getRandomIPinSubnet_loop env n nAddr).
Proof.
  induction n as [|n IH]; cbn [getRandomIPinSubnet_loop]; keeps_auto; try exact IH.
  all: allowed_base.
Qed.

Lemma keeps_GetState : keeps allowed hw hands ip (GetState env).
Proof. unfold GetState. keeps_auto. all: allowed_base. Qed.
Hint Resolve keeps_GetState : keeps.

Lemma keeps_Stop_poll (fuel : nat) : keeps allowed hw hands ip (Stop_poll env fuel).
Proof.
  induction fuel as [|fuel IH]; cbn [Stop_poll]; keeps_auto; try exact IH.
  all: allowed_base.
Qed.

End KeepsLoops.

Lemma permitted_probe (op : operation) (c : call) :
  is_probe c = true -> permitted op c = true.
Proof. destruct c; try discriminate; reflexivity. Qed.

Lemma permitted_showvminfo (op : operation) (d : Driver) :
  permitted op (cmd_showvminfo d) = true.
Proof. destruct op; reflexivity. Qed.

Ltac keeps_op_step :=
  lazymatch goal with
  | |- keeps _ _ _ _ (getAvailableTCPPort _ _) =>
      apply keeps_getAvailableTCPPort; [apply permitted_probe]
  | |- keeps _ _ _ _ (getRandomIPinSubnet_loop _ _ _) =>
      apply keeps_getRandomIPinSubnet_loop; [intros ?; reflexivity]
  | |- keeps _ _ _ _ (Stop_poll _ _) =>
      apply keeps_Stop_poll; [apply permitted_showvminfo|intros ?; reflexivity]
  | |- keeps _ _ _ _ (GetState _) => apply keeps_GetState; [apply permitted_showvminfo]
  | _ => keeps_step
  end.

Lemma keeps_run_operation (env : Env) (fuel : nat) (op : operation) :
  keeps (permitted op) (changes_hardware op) (hands_driver op) (clears_address op)
        (run_operation env fuel op).
Proof.
  destruct op; cbn [run_operation changes_hardware hands_driver clears_address];
    repeat keeps_op_step.
Qed.

(** X24.  What the operations that keep the driver to themselves may
    change in it.  [Stop], [Kill], [Remove], [GetState], [PreCreateCheck],
    [CreateVM], [setupHostOnlyNetwork] and [setPortForwarding] hand the
    driver to no collaborator.  They keep the settings of the machine (its
    name, store path, disk size, image URL, VM to import, DNS options,
    host-only CIDR, NIC type and promiscuous mode, sharing, VT-x and swarm
    options), the SSH user and the SSH port.  Only [CreateVM] can change the
    CPU count and the memory.  None stores an IP address: [Stop] and
    [Remove] can clear the cached one, the others leave it. *)
Theorem operations_frame (env : Env) (fuel : nat) (op : operation) (w : world) :
  hands_driver op = false ->
  let d := drv w in
  let d' := drv (snd (run_operation env fuel op w)) in
  same_settings d d'
  /\ SSHUser d' = SSHUser d /\ SSHPort d' = SSHPort d
  /\ (op <> OpCreateVM -> CPU d' = CPU d /\ Memory d' = Memory d)
  /\ (IPAddress d' = IPAddress d
      \/ ((op = OpStop \/ op = OpRemove) /\ IPAddress d' = EmptyString)).
Proof.
  intros Hhands.
  destruct (keeps_run_operation env fuel op w) as (seg & _ & _ & Hs & Hhw & Hrest).
  rewrite Hhands in Hrest. destruct (Hrest eq_refl) as (Hu & Hp & Hi).
  cbv zeta. split; [exact Hs|]. split; [exact Hu|]. split; [exact Hp|]. split.
  - intros Hop. apply Hhw. destruct op; try reflexivity; try discriminate Hhands.
    contradiction.
  - destruct Hi as [Hi|[Hc Hi]]; [left; exact Hi|right].
    split; [|exact Hi].
    destruct op; try discriminate Hc; try discriminate Hhands; auto.
Qed.

Lemma operations_frame_witness :
  drv (snd (run_operation (Sim.env_of Sim_stopping) 5 OpStop
              (mkWorld (set_IPAddress "192.168.99.100" Sim.default) [])))
  = Sim.default.
Proof.
  destruct (operations_frame (Sim.env_of Sim_stopping) 5 OpStop
              (mkWorld (set_IPAddress "192.168.99.100" Sim.default) []) eq_refl)
    as (_ & _ & _ & _ & [Hi|[_ Hi]]).
  - vm_compute in Hi. discriminate Hi.
  - vm_compute. reflexivity.
Defined.

(** X25.  What the operations of the driver may ask of the hypervisor.
    Only [Remove] unregisters a machine; only [Kill], [Remove], [CreateVM]
    and [Create] power a VM off; only [Start] and [Create] boot one; only
    [CreateVM] and [Create] register one; and [GetState], [GetIP] and
    [GetURL] make no call that changes the hypervisor. *)
Theorem operations_permitted (env : Env) (fuel : nat) (op : operation) (w : world) :
  exists seg,
    hist (snd (run_operation env fuel op w)) = hist w ++ seg
    /\ Forall (fun ev => permitted op (ev_call ev) = true) seg.
Proof.
  destruct (keeps_run_operation env fuel op w) as (seg & Hh & Hf & _).
  exists seg. split; assumption.
Qed.

Example operations_permitted_example :
  count is_unregistervm (hist (snd (run_operation (Sim.env_of Sim_stopping) 5 OpRemove
                                                  Sim.world0))) = 1%nat
  /\ permitted OpStop (cmd_unregistervm Sim.default) = false.
Proof. split; vm_compute; reflexivity. Qed.

(** ** The configuration of the driver *)

Lemma String_neq_tail (c : ascii) (s : string) : String c s <> s.
Proof.
  revert c. induction s as [|a s IH]; intros c H; [discriminate H|].
  injection H as _ H. exact (IH _ H).
Qed.

(** X26.  [SetConfigFromFlags] and [GetCreateFlags] agree on the flags of
    the driver.  The settings that [SetConfigFromFlags] stores depend on the
    options only through the flags that [GetCreateFlags] declares, each read
    with the type of its declaration, and through the three swarm options,
    which the base driver reads; and every declared flag is read: changing
    the value of one flag alone changes the settings stored. *)
Theorem SetConfigFromFlags_reads_declared_flags :
  (forall o1 o2 w,
      (forall f, In f GetCreateFlags -> same_value f o1 o2) ->
      same_swarm o1 o2 ->
      SetConfigFromFlags o1 w = SetConfigFromFlags o2 w)
  /\ (forall f o w,
         In f GetCreateFlags ->
         (forall g, In g GetCreateFlags -> g <> f -> same_value g (other_value f o) o)
         /\ same_swarm (other_value f o) o
         /\ SetConfigFromFlags (other_value f o) w <> SetConfigFromFlags o w).
Proof.
  split.
  - intros o1 o2 w H (Hm & Hh & Hd).
    assert (HF : List.Forall (fun f => same_value f o1 o2) GetCreateFlags)
      by (apply List.Forall_forall; exact H).
    unfold GetCreateFlags in HF.
    repeat match goal with
           | HF : List.Forall _ (_ :: _) |- _ =>
               let H1 := fresh in
               let H2 := fresh in
               inversion HF as [|? ? H1 H2]; subst; clear HF; cbn [same_value] in H1
           end.
    unfold SetConfigFromFlags, SetSwarmConfigFromFlags, set_Swarm, modify_drv.
    cbv zeta.
    cbn [MachineName StorePath SSHPort IPAddress SwarmMaster SwarmHost SwarmDiscovery].
    repeat match goal with
           | E : opt_Int o1 _ = _ |- _ => rewrite E; clear E
           | E : opt_String o1 _ = _ |- _ => rewrite E; clear E
           | E : opt_Bool o1 _ = _ |- _ => rewrite E; clear E
           end.
    reflexivity.
  - intros f o w Hin. unfold GetCreateFlags in Hin. cbn [In] in Hin.
    repeat (destruct Hin as [<-|Hin]); try contradiction.
    all: split;
      [intros g Hg Hne; unfold GetCreateFlags in Hg; cbn [In] in Hg;
       repeat (destruct Hg as [<-|Hg]); try contradiction; try reflexivity;
       congruence
      |split;
       [repeat split
       |unfold SetConfigFromFlags, modify_drv, other_value;
        cbn [opt_Int opt_String opt_Bool String.eqb Ascii.eqb Bool.eqb];
        intros Heq; injection Heq; intros;
        first [ lia
              | eapply String_neq_tail; eassumption
              | match goal with
                | Hb : negb ?b = ?b |- _ => destruct b; discriminate Hb
                end ]]].
Qed.

(** X27.  The defaults that [GetCreateFlags] declares are the defaults of
    [NewDriver]: configured from options that give every flag its declared
    value, a driver has the settings of a new driver of the same name and
    store path, with the SSH user "docker"; its SSH port and cached IP
    address are kept, and nothing is asked of the outside world. *)
Theorem SetConfigFromFlags_defaults (w : world) :
  SetConfigFromFlags (default_options GetCreateFlags) w
  = (Ok tt,
     mkWorld (set_IPAddress (IPAddress (drv w))
                (set_SSHPort (SSHPort (drv w))
                   (set_SSHUser "docker"
                      (NewDriver (MachineName (drv w)) (StorePath (drv w))))))
             (hist w)).
Proof. reflexivity. Qed.

(** X28.  [GetSSHUsername] never returns the empty name: it returns the SSH
    user of the driver, after storing "docker" there when there is none.  It
    changes nothing else, asks nothing of the outside world, and a second
    call returns the same name and changes nothing; after
    [SetConfigFromFlags] the name is "docker". *)
Theorem GetSSHUsername_default (w : world) :
  exists u,
    GetSSHUsername w = (Ok u, mkWorld (set_SSHUser u (drv w)) (hist w))
    /\ u <> EmptyString
    /\ (SSHUser (drv w) <> EmptyString -> u = SSHUser (drv w))
    /\ (SSHUser (drv w) = EmptyString -> u = "docker")
    /\ GetSSHUsername (snd (GetSSHUsername w)) = GetSSHUsername w
    /\ (forall flags,
           fst (GetSSHUsername (snd (SetConfigFromFlags flags w))) = Ok "docker").
Proof.
  destruct w as [d h]. unfold GetSSHUsername, mbind, M_bind, M_bind_def, get_drv.
  cbn [drv hist].
  destruct (String.eqb_spec (SSHUser d) EmptyString) as [E|E].
  - exists "docker". cbn. repeat split; try congruence; discriminate.
  - exists (SSHUser d). cbn [mret M_ret M_ret_def snd fst drv hist].
    assert (Hd : set_SSHUser (SSHUser d) d = d) by (destruct d; reflexivity).
    rewrite Hd. cbn [drv].
    destruct (String.eqb_spec (SSHUser d) EmptyString) as [E'|_]; [contradiction|].
    repeat split; try congruence.
Qed.

(** ** Numbers in decimal: [Sprintf("%d")], [Atoi] and [dtoi] *)

Lemma append_String (a : ascii) (s r : string) : String a s +:+ r = String a (s +:+ r).
Proof. reflexivity. Qed.

Lemma append_empty_r (s : string) : s +:+ EmptyString = s.
Proof. induction s as [|a s IH]; [reflexivity|]. rewrite append_String, IH. reflexivity. Qed.

Lemma append_assoc (s1 s2 s3 : string) : (s1 +:+ s2) +:+ s3 = s1 +:+ (s2 +:+ s3).
Proof.
  induction s1 as [|a s1 IH]; [reflexivity|]. rewrite !append_String, IH. reflexivity.
Qed.

Lemma digits_value_uval (d : Decimal.uint) (acc : Z) :
  digits_value (NilEmpty.string_of_uint d) acc = uval d acc.
Proof.
  revert acc. induction d; intros acc; cbn [NilEmpty.string_of_uint digits_value uval];
    rewrite ?IHd; reflexivity.
Qed.

Lemma all_digits_uint (d : Decimal.uint) : all_digits (NilEmpty.string_of_uint d) = true.
Proof. induction d; cbn [NilEmpty.string_of_uint all_digits]; rewrite ?IHd; reflexivity. Qed.

Lemma uval_acc (d : Decimal.uint) (acc : positive) :
  uval d (Zpos acc) = Zpos (Pos.of_uint_acc d acc).
Proof.
  revert acc. induction d; intros acc; cbn [uval Pos.of_uint_acc]; [reflexivity|..].
  all: rewrite <- IHd; f_equal; lia.
Qed.

Lemma uval_0 (d : Decimal.uint) : uval d 0 = Z.of_N (Pos.of_uint d).
Proof.
  induction d; cbn [uval Pos.of_uint]; [reflexivity|exact IHd|..].
  all: match goal with
       | |- _ = Z.of_N (N.pos (Pos.of_uint_acc _ ?k)) => exact (uval_acc d k)
       end.
Qed.

Lemma uval_le (d : Decimal.uint) (acc : Z) : 0 <= acc -> acc <= uval d acc.
Proof.
  revert acc. induction d; intros acc Hacc; cbn [uval]; [lia|..].
  all: match goal with
       | |- _ <= uval _ ?x => specialize (IHd x ltac:(lia)); lia
       end.
Qed.

(** The text of a number that is not negative: digits, at least one, which
    denote the number. *)
Lemma itoa_digits (n : Z) :
  0 <= n ->
  exists d, d <> Decimal.Nil /\ itoa n = NilEmpty.string_of_uint d /\ uval d 0 = n.
Proof.
  intros Hn. destruct n as [|p|p]; [| |lia].
  - exists (Decimal.D0 Decimal.Nil). repeat split. discriminate.
  - exists (Pos.to_uint p). pose proof (DecimalPos.Unsigned.to_uint_nonnil p) as Hnil.
    split; [exact Hnil|]. split.
    + unfold itoa. cbn [Z.to_int NilZero.string_of_int]. unfold NilZero.string_of_uint.
      destruct (Pos.to_uint p); [contradiction|reflexivity..].
    + rewrite uval_0, DecimalPos.Unsigned.of_to. reflexivity.
Qed.

(** [Atoi] reads back what [Sprintf("%d")] wrote. *)
Lemma Atoi_itoa (n : Z) : 0 <= n < 2 ^ 63 -> Atoi (itoa n) = Some n.
Proof.
  intros Hn. destruct (itoa_digits n) as (d & Hnil & -> & Hv); [lia|].
  pose proof (all_digits_uint d) as Hall. pose proof (digits_value_uval d 0) as Hdv.
  rewrite Hv in Hdv.
  assert (Hrange : (n <? - 2 ^ 63) || (2 ^ 63 - 1 <? n) = false).
  { apply orb_false_iff. split; apply Z.ltb_ge; lia. }
  destruct d; [contradiction|..];
    cbn [NilEmpty.string_of_uint] in *; unfold Atoi; rewrite Hall, Hdv;
    cbv zeta; rewrite Hrange; reflexivity.
Qed.

Lemma SplitN_colon_2_local (s : string) :
  SplitN_colon_2 ("127.0.0.1:" +:+ s) = ["127.0.0.1"; s].
Proof. reflexivity. Qed.

(** X29.  When the listener that [getAvailableTCPPort] opens first is bound
    to [127.0.0.1:p] for a port [p] between 1 and 2^63 - 1 (the requested
    port, or the one that the host chose for the request of port 0), the
    function reads [p] back from the address, returns it after this one
    attempt, and closes the listener. *)
Theorem getAvailableTCPPort_reads_bound_port (env : Env) (port p : Z) (w : world) :
  0 < p < 2 ^ 63 ->
  env_net_Listen env (hist w) "tcp4" ("127.0.0.1:" +:+ itoa port)
  = inr ("127.0.0.1:" +:+ itoa p) ->
  getAvailableTCPPort env port w
  = (Ok p,
     mkWorld (drv w)
             (hist w ++ [Ev (NetListen "tcp4" ("127.0.0.1:" +:+ itoa port))
                            (RStr ("127.0.0.1:" +:+ itoa p));
                         close_event ("127.0.0.1:" +:+ itoa p)])).
Proof.
  intros Hp Hl. unfold getAvailableTCPPort. cbn [getAvailableTCPPort_loop].
  unfold mbind, M_bind, M_bind_def, net_Listen, ask. rewrite Hl.
  cbv beta iota zeta. rewrite SplitN_colon_2_local. cbn [lookup list_lookup].
  rewrite Atoi_itoa by lia.
  replace (p =? 0) with false by (symmetry; apply Z.eqb_neq; lia).
  cbn [negb]. rewrite close_all_run.
  unfold mret, M_ret, M_ret_def, record, reply_of_res, close_event. cbn [drv hist map].
  rewrite <- app_assoc. reflexivity.
Qed.

Lemma getAvailableTCPPort_reads_bound_port_witness :
  getAvailableTCPPort (Sim.env_of (Sim.plain "poweroff")) 2222 Sim.world0
  = (Ok 2222,
     mkWorld (drv Sim.world0)
             (hist Sim.world0 ++ [Ev (NetListen "tcp4" ("127.0.0.1:" +:+ itoa 2222))
                                     (RStr ("127.0.0.1:" +:+ itoa 2222));
                                  close_event ("127.0.0.1:" +:+ itoa 2222)])).
Proof.
  apply (getAvailableTCPPort_reads_bound_port (Sim.env_of (Sim.plain "poweroff"))
           2222 2222 Sim.world0).
  - lia.
  - vm_compute. reflexivity.
Defined.

(** ** Host-only networks in the dotted notation *)

Lemma dtoi_loop_uint (d : Decimal.uint) :
  forall (acc : Z) (rest : string),
    0 <= acc -> uval d acc < big -> no_digit_ahead rest = true ->
    dtoi_loop (NilEmpty.string_of_uint d +:+ rest) acc = Some (uval d acc, rest).
Proof.
  induction d; intros acc rest Hacc Hbig Hrest;
    cbn [NilEmpty.string_of_uint uval] in *; rewrite ?append_String.
  { change (EmptyString +:+ rest) with rest. destruct rest as [|c r]; [reflexivity|].
    cbn [no_digit_ahead] in Hrest. apply negb_true_iff in Hrest.
    cbn [dtoi_loop]. rewrite Hrest. reflexivity. }
  all: cbn [dtoi_loop];
    match goal with
    | |- context [is_digit ?c] => change (is_digit c) with true
    end; cbv beta iota zeta;
    match goal with
    | H : uval ?l ?x < big, IH : forall _ _, _ |- context [big <=? ?y] =>
        change y with x;
        pose proof (uval_le l x ltac:(lia)) as Hle;
        replace (big <=? x) with false by (symmetry; apply Z.leb_gt; lia);
        apply IH; [lia|exact H|exact Hrest]
    end.
Qed.

Lemma itoa_nonempty (n : Z) (rest : string) :
  0 <= n -> exists c s, itoa n +:+ rest = String c s /\ is_digit c = true.
Proof.
  intros Hn. destruct (itoa_digits n Hn) as (d & Hnil & -> & _).
  destruct d; [contradiction|..]; cbn [NilEmpty.string_of_uint]; rewrite append_String;
    eexists _, _; (split; [reflexivity|reflexivity]).
Qed.

(** [dtoi] reads back what [Sprintf("%d")] wrote, up to the first character
    that is not a digit. *)
Lemma dtoi_itoa (n : Z) (rest : string) :
  0 <= n < big -> no_digit_ahead rest = true -> dtoi (itoa n +:+ rest) = Some (n, rest).
Proof.
  intros Hn Hrest. destruct (itoa_nonempty n rest) as (c & s & Hs & Hc); [lia|].
  unfold dtoi. rewrite Hs, Hc, <- Hs.
  destruct (itoa_digits n) as (d & Hnil & -> & Hv); [lia|].
  rewrite dtoi_loop_uint; rewrite ?Hv; auto; lia.
Qed.

Lemma parseIPv4_loop_first (k : nat) (n : Z) (rest : string) :
  0 <= n <= 255 -> no_digit_ahead rest = true ->
  parseIPv4_loop (S k) true (itoa n +:+ rest)
  = match parseIPv4_loop k false rest with
    | None => None
    | Some (p, r) => Some (n :: p, r)
    end.
Proof.
  intros Hn Hrest. destruct (itoa_nonempty n rest) as (c & s & Hs & Hc); [lia|].
  rewrite Hs. cbn [parseIPv4_loop]. rewrite <- Hs.
  rewrite dtoi_itoa by (unfold big; auto; lia).
  replace (255 <? n) with false by (symmetry; apply Z.ltb_ge; lia).
  unfold byte_of_int. rewrite Z.mod_small by lia. reflexivity.
Qed.

Lemma parseIPv4_loop_next (k : nat) (n : Z) (rest : string) :
  0 <= n <= 255 -> no_digit_ahead rest = true ->
  parseIPv4_loop (S k) false ("." +:+ itoa n +:+ rest)
  = match parseIPv4_loop k false rest with
    | None => None
    | Some (p, r) => Some (n :: p, r)
    end.
Proof.
  intros Hn Hrest. change ("." +:+ itoa n +:+ rest) with (String "." (itoa n +:+ rest)).
  cbn [parseIPv4_loop]. change (Ascii.eqb "." ".") with true. cbv iota.
  rewrite dtoi_itoa by (unfold big; auto; lia).
  replace (255 <? n) with false by (symmetry; apply Z.ltb_ge; lia).
  unfold byte_of_int. rewrite Z.mod_small by lia. reflexivity.
Qed.

(** [parseIPv4] reads the four octets of a dotted address. *)
Lemma parseIPv4_quad (a b c d : Z) :
  0 <= a <= 255 -> 0 <= b <= 255 -> 0 <= c <= 255 -> 0 <= d <= 255 ->
  parseIPv4 (quad a b c d) = Some (IPv4 a b c d).
Proof.
  intros Ha Hb Hc Hd. unfold parseIPv4, quad, IPv4len.
  rewrite <- (append_empty_r (itoa d)).
  rewrite parseIPv4_loop_first, !parseIPv4_loop_next by (auto; reflexivity).
  reflexivity.
Qed.

Lemma no_slash_app (s1 s2 : string) : no_slash (s1 +:+ s2) = no_slash s1 && no_slash s2.
Proof.
  induction s1 as [|c s1 IH]; [reflexivity|].
  rewrite append_String. cbn [no_slash]. rewrite IH, andb_assoc. reflexivity.
Qed.

Lemma no_slash_itoa (n : Z) : 0 <= n -> no_slash (itoa n) = true.
Proof.
  intros Hn. destruct (itoa_digits n Hn) as (d & _ & -> & _).
  induction d; cbn [NilEmpty.string_of_uint no_slash]; rewrite ?IHd; reflexivity.
Qed.

Lemma split_slash_app (s m : string) :
  no_slash s = true -> split_slash (s +:+ String "/" m) = Some (s, m).
Proof.
  induction s as [|c s IH]; intros H; [reflexivity|].
  cbn [no_slash] in H. apply andb_true_iff in H. destruct H as [Hc Hs].
  rewrite append_String. cbn [split_slash]. apply negb_true_iff in Hc.
  rewrite Hc, (IH Hs). reflexivity.
Qed.

Lemma CIDRMask_32 (n : Z) :
  0 <= n <= 32 -> exists m0 m1 m2 m3, CIDRMask n 32 = [m0; m1; m2; m3].
Proof.
  intros Hn. unfold CIDRMask.
  change (negb (32 =? 8 * Z.of_nat IPv4len) && negb (32 =? 8 * Z.of_nat IPv6len)) with false.
  replace ((n <? 0) || (32 <? n)) with false
    by (symmetry; apply orb_false_iff; split; apply Z.ltb_ge; lia).
  cbv iota. change (Z.to_nat (32 / 8)) with 4%nat. cbn [CIDRMask_bytes].
  repeat match goal with
         | |- context [if ?b then _ else _] => destruct b
         end; eexists _, _, _, _; reflexivity.
Qed.

(** X30.  A host-only CIDR in the dotted notation [a.b.c.d/n], with octets
    up to 255 and at most 32 bits of prefix, is parsed as an IPv4 network.
    [parseAndValidateCIDR] refuses it exactly when the address is the address
    of the network itself (the bits outside the mask are all zero), and
    otherwise returns the address with the network, whose address is the
    four bytes of [a.b.c.d] under the mask. *)
Theorem parseAndValidateCIDR_dotted (a b c d n : Z) :
  0 <= a <= 255 -> 0 <= b <= 255 -> 0 <= c <= 255 -> 0 <= d <= 255 -> 0 <= n <= 32 ->
  parseAndValidateCIDR (dotted a b c d n)
  = let mask := CIDRMask n 32 in
    let network := and_bytes [a; b; c; d] mask in
    if bool_decide ([a; b; c; d] = network) then inl ErrNetworkAddrCidr
    else inr (IPv4 a b c d, mkIPNet network mask).
Proof.
  intros Ha Hb Hc Hd Hn. unfold parseAndValidateCIDR, ParseCIDR, dotted.
  change ("/" +:+ itoa n) with (String "/" (itoa n)).
  rewrite split_slash_app.
  2:{ unfold quad. rewrite !no_slash_app, !no_slash_itoa by lia. reflexivity. }
  rewrite parseIPv4_quad by assumption.
  rewrite <- (append_empty_r (itoa n)), dtoi_itoa by (unfold big; auto; lia).
  change (8 * Z.of_nat IPv4len) with 32.
  replace ((n <? 0) || (32 <? n)) with false
    by (symmetry; apply orb_false_iff; split; apply Z.ltb_ge; lia).
  cbv beta iota zeta.
  destruct (CIDRMask_32 n Hn) as (m0 & m1 & m2 & m3 & ->).
  reflexivity.
Qed.

Lemma parseAndValidateCIDR_dotted_witness :
  parseAndValidateCIDR (dotted 192 168 99 1 24)
  = inr (IPv4 192 168 99 1, mkIPNet [192; 168; 99; 0] [255; 255; 255; 0])
  /\ parseAndValidateCIDR (dotted 192 168 99 0 24) = inl ErrNetworkAddrCidr.
Proof.
  split.
  - rewrite (parseAndValidateCIDR_dotted 192 168 99 1 24) by lia. reflexivity.
  - reflexivity.
Defined.
